(** * Assistant Manager backend: a shallow embedding and its checked properties

    The development follows the Python sources under [backend/app]:
    - [agents/assistant_agent.py]: the in-memory [AgentState], its
      [to_dict]/[from_dict] pair and the [_analyze_request] stage;
    - [services/llm_service.py]: the keyword fallback of the email parser;
    - [models/database.py]: the peewee tables and [cleanup_old_data];
    - [tools/kanban_tools.py], [api/kanban.py], [api/emails.py]: the task
      and change-record write paths;
    - [tools/git_tools.py], [tools/email_tools.py]: publishing and the
      email parsing tool.

    Tables are finite maps from the primary key to the row, Python
    exceptions are values of [PyExc] threaded through a state-and-error
    monad, and every [datetime.now()] reads the next value of a clock. *)

From Stdlib Require Import ZArith NArith Ascii String List Lia.
From stdpp Require Import base option list strings gmap fin_maps pretty.

Open Scope string_scope.
Open Scope Z_scope.
Set Warnings "-register-all".

(** ** Python strings *)

Module Str.

(** [str.lower()] on ASCII text. *)
Definition lower_ascii (c : ascii) : ascii :=
  let n := N_of_ascii c in
  if ((65 <=? n) && (n <=? 90))%N then ascii_of_N (n + 32) else c.

Fixpoint lower (s : string) : string :=
  match s with
  | EmptyString => EmptyString
  | String c s' => String (lower_ascii c) (lower s')
  end.

(** [sub in s]: the substring test of Python's [in] on [str]. *)
Fixpoint contains (sub s : string) : bool :=
  String.prefix sub s
  || match s with
     | EmptyString => false
     | String _ s' => contains sub s'
     end.

(** [any(word in text for word in words)]. *)
Definition any_in (words : list string) (text : string) : bool :=
  existsb (fun word => contains word text) words.

(** [s[:n]]. *)
Definition take_str (n : nat) (s : string) : string := String.substring 0 n s.

(** The declarative reading of the substring test. *)
Definition is_substring (sub s : string) : Prop :=
  exists pre post, s = pre ++ sub ++ post.

Lemma prefix_true_iff (sub s : string) :
  String.prefix sub s = true <-> exists post, s = sub ++ post.
Proof.
  revert s. induction sub as [|a sub IH]; intros s.
  - split; [intros _; exists s; reflexivity | intros _; destruct s; reflexivity].
  - destruct s as [|b s]; simpl.
    + split; [discriminate | intros [post H]; discriminate].
    + destruct (Ascii.ascii_dec a b) as [->|Hne].
      * rewrite IH. split; intros [post H]; exists post.
        -- now rewrite H.
        -- now injection H.
      * split; [discriminate | intros [post H]; injection H; congruence].
Qed.

Lemma contains_spec (sub s : string) :
  contains sub s = true <-> is_substring sub s.
Proof.
  unfold is_substring. induction s as [|c s IH]; cbn [contains].
  - rewrite orb_false_r, prefix_true_iff. split.
    + intros [post H]. exists EmptyString, post. exact H.
    + intros [pre [post H]]. destruct pre; simpl in H.
      * exists post. exact H.
      * discriminate.
  - rewrite orb_true_iff, prefix_true_iff, IH. split.
    + intros [[post H] | [pre [post H]]].
      * exists EmptyString, post. exact H.
      * exists (String c pre), post. simpl. now rewrite H.
    + intros [pre [post H]]. destruct pre as [|d pre]; simpl in H.
      * left. exists post. exact H.
      * right. exists pre, post. now injection H.
Qed.

Lemma any_in_spec (words : list string) (text : string) :
  any_in words text = true <->
  exists word, In word words /\ is_substring word text.
Proof.
  unfold any_in. rewrite existsb_exists.
  split; intros [w [Hin H]]; exists w; split; auto; now apply contains_spec.
Qed.

Lemma any_in_false (words : list string) (text : string) :
  any_in words text = false <->
  forall word, In word words -> ~ is_substring word text.
Proof.
  rewrite <- not_true_iff_false, any_in_spec. split.
  - intros H w Hin Hs. apply H. now exists w.
  - intros H [w [Hin Hs]]. now apply (H w).
Qed.

End Str.
Import Str.

(** ** First-match keyword tables

    The classifiers of the agent and of the fallback parser are decision
    tables: an ordered list of keyword families, each with its label; the
    first family one of whose keywords occurs in the text wins. *)

Module Keywords.

Definition table := list (string * list string).

(** The loop [for label, keywords in table.items(): if any(...): return
    label] followed by [return default] (dictionaries iterate in
    insertion order). *)
Fixpoint detect (tbl : table) (default text : string) : string :=
  match tbl with
  | [] => default
  | (label, keywords) :: rest =>
      if any_in keywords text then label else detect rest default text
  end.

(** A family matches a text when one of its keywords occurs in it. *)
Definition family_matches (keywords : list string) (text : string) : Prop :=
  exists word, In word keywords /\ is_substring word text.

(** The declarative reading of "first matching family, in table order". *)
Definition FirstMatch (tbl : table) (default text result : string) : Prop :=
  (exists (i : nat) keywords,
      tbl !! i = Some (result, keywords) /\
      family_matches keywords text /\
      forall (j : nat) label' keywords',
        (j < i)%nat -> tbl !! j = Some (label', keywords') ->
        ~ family_matches keywords' text)
  \/ ((forall label keywords,
         In (label, keywords) tbl -> ~ family_matches keywords text) /\
      result = default).

Lemma family_matches_any_in keywords text :
  family_matches keywords text <-> any_in keywords text = true.
Proof. unfold family_matches. now rewrite any_in_spec. Qed.

Lemma detect_first_match (tbl : table) (default text : string) :
  FirstMatch tbl default text (detect tbl default text).
Proof.
  induction tbl as [|[label keywords] rest IH]; simpl.
  - right. split; [intros ? ? [] | reflexivity].
  - destruct (any_in keywords text) eqn:Hany.
    + left. exists 0%nat, keywords. split; [reflexivity|]. split.
      * now apply family_matches_any_in.
      * intros j ? ? Hj. lia.
    + assert (Hno : ~ family_matches keywords text).
      { rewrite family_matches_any_in, Hany. discriminate. }
      destruct IH as [(i & kws & Hi & Hm & Hbefore) | [Hnone Hdef]].
      * left. exists (S i), kws. split; [exact Hi|]. split; [exact Hm|].
        intros [|j] label' keywords' Hj Hlook.
        -- simpl in Hlook. injection Hlook as <- <-. exact Hno.
        -- simpl in Hlook. apply (Hbefore j label' keywords'); [lia | exact Hlook].
      * right. split; [|exact Hdef].
        intros l k [Heq | Hin].
        -- injection Heq as <- <-. exact Hno.
        -- now apply (Hnone l k).
Qed.

Lemma detect_no_match (tbl : table) (default text : string) :
  (forall label keywords, In (label, keywords) tbl -> any_in keywords text = false) ->
  detect tbl default text = default.
Proof.
  induction tbl as [|[label keywords] rest IH]; simpl; intros H; [reflexivity|].
  rewrite (H label keywords) by now left.
  apply IH. intros l k Hin. apply (H l k). now right.
Qed.

End Keywords.

(** ** Python values, exceptions and results *)

(** The dynamically typed values the code stores in dictionaries and in
    JSON columns. *)
Inductive PyValue :=
| PyNone
| PyBool (b : bool)
| PyInt (n : Z)
| PyStr (s : string)
| PyList (items : list PyValue)
| PyDict (entries : gmap string PyValue).

(** Truthiness, as [if value:] and [not value] read it. *)
Definition truthy (v : PyValue) : bool :=
  match v with
  | PyNone => false
  | PyBool b => b
  | PyInt n => negb (n =? 0)
  | PyStr s => negb (String.eqb s "")
  | PyList items => match items with [] => false | _ => true end
  | PyDict entries => negb (bool_decide (size entries = 0%nat))
  end.

(** The exceptions the modelled code raises or meets. [HTTPException] is
    FastAPI's; every one of them is an instance of [Exception], so a
    handler [except Exception] catches them all. *)
Inductive PyExc :=
| HTTPException (status_code : Z) (detail : string)
| NameError (name : string)
| AttributeError (obj attr : string)
| IndexError (msg : string)
| KeyError (key : string)
| TypeError (msg : string)
| ValueError (msg : string)
| DoesNotExist (model : string)
| CalledProcessError (cmd : string)
| OSError (msg : string).

Inductive Result (A : Type) :=
| Ok (a : A)
| Raise (e : PyExc).
Arguments Ok {A} a.
Arguments Raise {A} e.

(** [str(e)] for the exceptions whose text the handlers embed; an
    [HTTPException] prints as Starlette prints it, status then detail. *)
Definition str_exc (e : PyExc) : string :=
  match e with
  | HTTPException status_code detail => pretty status_code ++ ": " ++ detail
  | NameError name => "name '" ++ name ++ "' is not defined"
  | AttributeError obj attr =>
      "'" ++ obj ++ "' object has no attribute '" ++ attr ++ "'"
  | IndexError msg | TypeError msg | ValueError msg | OSError msg => msg
  | KeyError key => "'" ++ key ++ "'"
  | DoesNotExist model => model ++ " matching query does not exist"
  | CalledProcessError cmd => "Command '" ++ cmd ++ "' returned non-zero exit status"
  end.

(** Code that can raise but has no other effect. *)
Module Exc.

Definition bind {A B} (r : Result A) (k : A -> Result B) : Result B :=
  match r with
  | Ok a => k a
  | Raise e => Raise e
  end.

(** [try: body / except Exception as e: handler(e)]. *)
Definition try_except {A} (body : Result A) (handler : PyExc -> A) : A :=
  match body with
  | Ok a => a
  | Raise e => handler e
  end.

End Exc.

(** Module-level name lookup: a global that no import or definition of
    the module binds (and that is no builtin) raises [NameError]. *)
Definition lookup_global (module_globals : list string) (name : string) : Result unit :=
  if bool_decide (name ∈ module_globals) then Ok tt else Raise (NameError name).

(** Naive local time, counted in microseconds. *)
Definition datetime := Z.

(** [timedelta(days=n)]. *)
Definition timedelta_days (n : Z) : Z := n * 86400000000.

(** ** The agent's in-memory state ([agents/assistant_agent.py]) *)

Module Agent.

(** [langchain.schema.BaseMessage]: the agent itself stores
    [HumanMessage] ([process_message]) and [AIMessage] ([_handle_result]);
    [OtherMessage] stands for the remaining subclasses, named by
    [type(msg).__name__]. *)
Inductive BaseMessage :=
| HumanMessage (content : string)
| AIMessage (content : string)
| OtherMessage (type_name : string) (content : string).

Definition content (msg : BaseMessage) : string :=
  match msg with
  | HumanMessage c | AIMessage c | OtherMessage _ c => c
  end.

(** [type(msg).__name__]. *)
Definition type_name (msg : BaseMessage) : string :=
  match msg with
  | HumanMessage _ => "HumanMessage"
  | AIMessage _ => "AIMessage"
  | OtherMessage name _ => name
  end.

Definition is_human_or_ai (msg : BaseMessage) : Prop :=
  match msg with
  | HumanMessage _ | AIMessage _ => True
  | OtherMessage _ _ => False
  end.

Record AgentState := mkAgentState {
  current_workflow : option string;
  active_tasks : list PyValue;
  pending_approvals : list PyValue;
  last_activity : datetime;
  context : gmap string PyValue;
  messages : list BaseMessage;
  error_count : Z;
  last_error : option string;
  workflow_step : string
}.

(** [AgentState.__init__]; [now] is the value of its [datetime.now()]. *)
Definition init (now : datetime) : AgentState :=
  {| current_workflow := None; active_tasks := []; pending_approvals := [];
     last_activity := now; context := ∅; messages := []; error_count := 0;
     last_error := None; workflow_step := "idle" |}.

Definition set_workflow_step (step : string) (st : AgentState) : AgentState :=
  {| current_workflow := current_workflow st; active_tasks := active_tasks st;
     pending_approvals := pending_approvals st; last_activity := last_activity st;
     context := context st; messages := messages st; error_count := error_count st;
     last_error := last_error st; workflow_step := step |}.

Definition set_last_activity (now : datetime) (st : AgentState) : AgentState :=
  {| current_workflow := current_workflow st; active_tasks := active_tasks st;
     pending_approvals := pending_approvals st; last_activity := now;
     context := context st; messages := messages st; error_count := error_count st;
     last_error := last_error st; workflow_step := workflow_step st |}.

(** [state.context[key] = value]. *)
Definition set_context (key : string) (value : PyValue) (st : AgentState) : AgentState :=
  {| current_workflow := current_workflow st; active_tasks := active_tasks st;
     pending_approvals := pending_approvals st; last_activity := last_activity st;
     context := <[key := value]> (context st); messages := messages st;
     error_count := error_count st; last_error := last_error st;
     workflow_step := workflow_step st |}.

(** [self.state.messages.append(HumanMessage(content=message))], the
    first step of [process_message]. *)
Definition receive (message : string) (st : AgentState) : AgentState :=
  {| current_workflow := current_workflow st; active_tasks := active_tasks st;
     pending_approvals := pending_approvals st; last_activity := last_activity st;
     context := context st; messages := messages st ++ [HumanMessage message];
     error_count := error_count st; last_error := last_error st;
     workflow_step := workflow_step st |}.

(** The [if]/[elif] chain of [_analyze_request] on the lower-cased latest
    message. *)
Definition classify (latest_message : string) : string :=
  if any_in ["email"; "send"; "update"; "request"] latest_message then "send_emails"
  else if any_in ["response"; "reply"; "check"; "monitor"] latest_message then "check_responses"
  else if any_in ["task"; "create"; "add"] latest_message then "create_task"
  else if any_in ["status"; "summary"; "report"] latest_message then "generate_report"
  else if any_in ["kanban"; "board"] latest_message then "board_status"
  else if any_in ["github"; "publish"; "sync"; "pages"] latest_message then "publish_to_github"
  else "general_query".

(** [_analyze_request]; [now] is the value of the [datetime.now()] read
    after classification. Nothing in the [try] body raises on states of
    this type, so the [except] branch (action ["error"]) is never taken. *)
Definition _analyze_request (now : datetime) (state : AgentState) : AgentState :=
  let state := set_workflow_step "analyzing" state in
  match last (messages state) with
  | None => set_context "action" (PyStr "status_check") state
  | Some msg =>
      let latest_message := lower (content msg) in
      let state := set_context "action" (PyStr (classify latest_message)) state in
      set_last_activity now state
  end.

(** The keyword families in the order the specification lists them. *)
Definition intent_families : Keywords.table :=
  [ ("send_emails", ["email"; "send"; "update"; "request"]);
    ("check_responses", ["response"; "reply"; "check"; "monitor"]);
    ("create_task", ["task"; "create"; "add"]);
    ("generate_report", ["status"; "summary"; "report"]);
    ("board_status", ["kanban"; "board"]);
    ("publish_to_github", ["github"; "publish"; "sync"; "pages"]) ].

Lemma classify_detect (text : string) :
  classify text = Keywords.detect intent_families "general_query" text.
Proof.
  unfold classify, intent_families. cbn [Keywords.detect].
  repeat (match goal with |- context [any_in ?ws text] => destruct (any_in ws text) end;
          [reflexivity|]).
  reflexivity.
Qed.

(** *** Persistence: [to_dict] and [from_dict]

    [datetime.isoformat] and [datetime.fromisoformat] belong to Python's
    standard library; they are parameters here ([None] stands for the
    [ValueError] of an unparsable text). *)

Section Serialization.

Variable isoformat : datetime -> string.
Variable fromisoformat : string -> option datetime.

(** [value] for [Optional[str]] fields. *)
Definition of_optional_str (v : option string) : PyValue :=
  match v with
  | None => PyNone
  | Some s => PyStr s
  end.

(** [l[-n:]]. *)
Definition last_n {A} (n : nat) (l : list A) : list A :=
  drop (length l - n) l.

Definition message_to_dict (msg : BaseMessage) : PyValue :=
  PyDict (list_to_map [("type", PyStr (type_name msg)); ("content", PyStr (content msg))]).

Definition to_dict (self : AgentState) : gmap string PyValue :=
  list_to_map
    [ ("current_workflow", of_optional_str (current_workflow self));
      ("active_tasks", PyList (active_tasks self));
      ("pending_approvals", PyList (pending_approvals self));
      ("last_activity", PyStr (isoformat (last_activity self)));
      ("context", PyDict (context self));
      ("error_count", PyInt (error_count self));
      ("last_error", of_optional_str (last_error self));
      ("workflow_step", PyStr (workflow_step self));
      ("messages", PyList (message_to_dict <$> last_n 10 (messages self))) ].

(** [data.get(key, default)]. *)
Definition dict_get (data : gmap string PyValue) (key : string) (default : PyValue) : PyValue :=
  match data !! key with
  | Some v => v
  | None => default
  end.

(** The record is typed where Python is not: a persisted value of another
    shape than the field's annotation has no counterpart in [AgentState]
    and is reported as a [TypeError] of the model. *)
Definition as_optional_str (v : PyValue) : Result (option string) :=
  match v with
  | PyNone => Ok None
  | PyStr s => Ok (Some s)
  | _ => Raise (TypeError "Optional[str] expected")
  end.

Definition as_str (v : PyValue) : Result string :=
  match v with
  | PyStr s => Ok s
  | _ => Raise (TypeError "str expected")
  end.

Definition as_int (v : PyValue) : Result Z :=
  match v with
  | PyInt n => Ok n
  | _ => Raise (TypeError "int expected")
  end.

Definition as_list (v : PyValue) : Result (list PyValue) :=
  match v with
  | PyList items => Ok items
  | _ => Raise (TypeError "list expected")
  end.

Definition as_dict (v : PyValue) : Result (gmap string PyValue) :=
  match v with
  | PyDict entries => Ok entries
  | _ => Raise (TypeError "dict expected")
  end.

(** [value == text] for a string literal [text]. *)
Definition eq_str (v : PyValue) (text : string) : bool :=
  match v with
  | PyStr s => String.eqb s text
  | _ => false
  end.

(** [msg_data[key]]. *)
Definition subscript (msg_data : PyValue) (key : string) : Result PyValue :=
  match msg_data with
  | PyDict entries =>
      match entries !! key with
      | Some v => Ok v
      | None => Raise (KeyError key)
      end
  | _ => Raise (TypeError "object is not subscriptable")
  end.

(** The loop that rebuilds the messages: a ["HumanMessage"] or
    ["AIMessage"] entry is appended, an entry with any other type tag is
    skipped (the [if]/[elif] has no [else]). *)
Fixpoint reconstruct_messages (messages_data : list PyValue) : Result (list BaseMessage) :=
  match messages_data with
  | [] => Ok []
  | msg_data :: rest =>
      Exc.bind (subscript msg_data "type") (fun ty =>
      if eq_str ty "HumanMessage" then
        Exc.bind (subscript msg_data "content") (fun c =>
        Exc.bind (as_str c) (fun c =>
        Exc.bind (reconstruct_messages rest) (fun msgs =>
        Ok (HumanMessage c :: msgs))))
      else if eq_str ty "AIMessage" then
        Exc.bind (subscript msg_data "content") (fun c =>
        Exc.bind (as_str c) (fun c =>
        Exc.bind (reconstruct_messages rest) (fun msgs =>
        Ok (AIMessage c :: msgs))))
      else reconstruct_messages rest)
  end.

(** [AgentState.from_dict]; [now] is the value of the [datetime.now()]
    whose ISO text is the default of [last_activity]. *)
Definition from_dict (now : datetime) (data : gmap string PyValue) : Result AgentState :=
  Exc.bind (as_optional_str (dict_get data "current_workflow" PyNone)) (fun current_workflow =>
  Exc.bind (as_list (dict_get data "active_tasks" (PyList []))) (fun active_tasks =>
  Exc.bind (as_list (dict_get data "pending_approvals" (PyList []))) (fun pending_approvals =>
  Exc.bind (as_str (dict_get data "last_activity" (PyStr (isoformat now)))) (fun iso =>
  Exc.bind (match fromisoformat iso with
            | Some t => Ok t
            | None => Raise (ValueError ("Invalid isoformat string: " ++ iso))
            end) (fun last_activity =>
  Exc.bind (as_dict (dict_get data "context" (PyDict ∅))) (fun context =>
  Exc.bind (as_int (dict_get data "error_count" (PyInt 0))) (fun error_count =>
  Exc.bind (as_optional_str (dict_get data "last_error" PyNone)) (fun last_error =>
  Exc.bind (as_str (dict_get data "workflow_step" (PyStr "idle"))) (fun workflow_step =>
  Exc.bind (as_list (dict_get data "messages" (PyList []))) (fun messages_data =>
  Exc.bind (reconstruct_messages messages_data) (fun messages =>
  Ok {| current_workflow := current_workflow; active_tasks := active_tasks;
        pending_approvals := pending_approvals; last_activity := last_activity;
        context := context; messages := messages; error_count := error_count;
        last_error := last_error; workflow_step := workflow_step |}))))))))))).

Lemma reconstruct_messages_to_dict (msgs : list BaseMessage) :
  Forall is_human_or_ai msgs ->
  reconstruct_messages (message_to_dict <$> msgs) = Ok msgs.
Proof.
  induction 1 as [|msg msgs Hmsg _ IH]; [reflexivity|].
  rewrite fmap_cons. cbn [reconstruct_messages].
  destruct msg as [c|c|name c]; [| |destruct Hmsg].
  - change (subscript (message_to_dict (HumanMessage c)) "type") with (Ok (A:=PyValue) (PyStr "HumanMessage")).
    cbn [Exc.bind eq_str]. rewrite String.eqb_refl.
    change (subscript (message_to_dict (HumanMessage c)) "content") with (Ok (A:=PyValue) (PyStr c)).
    cbn [Exc.bind as_str]. rewrite IH. reflexivity.
  - change (subscript (message_to_dict (AIMessage c)) "type") with (Ok (A:=PyValue) (PyStr "AIMessage")).
    cbn [Exc.bind eq_str].
    change (String.eqb "AIMessage" "HumanMessage") with false.
    rewrite String.eqb_refl.
    change (subscript (message_to_dict (AIMessage c)) "content") with (Ok (A:=PyValue) (PyStr c)).
    cbn [Exc.bind as_str]. rewrite IH. reflexivity.
Qed.

Lemma last_n_length {A} (n : nat) (l : list A) :
  (n <= length l)%nat -> length (last_n n l) = n.
Proof. intros H. unfold last_n. rewrite length_drop. lia. Qed.

Lemma Forall_last_n {A} (P : A -> Prop) (n : nat) (l : list A) :
  Forall P l -> Forall P (last_n n l).
Proof. intros H. unfold last_n. now apply Forall_drop. Qed.

End Serialization.

End Agent.

(** ** The language-model service ([services/llm_service.py]) *)

Module LLMService.

(** [str.strip()], [str.split('\n')] and [len] on ASCII text. *)
Definition is_space (c : ascii) : bool :=
  let n := N_of_ascii c in
  (((9 <=? n) && (n <=? 13)) || ((28 <=? n) && (n <=? 32)))%N.

Fixpoint lstrip (s : string) : string :=
  match s with
  | EmptyString => EmptyString
  | String c s' => if is_space c then lstrip s' else s
  end.

Fixpoint rstrip (s : string) : string :=
  match s with
  | EmptyString => EmptyString
  | String c s' =>
      match rstrip s' with
      | EmptyString => if is_space c then EmptyString else String c EmptyString
      | r => String c r
      end
  end.

Definition strip (s : string) : string := lstrip (rstrip s).

Definition newline : ascii := ascii_of_nat 10.

Fixpoint split_lines (s : string) : list string :=
  match s with
  | EmptyString => [EmptyString]
  | String c s' =>
      if Ascii.eqb c newline then EmptyString :: split_lines s'
      else match split_lines s' with
           | [] => [String c EmptyString]
           | line :: lines => String c line :: lines
           end
  end.

Definition len (s : string) : Z := Z.of_nat (String.length s).

(** [s[n:]]. *)
Fixpoint drop_str (n : nat) (s : string) : string :=
  match n, s with
  | O, _ => s
  | S n', String _ s' => drop_str n' s'
  | S _, EmptyString => EmptyString
  end.

(** [re.sub(r'^(Re:|Fwd:|Subject:)', '', line, flags=re.IGNORECASE)]: the
    first alternative that is a prefix of the line, letter case apart, is
    removed once. *)
Definition remove_subject_prefix (line : string) : string :=
  let l := lower line in
  if String.prefix "re:" l then drop_str 3 line
  else if String.prefix "fwd:" l then drop_str 4 line
  else if String.prefix "subject:" l then drop_str 8 line
  else line.

(** The [for line in lines[:5]] loop of [_extract_task_title]. *)
Fixpoint first_title (lines : list string) : option string :=
  match lines with
  | [] => None
  | line :: rest =>
      let line := strip line in
      if negb (String.eqb line "") && (len line <? 100)
         && negb (existsb (fun greeting => String.prefix greeting line)
                    ["Hi"; "Hello"; "Dear"; "Thanks"])
      then
        let title := strip (remove_subject_prefix line) in
        if negb (String.eqb title "") then Some (take_str 50 title)
        else first_title rest
      else first_title rest
  end.

Definition _extract_task_title (content : string) : string :=
  match first_title (take 5 (split_lines (strip content))) with
  | Some title => title
  | None => "Email Update"
  end.

(** The dictionaries of [_detect_status] and [_detect_priority], in
    insertion order. *)
Definition status_keywords : Keywords.table :=
  [ ("done", ["done"; "completed"; "finished"; "complete"; "delivered"]);
    ("blocked", ["blocked"; "stuck"; "issue"; "problem"; "blocker"; "waiting"]);
    ("review", ["review"; "feedback"; "check"; "testing"; "qa"]);
    ("todo", ["starting"; "begin"; "todo"; "plan"; "will start"]);
    ("in_progress", ["working"; "progress"; "developing"; "coding"; "implementing"]) ].

Definition _detect_status (content_lower : string) : string :=
  Keywords.detect status_keywords "in_progress" content_lower.

Definition priority_keywords : Keywords.table :=
  [ ("urgent", ["urgent"; "asap"; "critical"; "emergency"; "immediately"]);
    ("high", ["high"; "important"; "priority"; "soon"; "quickly"]);
    ("low", ["low"; "minor"; "later"; "when possible"; "no rush"]) ].

Definition _detect_priority (content_lower : string) : string :=
  Keywords.detect priority_keywords "medium" content_lower.

(** [content[:200] + "..." if len(content) > 200 else content]. *)
Definition describe (email_content : string) : string :=
  if 200 <? len email_content then take_str 200 email_content ++ "..."
  else email_content.

Definition _fallback_email_parsing (email_content : string) : gmap string PyValue :=
  let content_lower := lower email_content in
  list_to_map
    [ ("task_title", PyStr (_extract_task_title email_content));
      ("description", PyStr (describe email_content));
      ("status", PyStr (_detect_status content_lower));
      ("priority", PyStr (_detect_priority content_lower)) ].

(** *** The model-backed parser [parse_email_content_simple]

    [generate_simple_response] talks to the Ollama server and [json.loads]
    is Python's; both are parameters ([None] stands for a
    [JSONDecodeError]). *)

Section StructuredExtraction.

Variable generate_simple_response : string -> Z -> string.
Variable json_loads : string -> option PyValue.

Definition dq : string := String (ascii_of_nat 34) EmptyString.
Definition nl : string := String newline EmptyString.

(** The f-string prompt of [parse_email_content_simple]. *)
Definition extraction_prompt (content : string) : string :=
  "Extract task information from this email. Respond with ONLY a JSON object:" ++ nl
  ++ nl
  ++ "Email: " ++ content ++ nl
  ++ nl
  ++ "Required JSON format:" ++ nl
  ++ "{" ++ nl
  ++ "  " ++ dq ++ "task_title" ++ dq ++ ": " ++ dq ++ "brief task name" ++ dq ++ "," ++ nl
  ++ "  " ++ dq ++ "status" ++ dq ++ ": " ++ dq ++ "todo|in_progress|review|done|blocked" ++ dq ++ "," ++ nl
  ++ "  " ++ dq ++ "priority" ++ dq ++ ": " ++ dq ++ "low|medium|high|urgent" ++ dq ++ "," ++ nl
  ++ "  " ++ dq ++ "description" ++ dq ++ ": " ++ dq ++ "brief description" ++ dq ++ nl
  ++ "}" ++ nl
  ++ nl
  ++ "JSON:".

(** [re.search(r'\{.*\}', response, re.DOTALL)]: the greedy match runs
    from the first opening brace to the last closing brace after it. *)
Fixpoint from_first_brace (s : string) : option string :=
  match s with
  | EmptyString => None
  | String c s' => if Ascii.eqb c "{"%char then Some s else from_first_brace s'
  end.

Fixpoint upto_last_brace (s : string) : option string :=
  match s with
  | EmptyString => None
  | String c s' =>
      match upto_last_brace s' with
      | Some r => Some (String c r)
      | None => if Ascii.eqb c "}"%char then Some (String c EmptyString) else None
      end
  end.

Definition search_json_object (response : string) : option string :=
  match from_first_brace response with
  | Some tail => upto_last_brace tail
  | None => None
  end.

(** [data[field] not in valid_values]. *)
Definition not_among (v : PyValue) (valid_values : list string) : bool :=
  match v with
  | PyStr s => negb (existsb (String.eqb s) valid_values)
  | _ => true
  end.

(** [_validate_parsed_email]: [None] is the result [False]; [Some data']
    is the result [True] with the dictionary as the function left it. *)
Definition _validate_parsed_email (data : gmap string PyValue) : option (gmap string PyValue) :=
  let required_fields := ["task_title"; "status"; "priority"] in
  let valid_statuses := ["todo"; "in_progress"; "review"; "done"; "blocked"] in
  let valid_priorities := ["low"; "medium"; "high"; "urgent"] in
  if existsb (fun field => match data !! field with
                           | None => true
                           | Some v => negb (truthy v)
                           end) required_fields
  then None
  else
    let data :=
      match data !! "status" with
      | Some v => if not_among v valid_statuses
                  then <["status" := PyStr "in_progress"]> data else data
      | None => data
      end in
    let data :=
      match data !! "priority" with
      | Some v => if not_among v valid_priorities
                  then <["priority" := PyStr "medium"]> data else data
      | None => data
      end in
    Some data.

(** [parse_email_content_simple] for a service whose [is_available] flag
    is the argument. A response without a JSON object, an undecodable or
    invalid object and any exception all end in the keyword fallback. *)
Definition parse_email_content_simple (is_available : bool) (email_content : string)
  : gmap string PyValue :=
  if negb is_available then _fallback_email_parsing email_content
  else
    let content :=
      if 800 <? len email_content then take_str 800 email_content else email_content in
    let response := generate_simple_response (extraction_prompt content) 200 in
    match search_json_object response with
    | Some json_str =>
        match json_loads json_str with
        | Some (PyDict parsed_data) =>
            match _validate_parsed_email parsed_data with
            | Some parsed_data => parsed_data
            | None => _fallback_email_parsing email_content
            end
        | _ => _fallback_email_parsing email_content
        end
    | None => _fallback_email_parsing email_content
    end.

End StructuredExtraction.

(** The attributes of an [LLMService] instance that are coroutine methods
    of one text argument returning a dictionary; any other name has no
    such attribute. *)
Definition getattr_parser
    (generate_simple_response : string -> Z -> string)
    (json_loads : string -> option PyValue)
    (is_available : bool) (name : string)
  : Result (string -> gmap string PyValue) :=
  if String.eqb name "parse_email_content_simple"
  then Ok (parse_email_content_simple generate_simple_response json_loads is_available)
  else Raise (AttributeError "LLMService" name).

End LLMService.

(** ** The email tools ([tools/email_tools.py]) *)

Module EmailTools.

(** The names the module binds: its imports ([win32com] binds the package
    name), [logger] and its two classes. Neither these nor Python's
    builtins contain [asyncio]. *)
Definition module_globals : list string :=
  [ "win32com"; "pythoncom"; "BaseTool"; "List"; "Dict"; "Any"; "Optional";
    "datetime"; "timedelta"; "logging"; "json"; "re"; "parseaddr";
    "TeamMember"; "EmailThread"; "EmailTemplate"; "LLMService";
    "logger"; "OutlookService"; "EmailTools" ].

(** [ParseEmailTool._fallback_parsing]. *)
Definition _fallback_parsing (email_content : string) : gmap string PyValue :=
  let content_lower := lower email_content in
  let result : gmap string PyValue :=
    list_to_map
      [ ("task_title", PyStr "Email Update");
        ("description", PyStr (LLMService.describe email_content));
        ("status", PyStr "in_progress");
        ("priority", PyStr "medium") ] in
  let result :=
    if any_in ["done"; "completed"; "finished"; "complete"] content_lower
    then <["status" := PyStr "done"]> result
    else if any_in ["blocked"; "stuck"; "issue"; "problem"] content_lower
    then <["status" := PyStr "blocked"]> result
    else if any_in ["review"; "feedback"; "check"] content_lower
    then <["status" := PyStr "review"]> result
    else if any_in ["starting"; "begin"; "todo"; "plan"] content_lower
    then <["status" := PyStr "todo"]> result
    else result in
  let result :=
    if any_in ["urgent"; "asap"; "critical"; "emergency"] content_lower
    then <["priority" := PyStr "urgent"]> result
    else if any_in ["high"; "important"; "priority"] content_lower
    then <["priority" := PyStr "high"]> result
    else if any_in ["low"; "minor"; "later"] content_lower
    then <["priority" := PyStr "low"]> result
    else result in
  result.

Section ParseEmailTool.

Variable generate_simple_response : string -> Z -> string.
Variable json_loads : string -> option PyValue.

(** [ParseEmailTool._run]. [llm_service] is [self.email_tools.llm_service]:
    [None], or the [is_available] flag of the service object. The call
    [asyncio.run(service.parse_email_content(email_content))] first
    evaluates the global [asyncio], then the attribute
    [parse_email_content] of the service, then runs the coroutine. *)
Definition _run (llm_service : option bool) (email_content : string) : gmap string PyValue :=
  Exc.try_except
    (match llm_service with
     | None => Ok (_fallback_parsing email_content)
     | Some is_available =>
         Exc.bind (lookup_global module_globals "asyncio") (fun _ =>
         Exc.bind (LLMService.getattr_parser generate_simple_response json_loads
                     is_available "parse_email_content") (fun parse =>
         let parsed_data := parse email_content in
         if negb (truthy (PyDict parsed_data))
         then Ok (_fallback_parsing email_content)
         else Ok parsed_data))
     end)
    (fun e => _fallback_parsing email_content).

End ParseEmailTool.

End EmailTools.

(** ** The data model ([models/database.py])

    One module per peewee model; its record [t] is a row without the
    primary key, which is the key of the table's map. Every row carries
    [BaseModel]'s [created_at] and [updated_at]. The [FloatField] columns
    ([response_rate], [estimated_hours], [actual_hours]) are left out: no
    modelled operation reads or writes them. *)

Module TeamMember.
Record t := mk {
  created_at : datetime;
  updated_at : datetime;
  email : string;
  name : string;
  role : string;
  active : bool;
  last_response_at : option datetime;
  timezone : string
}.
End TeamMember.

Module Task.
Record t := mk {
  created_at : datetime;
  updated_at : datetime;
  title : string;
  description : string;
  status : string;
  assignee : Z;
  due_date : option datetime;
  priority : string;
  order : Z;
  tags : list string
}.
End Task.

Module EmailThread.
Record t := mk {
  created_at : datetime;
  updated_at : datetime;
  thread_id : string;
  team_member : Z;
  subject : string;
  sent_at : datetime;
  response_received : bool;
  response_at : option datetime;
  status : string;
  content : string;
  parsed_content : option string;
  follow_up_count : Z;
  template_used : option string
}.
End EmailThread.

Module KanbanChange.
Record t := mk {
  created_at : datetime;
  updated_at : datetime;
  change_type : string;
  task_id : option Z;
  task_data : gmap string PyValue;
  approved : bool;
  approved_at : option datetime;
  approved_by : option string;
  published : bool;
  published_at : option datetime
}.
End KanbanChange.

Module AgentActivity.
Record t := mk {
  created_at : datetime;
  updated_at : datetime;
  activity_type : string;
  message : string;
  team_member : option Z;
  task : option Z;
  status : string;
  metadata : string;
  duration_ms : option Z
}.
End AgentActivity.

Module DB.

Record Database := mkDatabase {
  team_members : gmap Z TeamMember.t;
  tasks : gmap Z Task.t;
  email_threads : gmap Z EmailThread.t;
  kanban_changes : gmap Z KanbanChange.t;
  agent_activities : gmap Z AgentActivity.t
}.

Definition set_team_members (tbl : gmap Z TeamMember.t) (db : Database) : Database :=
  {| team_members := tbl; tasks := tasks db; email_threads := email_threads db;
     kanban_changes := kanban_changes db; agent_activities := agent_activities db |}.

Definition set_tasks (tbl : gmap Z Task.t) (db : Database) : Database :=
  {| team_members := team_members db; tasks := tbl; email_threads := email_threads db;
     kanban_changes := kanban_changes db; agent_activities := agent_activities db |}.

Definition set_email_threads (tbl : gmap Z EmailThread.t) (db : Database) : Database :=
  {| team_members := team_members db; tasks := tasks db; email_threads := tbl;
     kanban_changes := kanban_changes db; agent_activities := agent_activities db |}.

Definition set_kanban_changes (tbl : gmap Z KanbanChange.t) (db : Database) : Database :=
  {| team_members := team_members db; tasks := tasks db; email_threads := email_threads db;
     kanban_changes := tbl; agent_activities := agent_activities db |}.

Definition set_agent_activities (tbl : gmap Z AgentActivity.t) (db : Database) : Database :=
  {| team_members := team_members db; tasks := tasks db; email_threads := email_threads db;
     kanban_changes := kanban_changes db; agent_activities := tbl |}.

(** The state the code runs in: the database, and a clock whose [n]-th
    reading is the value of the [n]-th [datetime.now()]. *)
Record World := mkWorld {
  db : Database;
  time : nat -> datetime;
  ticks : nat
}.

Definition M (A : Type) : Type := World -> Result A * World.

#[export] Instance M_ret : MRet M := fun A a w => (Ok a, w).

#[export] Instance M_bind : MBind M := fun A B k m w =>
  match m w with
  | (Ok a, w') => k a w'
  | (Raise e, w') => (Raise e, w')
  end.

Definition raise {A} (e : PyExc) : M A := fun w => (Raise e, w).

(** [try: body / except Exception as e: handler(e)]: what the body wrote
    before raising stays written. *)
Definition try_except {A} (body : M A) (handler : PyExc -> M A) : M A := fun w =>
  match body w with
  | (Ok a, w') => (Ok a, w')
  | (Raise e, w') => handler e w'
  end.

Definition datetime_now : M datetime := fun w =>
  (Ok (time w (ticks w)), {| db := db w; time := time w; ticks := S (ticks w) |}).

Definition get_db : M Database := fun w => (Ok (db w), w).

Definition modify_db (f : Database -> Database) : M unit := fun w =>
  (Ok tt, {| db := f (db w); time := time w; ticks := ticks w |}).

(** Lifting of pure code that can raise. *)
Definition lift {A} (r : Result A) : M A := fun w => (r, w).

(** *** Queries *)

(** [Model.get_or_none(condition)] on a column other than the key: a row
    that satisfies the condition, if there is one (SQL fixes no order; the
    columns queried this way are unique). *)
Definition get_or_none {A} (condition : A -> bool) (tbl : gmap Z A) : option (Z * A) :=
  List.find (fun row => condition row.2) (map_to_list tbl).

(** [Model.select().where(condition).count()]. *)
Definition count_where {A} (condition : A -> bool) (tbl : gmap Z A) : Z :=
  Z.of_nat (length (List.filter (fun row => condition row.2) (map_to_list tbl))).

(** [Model.delete().where(condition).execute()]: the table that remains. *)
Definition delete_where {A} (condition : A -> bool) (tbl : gmap Z A) : gmap Z A :=
  filter (fun row => condition row.2 = false) tbl.

(** The key SQLite gives the next inserted row: one more than the largest
    key in use, [1] in an empty table. *)
Definition next_id {A} (tbl : gmap Z A) : Z :=
  match (map_to_list tbl).*1 with
  | [] => 1
  | k :: ks => foldr Z.max k ks + 1
  end.

(** *** Facts about the queries *)

Lemma foldr_max_ge (k : Z) (ks : list Z) :
  k <= foldr Z.max k ks /\ Forall (fun j => j <= foldr Z.max k ks) ks.
Proof.
  induction ks as [|j ks [IHk IHks]]; simpl.
  - split; [lia | constructor].
  - split; [lia|]. constructor; [lia|].
    eapply Forall_impl; [exact IHks|]. simpl. intros; lia.
Qed.

Lemma next_id_above {A} (tbl : gmap Z A) (k : Z) (row : A) :
  tbl !! k = Some row -> k < next_id tbl.
Proof.
  intros Hk. unfold next_id.
  assert (Hin : k ∈ (map_to_list tbl).*1).
  { apply list_elem_of_fmap. exists (k, row). split; [reflexivity|].
    now apply elem_of_map_to_list. }
  destruct ((map_to_list tbl).*1) as [|k0 ks]; [inversion Hin|].
  destruct (foldr_max_ge k0 ks) as [H0 Hks].
  apply elem_of_cons in Hin as [->|Hin]; [lia|].
  rewrite Forall_forall in Hks. specialize (Hks k Hin). simpl in Hks. lia.
Qed.

Lemma next_id_fresh {A} (tbl : gmap Z A) : tbl !! next_id tbl = None.
Proof.
  destruct (tbl !! next_id tbl) as [row|] eqn:H; [|reflexivity].
  apply next_id_above in H. lia.
Qed.

Lemma get_or_none_Some {A} (condition : A -> bool) (tbl : gmap Z A) k row :
  get_or_none condition tbl = Some (k, row) ->
  tbl !! k = Some row /\ condition row = true.
Proof.
  unfold get_or_none. intros H. apply find_some in H as [Hin Hc].
  split; [|exact Hc].
  apply elem_of_map_to_list. now apply list_elem_of_In.
Qed.

Lemma get_or_none_None {A} (condition : A -> bool) (tbl : gmap Z A) :
  get_or_none condition tbl = None <->
  forall k row, tbl !! k = Some row -> condition row = false.
Proof.
  unfold get_or_none. split.
  - intros H k row Hk.
    apply (find_none _ _ H (k, row)).
    apply list_elem_of_In. now apply elem_of_map_to_list.
  - intros H. destruct (find _ _) as [[k row]|] eqn:Hf; [|reflexivity].
    apply find_some in Hf as [Hin Hc].
    apply list_elem_of_In, elem_of_map_to_list in Hin.
    simpl in Hc. rewrite (H k row Hin) in Hc. discriminate.
Qed.

Lemma delete_where_lookup {A} (condition : A -> bool) (tbl : gmap Z A) (k : Z) :
  delete_where condition tbl !! k =
  match tbl !! k with
  | Some row => if condition row then None else Some row
  | None => None
  end.
Proof.
  unfold delete_where.
  destruct (tbl !! k) as [row|] eqn:Hk.
  - destruct (condition row) eqn:Hc.
    + apply map_lookup_filter_None. right. intros row' Hrow'. simpl.
      assert (row' = row) as -> by congruence. rewrite Hc. discriminate.
    + apply map_lookup_filter_Some. split; [exact Hk | exact Hc].
  - apply map_lookup_filter_None. left. exact Hk.
Qed.

End DB.

(** ** Row creation and saving, as peewee performs them *)

Module Models.
Import DB.

(** [Task.create(...)]: the two timestamp defaults are read when the
    instance is built, [BaseModel.save] reads the clock once more for
    [updated_at], and the row is inserted under the next key. *)
Definition Task_create (title description status : string) (assignee : Z)
    (due_date : option datetime) (priority : string) (order : Z) (tags : list string)
  : M Z :=
  created_at ← datetime_now;
  _ ← datetime_now;
  updated_at ← datetime_now;
  db ← get_db;
  let id := next_id (tasks db) in
  let row := Task.mk created_at updated_at title description status assignee
               due_date priority order tags in
  _ ← modify_db (set_tasks (<[id := row]> (tasks db)));
  mret id.

(** [KanbanChange.create(change_type=..., task_id=..., task_data=...,
    approved=False)]; [task_data] holds the dictionary whose JSON text the
    column stores. *)
Definition KanbanChange_create (change_type : string) (task_id : Z)
    (task_data : gmap string PyValue) : M Z :=
  created_at ← datetime_now;
  _ ← datetime_now;
  updated_at ← datetime_now;
  db ← get_db;
  let id := next_id (kanban_changes db) in
  let row := KanbanChange.mk created_at updated_at change_type (Some task_id)
               task_data false None None false None in
  _ ← modify_db (set_kanban_changes (<[id := row]> (kanban_changes db)));
  mret id.

(** [change.save()] of a row read under key [id]. *)
Definition KanbanChange_save (id : Z) (change : KanbanChange.t) : M unit :=
  updated_at ← datetime_now;
  let row := KanbanChange.mk (KanbanChange.created_at change) updated_at
               (KanbanChange.change_type change) (KanbanChange.task_id change)
               (KanbanChange.task_data change) (KanbanChange.approved change)
               (KanbanChange.approved_at change) (KanbanChange.approved_by change)
               (KanbanChange.published change) (KanbanChange.published_at change) in
  modify_db (fun db => set_kanban_changes (<[id := row]> (kanban_changes db)) db).

(** [member.save()]. *)
Definition TeamMember_save (id : Z) (member : TeamMember.t) : M unit :=
  updated_at ← datetime_now;
  let row := TeamMember.mk (TeamMember.created_at member) updated_at
               (TeamMember.email member) (TeamMember.name member)
               (TeamMember.role member) (TeamMember.active member)
               (TeamMember.last_response_at member) (TeamMember.timezone member) in
  modify_db (fun db => set_team_members (<[id := row]> (team_members db)) db).

End Models.

(** ** The kanban tools ([tools/kanban_tools.py]) *)

Module KanbanTools.
Import DB Models.

Section CreateTask.

(** [datetime.fromisoformat], Python's. *)
Variable fromisoformat : string -> option datetime.

(** [due_date.replace('Z', '+00:00')]. *)
Fixpoint replace_Z (s : string) : string :=
  match s with
  | EmptyString => EmptyString
  | String c s' =>
      if Ascii.eqb c "Z"%char then "+00:00" ++ replace_Z s' else String c (replace_Z s')
  end.

Definition valid_statuses : list string := ["todo"; "in_progress"; "review"; "done"; "blocked"].
Definition valid_priorities : list string := ["low"; "medium"; "high"; "urgent"].

Definition among (s : string) (l : list string) : bool := existsb (String.eqb s) l.

(** [CreateTaskTool._run]. *)
Definition CreateTaskTool_run (title assignee_email status description priority : string)
    (due_date : option string) : M string :=
  try_except
    (db ← get_db;
     match get_or_none (fun m => String.eqb (TeamMember.email m) assignee_email)
             (team_members db) with
     | None => mret ("Error: Team member not found with email: " ++ assignee_email)
     | Some (assignee_id, assignee) =>
         let status := if among status valid_statuses then status else "todo" in
         let priority := if among priority valid_priorities then priority else "medium" in
         let parsed_due_date :=
           match due_date with
           | Some text => if String.eqb text "" then None
                          else fromisoformat (replace_Z text)
           | None => None
           end in
         let max_order := count_where (fun t => String.eqb (Task.status t) status) (tasks db) in
         task_id ← Task_create title description status assignee_id parsed_due_date
                     priority max_order [];
         _ ← KanbanChange_create "create" task_id
               (list_to_map [ ("title", PyStr title); ("assignee", PyStr assignee_email);
                              ("status", PyStr status); ("priority", PyStr priority) ]);
         mret ("Created task '" ++ title ++ "' assigned to " ++ TeamMember.name assignee
               ++ " (" ++ assignee_email ++ ") with status '" ++ status ++ "'")
     end)
    (fun e => mret ("Error creating task: " ++ str_exc e)).

End CreateTask.

(** The loop of [approve_changes]. *)
Fixpoint approve_loop (change_ids : list Z) (approved_count : Z) : M Z :=
  match change_ids with
  | [] => mret approved_count
  | change_id :: rest =>
      db ← get_db;
      match kanban_changes db !! change_id with
      | Some change =>
          if negb (KanbanChange.approved change) then
            now ← datetime_now;
            let change :=
              KanbanChange.mk (KanbanChange.created_at change) (KanbanChange.updated_at change)
                (KanbanChange.change_type change) (KanbanChange.task_id change)
                (KanbanChange.task_data change) true (Some now)
                (KanbanChange.approved_by change) (KanbanChange.published change)
                (KanbanChange.published_at change) in
            _ ← KanbanChange_save change_id change;
            approve_loop rest (approved_count + 1)
          else approve_loop rest approved_count
      | None => approve_loop rest approved_count
      end
  end.

(** [KanbanTools.approve_changes]. *)
Definition approve_changes (change_ids : list Z) : M string :=
  try_except
    (approved_count ← approve_loop change_ids 0;
     mret ("Approved " ++ pretty approved_count ++ " kanban changes"))
    (fun e => mret ("Error approving changes: " ++ str_exc e)).

End KanbanTools.

(** ** Housekeeping ([models/database.py], [cleanup_old_data]) *)

Module Housekeeping.
Import DB.

(** The names [from peewee import *] binds are those of peewee's
    [__all__]; this is the list peewee 3 declares. *)
Definition peewee_all : list string :=
  [ "AnyField"; "AsIs"; "AutoField"; "BareField"; "BigAutoField"; "BigBitField";
    "BigIntegerField"; "BinaryUUIDField"; "BitField"; "BlobField"; "BooleanField";
    "Case"; "Cast"; "CharField"; "Check"; "chunked"; "Column"; "CompositeKey";
    "Context"; "Database"; "DatabaseError"; "DatabaseProxy"; "DataError";
    "DateField"; "DateTimeField"; "DecimalField"; "DeferredForeignKey";
    "DeferredThroughModel"; "DJANGO_MAP"; "DoesNotExist"; "DoubleField"; "DQ";
    "EXCLUDED"; "Field"; "FixedCharField"; "FloatField"; "fn"; "ForeignKeyField";
    "IdentityField"; "ImproperlyConfigured"; "Index"; "IntegerField";
    "IntegrityError"; "InterfaceError"; "InternalError"; "IPField"; "JOIN";
    "ManyToManyField"; "Model"; "ModelIndex"; "MySQLDatabase"; "NotSupportedError";
    "OP"; "OperationalError"; "PostgresqlDatabase"; "PrimaryKeyField"; "prefetch";
    "PREFETCH_TYPE"; "ProgrammingError"; "Proxy"; "QualifiedNames"; "SchemaManager";
    "SmallIntegerField"; "Select"; "SQL"; "SqliteDatabase"; "Table"; "TextField";
    "TimeField"; "TimestampField"; "Tuple"; "UUIDField"; "Value"; "ValuesList";
    "Window" ].

Section Cleanup.

(** What the star import binds. *)
Variable star_import : list string.

(** The names [models/database.py] binds at module level: the star import,
    [from datetime import datetime], [json], [asyncio], [logging],
    [Path], and the module's own assignments, classes and functions. *)
Definition module_globals : list string :=
  star_import
  ++ [ "datetime"; "json"; "asyncio"; "logging"; "Path"; "logger"; "db";
       "BaseModel"; "TeamMember"; "Task"; "EmailThread"; "KanbanChange";
       "AgentState"; "AgentActivity"; "EmailTemplate"; "WorkflowSettings";
       "MODELS"; "initialize_database"; "create_performance_indexes";
       "create_default_data"; "get_database"; "cleanup_old_data";
       "get_database_stats" ].

(** The two [delete().where(...).execute()] statements of the [try] body,
    for a computed cutoff. *)
Definition delete_old_rows (cutoff_date : datetime) (db : Database) : Database :=
  let db :=
    set_agent_activities
      (delete_where (fun a => AgentActivity.created_at a <? cutoff_date)
         (agent_activities db)) db in
  set_email_threads
    (delete_where (fun t => (EmailThread.created_at t <? cutoff_date)
                            && EmailThread.response_received t)
       (email_threads db)) db.

(** [cleanup_old_data(days_to_keep)]. In
    [datetime.now() - timedelta(days=days_to_keep)] the clock is read
    first and the global [timedelta] is looked up next; the handler only
    logs. *)
Definition cleanup_old_data (days_to_keep : Z) : M unit :=
  try_except
    (now ← datetime_now;
     _ ← lift (lookup_global module_globals "timedelta");
     let cutoff_date := now - timedelta_days days_to_keep in
     modify_db (delete_old_rows cutoff_date))
    (fun e => mret tt).

End Cleanup.

End Housekeeping.

(** ** The HTTP layer ([api/kanban.py], [api/emails.py]) *)

Module Api.
Import DB Models.

(** The status of the response FastAPI sends for a handler's outcome: an
    [HTTPException] carries its own, any other exception is a 500. *)
Definition http_status {A} (outcome : Result A) : Z :=
  match outcome with
  | Ok _ => 200
  | Raise (HTTPException status_code _) => status_code
  | Raise _ => 500
  end.

(** [schemas.TaskCreate]; [status] and [priority] hold the values of the
    [TaskStatus] and [Priority] enumerations. *)
Record TaskCreate := mkTaskCreate {
  title : string;
  description : string;
  status : string;
  assignee_id : Z;
  due_date : option datetime;
  priority : string;
  order : Z;
  tags : list string
}.

(** [POST /api/kanban/tasks]. The result is the key of the created task,
    from which the response body is rendered. ([order] is an [int] in the
    schema, never [None], so the row takes [task.order] and the computed
    [max_order] is not used.) *)
Definition create_task (task : TaskCreate) : M Z :=
  try_except
    (db ← get_db;
     match team_members db !! assignee_id task with
     | None => raise (HTTPException 404 "Assignee not found")
     | Some assignee =>
         new_task ← Task_create (title task) (description task) (status task)
                      (assignee_id task) (due_date task) (priority task) (order task)
                      (tags task);
         _ ← KanbanChange_create "create" new_task
               (list_to_map [ ("title", PyStr (title task));
                              ("assignee", PyStr (TeamMember.email assignee));
                              ("status", PyStr (status task));
                              ("priority", PyStr (priority task)) ]);
         mret new_task
     end)
    (fun e => raise (HTTPException 500 (str_exc e))).


(** [POST /api/kanban/approve-changes]; [agent] tells whether
    [get_assistant_agent()] returns an agent. *)
Definition approve_changes (agent : bool) (change_ids : list Z) : M string :=
  try_except
    (if negb agent then raise (HTTPException 503 "Agent not available")
     else KanbanTools.approve_changes change_ids)
    (fun e => raise (HTTPException 500 (str_exc e))).

(** [member.delete_instance(recursive=True)]: rows that reference the
    member through a non-null foreign key are deleted (tasks, email
    threads), nullable references to the member or to one of the deleted
    tasks are set to [NULL] (agent activities), then the member's row
    goes. *)
Definition delete_instance_recursive (member_id : Z) (db : Database) : Database :=
  let assigned (t : Z) : bool :=
    match tasks db !! t with
    | Some task => bool_decide (Task.assignee task = member_id)
    | None => false
    end in
  let unlink (a : AgentActivity.t) : AgentActivity.t :=
    AgentActivity.mk (AgentActivity.created_at a) (AgentActivity.updated_at a)
      (AgentActivity.activity_type a) (AgentActivity.message a)
      (match AgentActivity.team_member a with
       | Some m => if bool_decide (m = member_id) then None else Some m
       | None => None
       end)
      (match AgentActivity.task a with
       | Some t => if assigned t then None else Some t
       | None => None
       end)
      (AgentActivity.status a) (AgentActivity.metadata a) (AgentActivity.duration_ms a) in
  {| team_members := delete member_id (team_members db);
     tasks := delete_where (fun t => bool_decide (Task.assignee t = member_id)) (tasks db);
     email_threads :=
       delete_where (fun t => bool_decide (EmailThread.team_member t = member_id))
         (email_threads db);
     kanban_changes := kanban_changes db;
     agent_activities := unlink <$> agent_activities db |}.

(** [DELETE /api/emails/team-members/{member_id}]. *)
Definition remove_team_member (member_id : Z) (permanent : bool) : M string :=
  try_except
    (db ← get_db;
     match team_members db !! member_id with
     | None => raise (HTTPException 404 "Team member not found")
     | Some member =>
         if permanent then
           _ ← modify_db (delete_instance_recursive member_id);
           mret "Team member permanently deleted"
         else
           let member :=
             TeamMember.mk (TeamMember.created_at member) (TeamMember.updated_at member)
               (TeamMember.email member) (TeamMember.name member) (TeamMember.role member)
               false (TeamMember.last_response_at member) (TeamMember.timezone member) in
           _ ← TeamMember_save member_id member;
           mret "Team member deactivated"
     end)
    (fun e => raise (HTTPException 500 (str_exc e))).

End Api.

(** ** Publishing ([tools/git_tools.py]) *)

Module GitTools.

(** The two GitHub settings of [core/config.py], both [None] by default. *)
Record Settings := mkSettings {
  github_token : option string;
  github_repo : option string
}.

(** Truthiness of an [Optional[str]] setting. *)
Definition is_set (v : option string) : bool :=
  match v with
  | Some s => negb (String.eqb s "")
  | None => false
  end.

(** [str(v)] inside an f-string. *)
Definition fmt (v : option string) : string :=
  match v with
  | Some s => s
  | None => "None"
  end.

(** What the machine answers to the commands and file operations of one
    run: whether each succeeds, and whether the index holds changes. *)
Record Host := mkHost {
  mkdtemp_ok : bool;
  clone_ok : bool;
  init_ok : bool;
  config_ok : bool;
  write_ok : bool;
  add_ok : bool;
  staged_changes : bool;
  commit_ok : bool;
  origin_exists : bool;
  remote_add_ok : bool;
  push_main_ok : bool;
  checkout_pages_ok : bool;
  push_pages_ok : bool
}.

(** The operations a run performs, in order. *)
Inductive Action :=
| MakeTempDir
| GitClone (url : string)
| GitInit
| GitConfigUser
| WriteFile (name content : string)
| GitAddAll
| GitCommit
| GitRemoteAdd (url : string)
| GitPush (branch : string)
| GitCheckoutPages
| RemoveTempDir.

(** A run logs its actions and may raise. *)
Definition G (A : Type) : Type := list Action -> Result A * list Action.

#[export] Instance G_ret : MRet G := fun A a log => (Ok a, log).

#[export] Instance G_bind : MBind G := fun A B k m log =>
  match m log with
  | (Ok a, log') => k a log'
  | (Raise e, log') => (Raise e, log')
  end.

Definition act (a : Action) : G unit := fun log => (Ok tt, (log ++ [a])%list).

Definition fail {A} (e : PyExc) : G A := fun log => (Raise e, log).

(** A [subprocess.run(..., check=True)] or a file operation: logged, and
    an exception when the host reports failure. *)
Definition checked (ok : bool) (a : Action) (e : PyExc) : G unit :=
  _ ← act a; if ok then mret tt else fail e.

(** [repo.split('/')]. *)
Fixpoint split_slash (s : string) : list string :=
  match s with
  | EmptyString => [EmptyString]
  | String c s' =>
      if Ascii.eqb c "/"%char then EmptyString :: split_slash s'
      else match split_slash s' with
           | [] => [String c EmptyString]
           | part :: parts => String c part :: parts
           end
  end.

(** [settings.github_repo.split('/')[i]]. *)
Definition repo_part (settings : Settings) (i : nat) : Result string :=
  match github_repo settings with
  | None => Raise (AttributeError "NoneType" "split")
  | Some repo =>
      match split_slash repo !! i with
      | Some part => Ok part
      | None => Raise (IndexError "list index out of range")
      end
  end.

(** The address [https://<owner>.github.io/<name>/] both f-strings
    compute. *)
Definition pages_url (settings : Settings) : Result string :=
  Exc.bind (repo_part settings 0) (fun owner =>
  Exc.bind (repo_part settings 1) (fun name =>
  Ok ("https://" ++ owner ++ ".github.io/" ++ name ++ "/"))).

(** A column of the board: its id, its title and the keys of its tasks. *)
Definition Column : Type := string * string * list Z.

(** [PublishKanbanTool._get_board_data]: the tasks that join a team
    member, grouped under the five fixed columns. (The sort key
    [x.get("order", 0)] is [0] for every entry, so the stable sort keeps
    the query's order.) *)
Definition _get_board_data (db : DB.Database) : list Column :=
  let joined :=
    List.filter (fun row => bool_decide (is_Some (DB.team_members db !! Task.assignee row.2)))
      (map_to_list (DB.tasks db)) in
  let column (id title : string) : Column :=
    (id, title, (List.filter (fun row => String.eqb (Task.status row.2) id) joined).*1) in
  [ column "todo" "To Do"; column "in_progress" "In Progress";
    column "review" "Review"; column "done" "Done"; column "blocked" "Blocked" ].

(** The two statistics of the README. *)
Definition total_tasks (board : list Column) : Z :=
  Z.of_nat (length (concat (board.*2))).

Definition completed_tasks (board : list Column) : Z :=
  Z.of_nat (length (concat ((List.filter (fun c => String.eqb c.1.1 "done") board).*2))).

Section Publish.

Variable settings : Settings.
Variable host : Host.

(** [_generate_kanban_html], the page template, and the formatted
    current time of the README. *)
Variable _generate_kanban_html : list Column -> string.
Variable last_updated : string.

(** [GitTools._setup_temp_repo]; its handler logs and raises again. *)
Definition _setup_temp_repo : G unit :=
  _ ← checked (mkdtemp_ok host) MakeTempDir (OSError "mkdtemp");
  _ ← (if is_set (github_repo settings) then
         let clone_url := "https://" ++ fmt (github_token settings) ++ "@github.com/"
                          ++ fmt (github_repo settings) ++ ".git" in
         _ ← act (GitClone clone_url);
         if clone_ok host then mret tt
         else checked (init_ok host) GitInit (CalledProcessError "git init")
       else checked (init_ok host) GitInit (CalledProcessError "git init"));
  checked (config_ok host) GitConfigUser (CalledProcessError "git config").

(** [GitTools._cleanup_temp_repo]: the directory is removed when one was
    made. *)
Definition _cleanup_temp_repo : G unit := fun log =>
  if existsb (fun a => match a with MakeTempDir => true | _ => false end) log
  then act RemoveTempDir log else (Ok tt, log).

(** The README f-string; its address line is computed whatever the
    settings. *)
Definition readme_content (board : list Column) : Result string :=
  let nl := String (ascii_of_nat 10) EmptyString in
  Exc.bind (pages_url settings) (fun url =>
  Ok ("# Team Kanban Board" ++ nl ++ nl
      ++ "This is an automatically generated Kanban board showing the current status of team tasks and projects."
      ++ nl ++ nl
      ++ "## Statistics" ++ nl
      ++ "- Total Tasks: " ++ pretty (total_tasks board) ++ nl
      ++ "- Completed: " ++ pretty (completed_tasks board) ++ nl
      ++ "- Last Updated: " ++ last_updated ++ nl ++ nl
      ++ "## View Board" ++ nl
      ++ "Visit the live board at: " ++ url ++ nl ++ nl
      ++ "---" ++ nl
      ++ "*Generated by Assistant Manager - Automated Team Workflow System*" ++ nl)).

Definition lift {A} (r : Result A) : G A := fun log => (r, log).

(** The push branch of the run, taken when both settings are set. *)
Definition push_to_github : G string :=
  let remote_url := "https://" ++ fmt (github_token settings) ++ "@github.com/"
                    ++ fmt (github_repo settings) ++ ".git" in
  _ ← (if origin_exists host then mret tt
       else checked (remote_add_ok host) (GitRemoteAdd remote_url)
              (CalledProcessError "git remote add"));
  _ ← checked (push_main_ok host) (GitPush "main") (CalledProcessError "git push");
  _ ← checked (checkout_pages_ok host) GitCheckoutPages (CalledProcessError "git checkout");
  _ ← checked (push_pages_ok host) (GitPush "gh-pages") (CalledProcessError "git push");
  url ← lift (pages_url settings);
  let nl := String (ascii_of_nat 10) EmptyString in
  mret ("Successfully published Kanban board to GitHub Pages!" ++ nl ++ nl
        ++ "View your board at: " ++ url ++ nl ++ nl
        ++ "The board includes:" ++ nl ++ "- Beautiful responsive design" ++ nl
        ++ "- Real-time task status" ++ nl ++ "- Team member assignments" ++ nl
        ++ "- Priority indicators" ++ nl ++ "- Due date tracking" ++ nl
        ++ "- Project statistics").

Definition not_configured_message : string :=
  "Kanban board HTML generated successfully, but GitHub repository not configured for publishing.".

Definition up_to_date_message : string :=
  "No changes detected in Kanban board. GitHub Pages is already up to date.".

(** The [try] body of [PublishKanbanTool._run]. *)
Definition publish_body (db : DB.Database) : G string :=
  let board_data := _get_board_data db in
  _ ← _setup_temp_repo;
  let html_content := _generate_kanban_html board_data in
  _ ← checked (write_ok host) (WriteFile "index.html" html_content) (OSError "index.html");
  readme ← lift (readme_content board_data);
  _ ← checked (write_ok host) (WriteFile "README.md" readme) (OSError "README.md");
  _ ← checked (add_ok host) GitAddAll (CalledProcessError "git add");
  result_message ←
    (if staged_changes host then
       _ ← checked (commit_ok host) GitCommit (CalledProcessError "git commit");
       if is_set (github_repo settings) && is_set (github_token settings)
       then push_to_github
       else mret not_configured_message
     else mret up_to_date_message);
  _ ← _cleanup_temp_repo;
  mret result_message.

Definition error_message (e : PyExc) : string :=
  "Error publishing Kanban board to GitHub Pages: " ++ str_exc e.

(** [PublishKanbanTool._run]: the text it returns and the actions it
    performed. *)
Definition _run (db : DB.Database) : string * list Action :=
  match publish_body db [] with
  | (Ok result_message, log) => (result_message, log)
  | (Raise e, log) =>
      match _cleanup_temp_repo log with
      | (_, log') => (error_message e, log')
      end
  end.

End Publish.

End GitTools.

(** * Checked properties *)

(** ** Intent classification and the keyword fallback *)

Module ClassifierFacts.
Import Keywords Agent.





Lemma action_after_analysis (now : datetime) (state : AgentState) (msg : BaseMessage) :
  last (messages state) = Some msg ->
  context (_analyze_request now state) !! "action"
  = Some (PyStr (classify (lower (content msg)))).
Proof.
  intros Hlast. unfold _analyze_request.
  change (messages (set_workflow_step "analyzing" state)) with (messages state).
  rewrite Hlast. cbn [set_last_activity set_context context].
  apply lookup_insert_eq.
Qed.

End ClassifierFacts.

(** C1, the claim at its third example: the latest message "sync the
    board to github pages" holds the keyword "board" of the fifth family,
    which is tested before the sixth, so the action is [board_status] and
    not [publish_to_github]. *)
Lemma analyze_request_sync_board_counterexample :
  Agent.context
    (Agent._analyze_request 0
       (Agent.receive "sync the board to github pages" (Agent.init 0))) !! "action"
  = Some (PyStr "board_status")
  /\ Agent.context
       (Agent._analyze_request 0
          (Agent.receive "sync the board to github pages" (Agent.init 0))) !! "action"
     <> Some (PyStr "publish_to_github").
Proof.
  assert (H : Agent.context
    (Agent._analyze_request 0
       (Agent.receive "sync the board to github pages" (Agent.init 0))) !! "action"
    = Some (PyStr "board_status")).
  { rewrite (ClassifierFacts.action_after_analysis 0 _
               (Agent.HumanMessage "sync the board to github pages")) by reflexivity.
    vm_compute. reflexivity. }
  split; [exact H|]. rewrite H. intros Heq. discriminate Heq.
Qed.

(** C1, amended: for every state whose message list is not empty,
    [_analyze_request] stores as the action the label of the first
    keyword family, in the fixed order of [intent_families], one of whose
    keywords occurs in the lower-cased latest message, and
    [general_query] when no family matches. "send weekly update to the
    team" gives [send_emails], "what's our status this week" gives
    [generate_report], "sync the board to github pages" gives
    [board_status], and a message without any family keyword gives
    [general_query]. *)
Theorem analyze_request_first_match
    (now : datetime) (state : Agent.AgentState) (msg : Agent.BaseMessage) :
  last (Agent.messages state) = Some msg ->
  exists action,
    Agent.context (Agent._analyze_request now state) !! "action" = Some (PyStr action)
    /\ Keywords.FirstMatch Agent.intent_families "general_query"
         (lower (Agent.content msg)) action
    /\ (Agent.content msg = "send weekly update to the team" -> action = "send_emails")
    /\ (Agent.content msg = "what's our status this week" -> action = "generate_report")
    /\ (Agent.content msg = "sync the board to github pages" -> action = "board_status")
    /\ ((forall label keywords word,
           In (label, keywords) Agent.intent_families -> In word keywords ->
           ~ is_substring word (lower (Agent.content msg))) ->
        action = "general_query").
Proof.
  intros Hlast. exists (Agent.classify (lower (Agent.content msg))).
  split; [now apply ClassifierFacts.action_after_analysis|].
  split; [rewrite Agent.classify_detect; apply Keywords.detect_first_match|].
  repeat split.
  - intros ->. vm_compute. reflexivity.
  - intros ->. vm_compute. reflexivity.
  - intros ->. vm_compute. reflexivity.
  - intros Hnone. rewrite Agent.classify_detect.
    apply Keywords.detect_no_match. intros label keywords Hin.
    apply any_in_false. intros word Hword. now apply (Hnone label keywords word).
Qed.

(** A state that meets the hypothesis of [analyze_request_first_match]. *)
Lemma analyze_request_first_match_witness :
  exists action,
    Agent.context
      (Agent._analyze_request 7
         (Agent.receive "send weekly update to the team" (Agent.init 0))) !! "action"
    = Some (PyStr action)
    /\ action = "send_emails".
Proof.
  destruct (analyze_request_first_match 7
              (Agent.receive "send weekly update to the team" (Agent.init 0))
              (Agent.HumanMessage "send weekly update to the team") eq_refl)
    as (action & Hctx & _ & Hsend & _).
  exists action. split; [exact Hctx | apply Hsend; reflexivity].
Defined.

(** ** The keyword fallback of the email parser *)

Module FallbackFacts.
Import Keywords LLMService.




End FallbackFacts.


(** ** Persisting and reloading the agent state *)

Module RoundTripFacts.
Import Agent.

Section Lookups.

Variable isoformat : datetime -> string.
Variable st : AgentState.

Lemma to_dict_current_workflow :
  to_dict isoformat st !! "current_workflow" = Some (of_optional_str (current_workflow st)).
Proof. reflexivity. Qed.

Lemma to_dict_active_tasks :
  to_dict isoformat st !! "active_tasks" = Some (PyList (active_tasks st)).
Proof. reflexivity. Qed.

Lemma to_dict_pending_approvals :
  to_dict isoformat st !! "pending_approvals" = Some (PyList (pending_approvals st)).
Proof. reflexivity. Qed.

Lemma to_dict_last_activity :
  to_dict isoformat st !! "last_activity" = Some (PyStr (isoformat (last_activity st))).
Proof. reflexivity. Qed.

Lemma to_dict_context :
  to_dict isoformat st !! "context" = Some (PyDict (context st)).
Proof. reflexivity. Qed.

Lemma to_dict_error_count :
  to_dict isoformat st !! "error_count" = Some (PyInt (error_count st)).
Proof. reflexivity. Qed.

Lemma to_dict_last_error :
  to_dict isoformat st !! "last_error" = Some (of_optional_str (last_error st)).
Proof. reflexivity. Qed.

Lemma to_dict_workflow_step :
  to_dict isoformat st !! "workflow_step" = Some (PyStr (workflow_step st)).
Proof. reflexivity. Qed.

Lemma to_dict_messages :
  to_dict isoformat st !! "messages"
  = Some (PyList (message_to_dict <$> last_n 10 (messages st))).
Proof. reflexivity. Qed.

End Lookups.

Lemma as_optional_str_of (v : option string) :
  as_optional_str (of_optional_str v) = Ok v.
Proof. destruct v; reflexivity. Qed.

(** The state [from_dict] rebuilds from [to_dict]'s dictionary: every
    field as it was, the messages cut to the last ten. *)
Definition reloaded (st : AgentState) : AgentState :=
  {| current_workflow := current_workflow st; active_tasks := active_tasks st;
     pending_approvals := pending_approvals st; last_activity := last_activity st;
     context := context st; messages := last_n 10 (messages st);
     error_count := error_count st; last_error := last_error st;
     workflow_step := workflow_step st |}.

Lemma from_dict_to_dict
    (isoformat : datetime -> string) (fromisoformat : string -> option datetime)
    (now : datetime) (st : AgentState) :
  fromisoformat (isoformat (last_activity st)) = Some (last_activity st) ->
  Forall is_human_or_ai (messages st) ->
  from_dict isoformat fromisoformat now (to_dict isoformat st) = Ok (reloaded st).
Proof.
  intros Hiso Hmsgs. unfold from_dict, dict_get.
  rewrite to_dict_current_workflow, to_dict_active_tasks, to_dict_pending_approvals,
    to_dict_last_activity, to_dict_context, to_dict_error_count, to_dict_last_error,
    to_dict_workflow_step, to_dict_messages.
  rewrite !as_optional_str_of. cbn [Exc.bind as_list as_str as_dict as_int].
  rewrite Hiso. cbn [Exc.bind].
  rewrite reconstruct_messages_to_dict by now apply Forall_last_n.
  reflexivity.
Qed.

End RoundTripFacts.

(** C8: an [AgentState] with more than ten messages, each tagged human or
    AI, is rebuilt by [from_dict] from its [to_dict] dictionary with the
    same context map and the same active-task list (whatever they hold),
    and with exactly the last ten messages, in their order and with their
    tags. [fromisoformat] is assumed to read back the ISO text of the
    state's own [last_activity], as Python's does. *)
Theorem agent_state_round_trip
    (isoformat : datetime -> string) (fromisoformat : string -> option datetime)
    (now : datetime) (st : Agent.AgentState) :
  fromisoformat (isoformat (Agent.last_activity st)) = Some (Agent.last_activity st) ->
  (10 < length (Agent.messages st))%nat ->
  Forall Agent.is_human_or_ai (Agent.messages st) ->
  exists st',
    Agent.from_dict isoformat fromisoformat now (Agent.to_dict isoformat st) = Ok st'
    /\ Agent.context st' = Agent.context st
    /\ Agent.active_tasks st' = Agent.active_tasks st
    /\ length (Agent.messages st') = 10%nat
    /\ (exists older, Agent.messages st = (older ++ Agent.messages st')%list)
    /\ (forall (i : nat),
          Agent.messages st' !! i
          = Agent.messages st !! (length (Agent.messages st) - 10 + i)%nat).
Proof.
  intros Hiso Hlen Hmsgs. exists (RoundTripFacts.reloaded st).
  split; [now apply RoundTripFacts.from_dict_to_dict|].
  split; [reflexivity|]. split; [reflexivity|].
  cbn [RoundTripFacts.reloaded Agent.messages].
  split; [apply Agent.last_n_length; lia|].
  split.
  - exists (take (length (Agent.messages st) - 10) (Agent.messages st)).
    unfold Agent.last_n. symmetry. apply take_drop.
  - intros i. unfold Agent.last_n. apply lookup_drop.
Qed.

(** A sample state and a sample time codec (decimal microseconds) for
    [agent_state_round_trip]. *)
Module RoundTripSample.

Definition digit_value (c : ascii) : option Z :=
  let n := Z.of_N (N_of_ascii c) in
  if (48 <=? n) && (n <=? 57) then Some (n - 48) else None.

Fixpoint parse_digits (acc : Z) (s : string) : option Z :=
  match s with
  | EmptyString => Some acc
  | String c s' =>
      match digit_value c with
      | Some d => parse_digits (acc * 10 + d) s'
      | None => None
      end
  end.

Definition isoformat (t : datetime) : string := pretty t.

Definition fromisoformat (s : string) : option datetime :=
  match s with
  | EmptyString => None
  | String c s' =>
      if Ascii.eqb c "-"%char then Z.opp <$> parse_digits 0 s' else parse_digits 0 s
  end.

Definition state : Agent.AgentState :=
  {| Agent.current_workflow := Some "weekly_update";
     Agent.active_tasks :=
       [PyDict (list_to_map [("type", PyStr "action_completed");
                             ("action", PyStr "send_emails")])];
     Agent.pending_approvals := [];
     Agent.last_activity := 1730745000000000;
     Agent.context := list_to_map [("action", PyStr "send_emails"); ("success", PyBool true)];
     Agent.messages :=
       [ Agent.HumanMessage "m1"; Agent.AIMessage "m2"; Agent.HumanMessage "m3";
         Agent.AIMessage "m4"; Agent.HumanMessage "m5"; Agent.AIMessage "m6";
         Agent.HumanMessage "m7"; Agent.AIMessage "m8"; Agent.HumanMessage "m9";
         Agent.AIMessage "m10"; Agent.HumanMessage "m11"; Agent.AIMessage "m12" ];
     Agent.error_count := 0;
     Agent.last_error := None;
     Agent.workflow_step := "completed" |}.

End RoundTripSample.

(** [agent_state_round_trip] at the sample state: twelve messages, the
    last ten of which come back. *)
Lemma agent_state_round_trip_witness :
  exists st',
    Agent.from_dict RoundTripSample.isoformat RoundTripSample.fromisoformat 0
      (Agent.to_dict RoundTripSample.isoformat RoundTripSample.state) = Ok st'
    /\ Agent.context st' = Agent.context RoundTripSample.state
    /\ Agent.active_tasks st' = Agent.active_tasks RoundTripSample.state
    /\ Agent.messages st' !! 0%nat = Some (Agent.HumanMessage "m3").
Proof.
  destruct (agent_state_round_trip RoundTripSample.isoformat RoundTripSample.fromisoformat
              0 RoundTripSample.state)
    as (st' & Hload & Hctx & Htasks & _ & _ & Hnth).
  - vm_compute. reflexivity.
  - simpl. lia.
  - repeat constructor.
  - exists st'. repeat split; try assumption.
    rewrite Hnth. reflexivity.
Defined.

(** ** The email parsing tool *)

Module ParseToolFacts.
Import EmailTools.

Lemma asyncio_unbound : lookup_global module_globals "asyncio" = Raise (NameError "asyncio").
Proof. reflexivity. Qed.

Lemma fallback_title (email_content : string) :
  _fallback_parsing email_content !! "task_title" = Some (PyStr "Email Update").
Proof.
  unfold _fallback_parsing.
  repeat match goal with
         | |- context [if ?b then _ else _] => destruct b
         end; reflexivity.
Qed.

(** A model reply and a JSON decoder for it: the reply holds one object,
    which names the task "Fix login". *)
Definition sample_reply (prompt : string) (max_tokens : Z) : string :=
  "Here you go: {" ++ LLMService.dq ++ "task_title" ++ LLMService.dq ++ ": "
  ++ LLMService.dq ++ "Fix login" ++ LLMService.dq ++ ", ...}".

Definition sample_json_loads (text : string) : option PyValue :=
  if String.prefix "{" text
  then Some (PyDict (list_to_map
               [ ("task_title", PyStr "Fix login"); ("status", PyStr "done");
                 ("priority", PyStr "high"); ("description", PyStr "Login works again") ]))
  else None.

End ParseToolFacts.

(** C6, what the code does: whatever the model answers and whether or not
    the service is available, [ParseEmailTool._run] returns the result of
    its local keyword fallback, whose title is "Email Update"; the
    model-backed parser is never reached, because the module does not
    bind [asyncio] (and [LLMService] has no attribute
    [parse_email_content]). *)
Theorem parse_email_tool_always_falls_back
    (generate_simple_response : string -> Z -> string)
    (json_loads : string -> option PyValue)
    (llm_service : option bool) (email_content : string) :
  EmailTools._run generate_simple_response json_loads llm_service email_content
  = EmailTools._fallback_parsing email_content
  /\ EmailTools._run generate_simple_response json_loads llm_service email_content
       !! "task_title" = Some (PyStr "Email Update").
Proof.
  assert (H : EmailTools._run generate_simple_response json_loads llm_service email_content
              = EmailTools._fallback_parsing email_content).
  { unfold EmailTools._run. destruct llm_service as [is_available|]; [|reflexivity].
    rewrite ParseToolFacts.asyncio_unbound. reflexivity. }
  split; [exact H|]. rewrite H. apply ParseToolFacts.fallback_title.
Qed.

(** The divergence at one input: with the service available and a model
    reply naming the task "Fix login", the service's structured
    extraction returns that title, status [done] and priority [high]; the
    tool returns "Email Update", [in_progress] and [medium]. *)
Lemma parse_email_tool_ignores_model_reply :
  LLMService.parse_email_content_simple ParseToolFacts.sample_reply
    ParseToolFacts.sample_json_loads true "Quick note about the login page"
    !! "task_title" = Some (PyStr "Fix login")
  /\ LLMService.parse_email_content_simple ParseToolFacts.sample_reply
       ParseToolFacts.sample_json_loads true "Quick note about the login page"
       !! "status" = Some (PyStr "done")
  /\ EmailTools._run ParseToolFacts.sample_reply ParseToolFacts.sample_json_loads
       (Some true) "Quick note about the login page"
       !! "task_title" = Some (PyStr "Email Update")
  /\ EmailTools._run ParseToolFacts.sample_reply ParseToolFacts.sample_json_loads
       (Some true) "Quick note about the login page"
       !! "status" = Some (PyStr "in_progress").
Proof. repeat split; vm_compute; reflexivity. Qed.

(** ** Creating a task through the tool *)

Module Samples.
Import DB.

(** A clock that advances by one second per reading. *)
Definition clock (n : nat) : datetime := 1730745000000000 + Z.of_nat n * 1000000.

(** One team member, deactivated. *)
Definition inactive_member : TeamMember.t :=
  TeamMember.mk 1700000000000000 1700000000000000 "x@example.com" "Xavier" "developer"
    false None "UTC".

Definition inactive_only : World :=
  mkWorld (mkDatabase {[ 1 := inactive_member ]} ∅ ∅ ∅ ∅) clock 0.

(** No team member at all. *)
Definition empty_world : World := mkWorld (mkDatabase ∅ ∅ ∅ ∅ ∅) clock 0.

End Samples.

(** C2, the claim at an email that matches a deactivated member only: no
    active record has the email, yet the tool reports success and writes
    a task row and a change row. *)
Lemma create_task_tool_inactive_member_counterexample :
  (forall id m,
      DB.team_members (DB.db Samples.inactive_only) !! id = Some m ->
      TeamMember.active m = true -> TeamMember.email m <> "x@example.com")
  /\ (KanbanTools.CreateTaskTool_run RoundTripSample.fromisoformat "Write report"
        "x@example.com" "todo" "" "medium" None Samples.inactive_only).1
     = Ok "Created task 'Write report' assigned to Xavier (x@example.com) with status 'todo'"
  /\ DB.tasks (DB.db (KanbanTools.CreateTaskTool_run RoundTripSample.fromisoformat
        "Write report" "x@example.com" "todo" "" "medium" None Samples.inactive_only).2)
       !! 1 <> None
  /\ DB.kanban_changes (DB.db (KanbanTools.CreateTaskTool_run RoundTripSample.fromisoformat
        "Write report" "x@example.com" "todo" "" "medium" None Samples.inactive_only).2)
       !! 1 <> None.
Proof.
  split.
  - intros id m Hm Hactive. simpl in Hm.
    apply lookup_singleton_Some in Hm as [_ <-]. discriminate Hactive.
  - repeat split; vm_compute; congruence.
Qed.

(** C2, amended: when the assignee email matches no [TeamMember] record
    at all, active or not, the tool returns its "Team member not found"
    error and leaves the database (and the clock) as they were: no task
    row and no change row is written. *)
Theorem create_task_tool_unknown_email
    (fromisoformat : string -> option datetime)
    (title assignee_email status description priority : string)
    (due_date : option string) (w : DB.World) :
  (forall id m,
      DB.team_members (DB.db w) !! id = Some m -> TeamMember.email m <> assignee_email) ->
  KanbanTools.CreateTaskTool_run fromisoformat title assignee_email status description
    priority due_date w
  = (Ok ("Error: Team member not found with email: " ++ assignee_email), w).
Proof.
  intros Hnone.
  assert (Hget : DB.get_or_none
                   (fun m => String.eqb (TeamMember.email m) assignee_email)
                   (DB.team_members (DB.db w)) = None).
  { apply DB.get_or_none_None. intros k row Hrow.
    apply String.eqb_neq. now apply (Hnone k). }
  unfold KanbanTools.CreateTaskTool_run, DB.try_except, mbind, DB.M_bind, DB.get_db.
  rewrite Hget. reflexivity.
Qed.

(** [create_task_tool_unknown_email] in a database without team members. *)
Lemma create_task_tool_unknown_email_witness :
  KanbanTools.CreateTaskTool_run RoundTripSample.fromisoformat "Write report"
    "x@example.com" "todo" "" "medium" None Samples.empty_world
  = (Ok "Error: Team member not found with email: x@example.com", Samples.empty_world).
Proof.
  apply (create_task_tool_unknown_email RoundTripSample.fromisoformat "Write report"
           "x@example.com" "todo" "" "medium" None Samples.empty_world).
  intros id m Hm. simpl in Hm. rewrite lookup_empty in Hm. discriminate Hm.
Defined.

(** ** Approving change records *)

Module ApprovalFacts.
Import DB Models KanbanTools.

(** A row the batch newly approves: not yet approved, and named. *)
Definition pending_in (change_ids : list Z) (row : Z * KanbanChange.t) : Prop :=
  KanbanChange.approved row.2 = false /\ row.1 ∈ change_ids.

#[export] Instance pending_in_dec change_ids row : Decision (pending_in change_ids row).
Proof. unfold pending_in. apply _. Defined.

Definition newly_approved (change_ids : list Z) (tbl : gmap Z KanbanChange.t)
  : gmap Z KanbanChange.t :=
  filter (pending_in change_ids) tbl.

(** [after] is [before] once approved: the flag is set, an approval time
    is stamped, and the columns that describe the change are the same. *)
Definition approved_copy (before after : KanbanChange.t) : Prop :=
  KanbanChange.approved after = true
  /\ is_Some (KanbanChange.approved_at after)
  /\ KanbanChange.created_at after = KanbanChange.created_at before
  /\ KanbanChange.change_type after = KanbanChange.change_type before
  /\ KanbanChange.task_id after = KanbanChange.task_id before
  /\ KanbanChange.task_data after = KanbanChange.task_data before
  /\ KanbanChange.approved_by after = KanbanChange.approved_by before
  /\ KanbanChange.published after = KanbanChange.published before
  /\ KanbanChange.published_at after = KanbanChange.published_at before.

(** What a batch does to the change table, key by key. *)
Definition approves (change_ids : list Z) (tbl tbl' : gmap Z KanbanChange.t) : Prop :=
  forall id,
    match tbl !! id with
    | None => tbl' !! id = None
    | Some c =>
        (KanbanChange.approved c = false -> id ∈ change_ids ->
         exists c', tbl' !! id = Some c' /\ approved_copy c c')
        /\ (KanbanChange.approved c = true \/ id ∉ change_ids -> tbl' !! id = Some c)
    end.

(** The other tables. *)
Definition same_elsewhere (d d' : Database) : Prop :=
  team_members d' = team_members d /\ tasks d' = tasks d
  /\ email_threads d' = email_threads d /\ agent_activities d' = agent_activities d.

Lemma newly_approved_skip (id0 : Z) (rest : list Z) (tbl : gmap Z KanbanChange.t) :
  (forall c, tbl !! id0 = Some c -> KanbanChange.approved c = true) ->
  newly_approved (id0 :: rest) tbl = newly_approved rest tbl.
Proof.
  intros Hskip. unfold newly_approved. apply map_filter_ext.
  intros k c Hk. unfold pending_in. simpl. split.
  - intros [Hc Hin]. split; [exact Hc|].
    apply elem_of_cons in Hin as [->|Hin]; [|exact Hin].
    rewrite (Hskip c Hk) in Hc. discriminate Hc.
  - intros [Hc Hin]. split; [exact Hc | now apply elem_of_cons; right].
Qed.

Lemma newly_approved_step (id0 : Z) (rest : list Z) (tbl : gmap Z KanbanChange.t)
    (c c1 : KanbanChange.t) :
  tbl !! id0 = Some c -> KanbanChange.approved c = false ->
  KanbanChange.approved c1 = true ->
  size (newly_approved (id0 :: rest) tbl)
  = S (size (newly_approved rest (<[id0 := c1]> tbl))).
Proof.
  intros Hc Hpending Happroved. unfold newly_approved.
  assert (Hafter : filter (pending_in rest) (<[id0 := c1]> tbl)
                   = filter (pending_in rest) (delete id0 tbl)).
  { apply map_filter_insert_False. unfold pending_in. simpl.
    rewrite Happroved. intros [Hfalse _]. discriminate Hfalse. }
  rewrite Hafter.
  assert (Hbefore : filter (pending_in (id0 :: rest)) tbl
                    = <[id0 := c]> (filter (pending_in rest) (delete id0 tbl))).
  { rewrite <- (insert_delete_id tbl id0 c Hc) at 1.
    rewrite map_filter_insert_True.
    - f_equal. apply map_filter_ext. intros k x Hk. unfold pending_in. simpl.
      apply lookup_delete_Some in Hk as [Hne _].
      rewrite elem_of_cons. intuition congruence.
    - unfold pending_in. simpl. split; [exact Hpending | now apply elem_of_cons; left]. }
  rewrite Hbefore. apply map_size_insert_None.
  apply map_lookup_filter_None. left. apply lookup_delete_eq.
Qed.

Lemma approves_skip (id0 : Z) (rest : list Z) (tbl tbl' : gmap Z KanbanChange.t) :
  (forall c, tbl !! id0 = Some c -> KanbanChange.approved c = true) ->
  approves rest tbl tbl' -> approves (id0 :: rest) tbl tbl'.
Proof.
  intros Hskip Hrest id. specialize (Hrest id).
  destruct (tbl !! id) as [c|] eqn:Hid; [|exact Hrest].
  destruct Hrest as [Hflip Hkeep]. split.
  - intros Hc Hin. apply elem_of_cons in Hin as [->|Hin]; [|now apply Hflip].
    rewrite (Hskip c Hid) in Hc. discriminate Hc.
  - intros [Hc | Hnotin]; apply Hkeep; [now left|].
    right. intros Hin. apply Hnotin. now apply elem_of_cons; right.
Qed.

Lemma approves_step (id0 : Z) (rest : list Z) (tbl tbl' : gmap Z KanbanChange.t)
    (c c1 : KanbanChange.t) :
  tbl !! id0 = Some c -> KanbanChange.approved c = false -> approved_copy c c1 ->
  approves rest (<[id0 := c1]> tbl) tbl' -> approves (id0 :: rest) tbl tbl'.
Proof.
  intros Hc Hpending Hcopy Hrest id. specialize (Hrest id).
  destruct (decide (id = id0)) as [->|Hne].
  - rewrite lookup_insert_eq in Hrest. rewrite Hc.
    destruct Hrest as [_ Hkeep].
    assert (Hc1 : tbl' !! id0 = Some c1).
    { apply Hkeep. left. apply Hcopy. }
    split.
    + intros _ _. exists c1. split; [exact Hc1 | exact Hcopy].
    + intros [Happroved | Hnotin].
      * rewrite Hpending in Happroved. discriminate Happroved.
      * exfalso. apply Hnotin. now apply elem_of_cons; left.
  - rewrite lookup_insert_ne in Hrest by congruence.
    destruct (tbl !! id) as [x|]; [|exact Hrest].
    destruct Hrest as [Hflip Hkeep]. split.
    + intros Hx Hin. apply Hflip; [exact Hx|].
      apply elem_of_cons in Hin as [->|Hin]; [congruence | exact Hin].
    + intros [Hx | Hnotin]; apply Hkeep; [now left|].
      right. intros Hin. apply Hnotin. now apply elem_of_cons; right.
Qed.

Lemma approves_nil (tbl : gmap Z KanbanChange.t) : approves [] tbl tbl.
Proof.
  intros id. destruct (tbl !! id) as [c|]; [|reflexivity]. split.
  - intros _ Hin. inversion Hin.
  - reflexivity.
Qed.

(** The loop, from any table and any starting count. *)
Lemma approve_loop_spec (change_ids : list Z) :
  forall (approved_count : Z) (w : World),
  exists w',
    approve_loop change_ids approved_count w
    = (Ok (approved_count
           + Z.of_nat (size (newly_approved change_ids (kanban_changes (db w))))), w')
    /\ time w' = time w
    /\ same_elsewhere (db w) (db w')
    /\ approves change_ids (kanban_changes (db w)) (kanban_changes (db w')).
Proof.
  induction change_ids as [|id0 rest IH]; intros approved_count w.
  - exists w. split.
    + cbn [approve_loop]. unfold newly_approved.
      replace (filter (pending_in []) (kanban_changes (db w)))
        with (∅ : gmap Z KanbanChange.t).
      * rewrite map_size_empty. rewrite Z.add_0_r. reflexivity.
      * symmetry. apply map_empty. intros k.
        apply map_lookup_filter_None. right. intros c _ [_ Hin]. inversion Hin.
    + split; [reflexivity|]. split; [repeat split | apply approves_nil].
  - cbn [approve_loop]. unfold mbind, M_bind, get_db.
    destruct (kanban_changes (db w) !! id0) as [c|] eqn:Hc.
    + destruct (KanbanChange.approved c) eqn:Happroved; cbn [negb].
      * destruct (IH approved_count w) as (w' & Hrun & Htime & Hframe & Happroves).
        exists w'. rewrite Hrun.
        rewrite (newly_approved_skip id0 rest) by (intros c0 Hc0; congruence).
        split; [reflexivity|]. split; [exact Htime|]. split; [exact Hframe|].
        apply approves_skip; [intros c0 Hc0; congruence | exact Happroves].
      * unfold datetime_now, KanbanChange_save, mbind, M_bind, datetime_now, modify_db.
        cbn [db time ticks].
        match goal with
        | |- context [approve_loop rest (approved_count + 1) ?w1] =>
            destruct (IH (approved_count + 1) w1)
              as (w' & Hrun & Htime & Hframe & Happroves)
        end.
        exists w'. rewrite Hrun. cbn [db time kanban_changes set_kanban_changes] in *.
        split.
        -- f_equal. f_equal.
           match goal with
           | |- context [<[id0 := ?c1]> _] =>
               rewrite (newly_approved_step id0 rest _ c c1 Hc Happroved eq_refl)
           end.
           lia.
        -- split; [exact Htime|]. split; [exact Hframe|].
           eapply approves_step; [exact Hc | exact Happroved | | exact Happroves].
           repeat split; cbn; eauto.
    + destruct (IH approved_count w) as (w' & Hrun & Htime & Hframe & Happroves).
      exists w'. rewrite Hrun.
      rewrite (newly_approved_skip id0 rest) by (intros c0 Hc0; congruence).
      split; [reflexivity|]. split; [exact Htime|]. split; [exact Hframe|].
      apply approves_skip; [intros c0 Hc0; congruence | exact Happroves].
Qed.

Lemma approve_changes_run (change_ids : list Z) (w : World) :
  exists w',
    approve_changes change_ids w
    = (Ok ("Approved "
           ++ pretty (Z.of_nat (size (newly_approved change_ids (kanban_changes (db w)))))
           ++ " kanban changes"), w')
    /\ time w' = time w
    /\ same_elsewhere (db w) (db w')
    /\ approves change_ids (kanban_changes (db w)) (kanban_changes (db w')).
Proof.
  destruct (approve_loop_spec change_ids 0 w) as (w' & Hrun & Hrest).
  exists w'. split; [|exact Hrest].
  unfold approve_changes, try_except, mbind, M_bind. rewrite Hrun. reflexivity.
Qed.

(** Three change records: the first approved already, the other two
    pending. *)
Definition sample_change (approved : bool) (approved_at : option datetime) : KanbanChange.t :=
  KanbanChange.mk 1700000000000000 1700000000000000 "update" (Some 5)
    (list_to_map [("title", PyStr "Write report")]) approved approved_at None false None.

Definition sample_world : World :=
  mkWorld
    (mkDatabase ∅ ∅ ∅
       (list_to_map [ (1, sample_change true (Some 1700000100000000));
                      (2, sample_change false None);
                      (3, sample_change false None) ])
       ∅)
    Samples.clock 0.

End ApprovalFacts.


(** The batch [1; 2; 99; 2] on the sample table: id 1 is approved
    already, id 99 does not exist, id 2 is named twice; one record is
    newly approved, and id 3, which the batch does not name, stays
    pending. *)
Lemma approve_changes_mixed_batch :
  (KanbanTools.approve_changes [1; 2; 99; 2] ApprovalFacts.sample_world).1
  = Ok "Approved 1 kanban changes"
  /\ KanbanChange.approved
       <$> DB.kanban_changes
             (DB.db (KanbanTools.approve_changes [1; 2; 99; 2] ApprovalFacts.sample_world).2)
           !! 2 = Some true
  /\ KanbanChange.approved
       <$> DB.kanban_changes
             (DB.db (KanbanTools.approve_changes [1; 2; 99; 2] ApprovalFacts.sample_world).2)
           !! 3 = Some false
  /\ DB.kanban_changes
       (DB.db (KanbanTools.approve_changes [1; 2; 99; 2] ApprovalFacts.sample_world).2)
       !! 99 = None.
Proof. repeat split; vm_compute; reflexivity. Qed.

(** ** The kanban routes *)

Module RouteFacts.
Import DB Models.




(** One member and one task assigned to that member. *)
Definition member : TeamMember.t :=
  TeamMember.mk 1700000000000000 1700000000000000 "ana@example.com" "Ana" "developer"
    true None "UTC".

Definition report_task : Task.t :=
  Task.mk 1700000000000000 1700000000000000 "Write report" "Quarterly numbers" "todo" 1
    None "medium" 0 [].

Definition board : World :=
  mkWorld (mkDatabase {[ 1 := member ]} {[ 7 := report_task ]} ∅ ∅ ∅) Samples.clock 0.

(** A request whose assignee does not exist. *)
Definition orphan_request : Api.TaskCreate :=
  Api.mkTaskCreate "Write report" "Quarterly numbers" "todo" 42 None "medium" 0 [].

End RouteFacts.

(** C3, what the code does: when [assignee_id] names no team member, the
    404 that [create_task] raises is caught by its own [except Exception]
    handler and raised again as a 500 whose detail is the text of the
    404; the response status is 500 and nothing is written. (The sibling
    [update_task] lets an [HTTPException] through with
    [except HTTPException: raise]; [create_task] has no such clause.) *)
Theorem create_task_missing_assignee_is_500 (task : Api.TaskCreate) (w : DB.World) :
  DB.team_members (DB.db w) !! Api.assignee_id task = None ->
  Api.create_task task w = (Raise (HTTPException 500 "404: Assignee not found"), w)
  /\ Api.http_status (Api.create_task task w).1 = 500.
Proof.
  intros Hnone.
  assert (H : Api.create_task task w
              = (Raise (HTTPException 500 "404: Assignee not found"), w)).
  { unfold Api.create_task, DB.try_except, mbind, DB.M_bind, DB.get_db.
    rewrite Hnone. reflexivity. }
  split; [exact H | now rewrite H].
Qed.

(** [create_task_missing_assignee_is_500] at a request for assignee 42 on
    a board whose only member has id 1. *)
Lemma create_task_missing_assignee_witness :
  Api.http_status (Api.create_task RouteFacts.orphan_request RouteFacts.board).1 = 500
  /\ Api.http_status (Api.create_task RouteFacts.orphan_request RouteFacts.board).1 <> 404.
Proof.
  destruct (create_task_missing_assignee_is_500 RouteFacts.orphan_request RouteFacts.board)
    as [_ Hstatus].
  - reflexivity.
  - split; [exact Hstatus | rewrite Hstatus; discriminate].
Defined.





(** ** Housekeeping *)

Module CleanupFacts.
Import DB Housekeeping.

Lemma timedelta_unbound (star_import : list string) :
  "timedelta" ∉ star_import ->
  lookup_global (module_globals star_import) "timedelta" = Raise (NameError "timedelta").
Proof.
  intros Hstar. unfold lookup_global.
  rewrite bool_decide_eq_false_2; [reflexivity|].
  unfold module_globals. rewrite elem_of_app. intros [Hin | Hin]; [now apply Hstar|].
  match type of Hin with
  | ?x ∈ ?l =>
      assert (Hown : x ∉ l)
        by (apply (bool_decide_eq_false_1 (x ∈ l)); vm_compute; reflexivity)
  end.
  now apply Hown.
Qed.

Lemma peewee_has_no_timedelta : "timedelta" ∉ peewee_all.
Proof.
  apply (bool_decide_eq_false_1 ("timedelta" ∈ peewee_all)). vm_compute. reflexivity.
Qed.

(** What the [try] body deletes once a cutoff is computed: the activities
    created before the cutoff, and the threads created before the cutoff
    whose response was received; an unresponded thread stays, whatever
    its age. *)
Lemma delete_old_rows_spec (cutoff_date : datetime) (d : Database) :
  (forall id,
      agent_activities (delete_old_rows cutoff_date d) !! id
      = match agent_activities d !! id with
        | Some a => if AgentActivity.created_at a <? cutoff_date then None else Some a
        | None => None
        end)
  /\ (forall id,
        email_threads (delete_old_rows cutoff_date d) !! id
        = match email_threads d !! id with
          | Some t =>
              if (EmailThread.created_at t <? cutoff_date) && EmailThread.response_received t
              then None else Some t
          | None => None
          end)
  /\ (forall id t,
        email_threads d !! id = Some t -> EmailThread.response_received t = false ->
        email_threads (delete_old_rows cutoff_date d) !! id = Some t).
Proof.
  assert (Hthreads : forall id,
    email_threads (delete_old_rows cutoff_date d) !! id
    = match email_threads d !! id with
      | Some t =>
          if (EmailThread.created_at t <? cutoff_date) && EmailThread.response_received t
          then None else Some t
      | None => None
      end).
  { intros id. unfold delete_old_rows. cbn [email_threads set_email_threads].
    apply delete_where_lookup. }
  split; [|split; [exact Hthreads|]].
  - intros id. unfold delete_old_rows.
    cbn [agent_activities set_email_threads set_agent_activities].
    apply delete_where_lookup.
  - intros id t Ht Hopen. rewrite Hthreads, Ht, Hopen, andb_false_r. reflexivity.
Qed.

(** With [timedelta] bound the function would run its body. *)
Lemma cleanup_old_data_when_bound (star_import : list string) (days_to_keep : Z) (w : World) :
  "timedelta" ∈ star_import ->
  cleanup_old_data star_import days_to_keep w
  = (Ok tt,
     {| db := delete_old_rows (time w (ticks w) - timedelta_days days_to_keep) (db w);
        time := time w; ticks := S (ticks w) |}).
Proof.
  intros Hbound.
  unfold cleanup_old_data, try_except, mbind, M_bind, datetime_now, lift, lookup_global.
  rewrite bool_decide_eq_true_2; [reflexivity|].
  unfold module_globals. apply elem_of_app. now left.
Qed.

(** An activity and a responded thread, both created 200 days before the
    first clock reading, and an unresponded thread of the same age. *)
Definition long_ago : datetime := Samples.clock 0 - timedelta_days 200.

Definition old_activity : AgentActivity.t :=
  AgentActivity.mk long_ago long_ago "email_sent" "Sent weekly request" None None
    "success" "{}" None.

Definition old_thread (response_received : bool) : EmailThread.t :=
  EmailThread.mk long_ago long_ago "thread-1" 1 "Weekly Update Request" long_ago
    response_received None "sent" "Hi" None 0 None.

Definition stale_world : World :=
  mkWorld
    (mkDatabase ∅ ∅ (list_to_map [(1, old_thread true); (2, old_thread false)]) ∅
       {[ 1 := old_activity ]})
    Samples.clock 0.

End CleanupFacts.

(** C4, what the code does: [models/database.py] never binds the name
    [timedelta] (it imports [datetime] alone from [datetime], and a star
    import that does not provide it), so computing the cutoff raises
    [NameError], the handler logs it, and [cleanup_old_data] deletes no
    row of any table, whatever their age. *)
Theorem cleanup_old_data_deletes_nothing
    (star_import : list string) (days_to_keep : Z) (w : DB.World) :
  "timedelta" ∉ star_import ->
  exists w',
    Housekeeping.cleanup_old_data star_import days_to_keep w = (Ok tt, w')
    /\ DB.db w' = DB.db w.
Proof.
  intros Hstar.
  exists {| DB.db := DB.db w; DB.time := DB.time w; DB.ticks := S (DB.ticks w) |}.
  split; [|reflexivity].
  unfold Housekeeping.cleanup_old_data, DB.try_except, mbind, DB.M_bind,
    DB.datetime_now, DB.lift.
  rewrite (CleanupFacts.timedelta_unbound star_import Hstar). reflexivity.
Qed.

(** [cleanup_old_data_deletes_nothing] with peewee's star import and the
    default window of 90 days, on a database that holds an activity and a
    responded thread 200 days old: both are still there afterwards,
    though the body, had it run, would have deleted them. *)
Lemma cleanup_old_data_deletes_nothing_witness :
  exists w',
    Housekeeping.cleanup_old_data Housekeeping.peewee_all 90 CleanupFacts.stale_world
    = (Ok tt, w')
    /\ DB.agent_activities (DB.db w') !! 1 = Some CleanupFacts.old_activity
    /\ DB.email_threads (DB.db w') !! 1 = Some (CleanupFacts.old_thread true)
    /\ AgentActivity.created_at CleanupFacts.old_activity
       < Samples.clock 0 - timedelta_days 90
    /\ DB.agent_activities
         (Housekeeping.delete_old_rows (Samples.clock 0 - timedelta_days 90)
            (DB.db CleanupFacts.stale_world)) !! 1 = None.
Proof.
  assert (Hstar : "timedelta" ∉ Housekeeping.peewee_all).
  { apply (bool_decide_eq_false_1 ("timedelta" ∈ Housekeeping.peewee_all)).
    vm_compute. reflexivity. }
  destruct (cleanup_old_data_deletes_nothing Housekeeping.peewee_all 90
              CleanupFacts.stale_world Hstar)
    as (w' & Hrun & Hdb).
  exists w'. split; [exact Hrun|]. rewrite Hdb.
  repeat split; vm_compute; reflexivity.
Defined.

(** ** Publishing the board *)

Module PublishFacts.
Import GitTools.

(** The settings as [core/config.py] leaves them, and with a repository
    but no token. *)
Definition unconfigured : Settings := mkSettings None None.
Definition repository_only : Settings := mkSettings None (Some "acme/board").

(** A machine on which every command succeeds and the index holds
    changes. *)
Definition willing_host : Host :=
  mkHost true true true true true true true true true true true true true.

Definition page (board : list Column) : string := "<!DOCTYPE html>".

Lemma error_message_is_no_success (e : PyExc) :
  error_message e <> not_configured_message
  /\ String.prefix "Error publishing Kanban board to GitHub Pages: " (error_message e) = true.
Proof.
  split.
  - unfold error_message, not_configured_message. intros H.
    vm_compute in H. discriminate H.
  - apply prefix_true_iff. exists (str_exc e). reflexivity.
Qed.

End PublishFacts.

(** C5, what the code does: with no repository configured, every run of
    [PublishKanbanTool._run] ends in its [except] branch and returns the
    text "Error publishing Kanban board to GitHub Pages: ...", never the
    report that the page was generated and publishing skipped. When the
    working directory can be set up and written to, the page is rendered
    and written first, and the exception is the [AttributeError] of
    [settings.github_repo.split] on [None], raised while the README text
    is formatted. *)
Theorem publish_without_repository_is_error
    (settings : GitTools.Settings) (host : GitTools.Host)
    (_generate_kanban_html : list GitTools.Column -> string) (last_updated : string)
    (db : DB.Database) :
  GitTools.github_repo settings = None ->
  exists e log,
    GitTools._run settings host _generate_kanban_html last_updated db
    = (GitTools.error_message e, log)
    /\ GitTools.error_message e <> GitTools.not_configured_message
    /\ (GitTools.mkdtemp_ok host = true -> GitTools.init_ok host = true ->
        GitTools.config_ok host = true -> GitTools.write_ok host = true ->
        e = AttributeError "NoneType" "split"
        /\ In (GitTools.WriteFile "index.html"
                 (_generate_kanban_html (GitTools._get_board_data db))) log).
Proof.
  intros Hrepo.
  unfold GitTools._run, GitTools.publish_body, GitTools._setup_temp_repo,
    GitTools.readme_content, GitTools.pages_url, GitTools.repo_part,
    GitTools.checked, GitTools.lift, GitTools.act, GitTools.fail,
    GitTools._cleanup_temp_repo, mbind, GitTools.G_bind, mret, GitTools.G_ret.
  rewrite Hrepo. cbn [GitTools.is_set Exc.bind].
  destruct (GitTools.mkdtemp_ok host), (GitTools.init_ok host),
    (GitTools.config_ok host), (GitTools.write_ok host);
    cbn;
    (eexists _, _; split; [reflexivity|];
     split; [apply PublishFacts.error_message_is_no_success|];
     intros H1 H2 H3 H4;
     first [discriminate | split; [reflexivity | cbn; tauto]]).
Qed.

(** [publish_without_repository_is_error] with the default settings on a
    machine where every command succeeds. *)
Lemma publish_without_repository_witness :
  (GitTools._run PublishFacts.unconfigured PublishFacts.willing_host PublishFacts.page
     "November 04, 2026 at 06:30 PM" (DB.db Samples.empty_world)).1
  = "Error publishing Kanban board to GitHub Pages: 'NoneType' object has no attribute 'split'".
Proof.
  destruct (publish_without_repository_is_error PublishFacts.unconfigured
              PublishFacts.willing_host PublishFacts.page "November 04, 2026 at 06:30 PM"
              (DB.db Samples.empty_world) eq_refl)
    as (e & log & Hrun & _ & Hcause).
  destruct (Hcause eq_refl eq_refl eq_refl eq_refl) as [-> _].
  rewrite Hrun. reflexivity.
Defined.

(** With a repository configured and no token, on the same machine, the
    run does reach the report that publishing was skipped. *)
Lemma publish_with_repository_without_token :
  (GitTools._run PublishFacts.repository_only PublishFacts.willing_host PublishFacts.page
     "November 04, 2026 at 06:30 PM" (DB.db Samples.empty_world)).1
  = GitTools.not_configured_message.
Proof. vm_compute. reflexivity. Qed.

(** * Further properties of the code *)

(** ** The agent's four pipeline stages ([agents/assistant_agent.py]) *)

Module Pipeline.
Import Agent.






(** The methods [_register_simple_tools] registers, and the fallback. *)
Inductive Handler :=
| SimpleSendEmails
| SimpleCheckResponses
| SimpleParseEmail
| SimpleBoardStatus
| SimpleCreateTask
| SimpleUpdateTask
| SimpleFindTasks
| SimpleAnalyzeTeam
| SimpleGenerateReport
| SimplePublishGithub
| SimpleGithubStatus
| HandleGeneralQuery.

(** [self.tool_registry], key by key. *)
Definition tool_registry : list (string * Handler) :=
  [ ("send_update_emails", SimpleSendEmails);
    ("check_email_responses", SimpleCheckResponses);
    ("parse_email", SimpleParseEmail);
    ("get_board_status", SimpleBoardStatus);
    ("create_task", SimpleCreateTask);
    ("update_task", SimpleUpdateTask);
    ("find_tasks", SimpleFindTasks);
    ("analyze_team", SimpleAnalyzeTeam);
    ("generate_report", SimpleGenerateReport);
    ("publish_to_github", SimplePublishGithub);
    ("check_github_status", SimpleGithubStatus) ].

Definition registry_get (key : string) : option Handler :=
  snd <$> List.find (fun entry => String.eqb entry.1 key) tool_registry.

(** A dictionary key must be hashable: lists and dictionaries are not. *)
Definition hashable (v : PyValue) : bool :=
  match v with
  | PyList _ | PyDict _ => false
  | _ => true
  end.

(** The handler [_execute_action] calls for an action: the registered one
    when [action in self.tool_registry], [_handle_general_query]
    otherwise; the membership test raises on an unhashable action. *)
Definition select_handler (action : PyValue) : Result Handler :=
  if negb (hashable action) then Raise (TypeError "unhashable type")
  else match action with
       | PyStr key =>
           match registry_get key with
           | Some handler => Ok handler
           | None => Ok HandleGeneralQuery
           end
       | _ => Ok HandleGeneralQuery
       end.

Section Stages.

(** [datetime.isoformat]; Python's [str] on a value, for the f-strings;
    and the text each handler that works through tools or the model
    returns (every handler catches its own exceptions and answers with a
    text). *)
Variable isoformat : datetime -> string.
Variable py_str : PyValue -> string.
Variable run_tool : Handler -> AgentState -> string.








End Stages.

End Pipeline.

Module PipelineFacts.
Import Agent Pipeline.

Lemma classify_cases (text : string) :
  classify text = "send_emails" \/ classify text = "check_responses"
  \/ classify text = "create_task" \/ classify text = "generate_report"
  \/ classify text = "board_status" \/ classify text = "publish_to_github"
  \/ classify text = "general_query".
Proof.
  unfold classify.
  repeat match goal with
         | |- context [if ?b then _ else _] => destruct b
         end; tauto.
Qed.

(** The handler behind each action the analysis can store. *)
Definition handler_of (action : string) : Handler :=
  if String.eqb action "create_task" then SimpleCreateTask
  else if String.eqb action "generate_report" then SimpleGenerateReport
  else if String.eqb action "publish_to_github" then SimplePublishGithub
  else HandleGeneralQuery.

Lemma select_classified (text : string) :
  select_handler (PyStr (classify text)) = Ok (handler_of (classify text)).
Proof.
  destruct (classify_cases text) as [H|[H|[H|[H|[H|[H|H]]]]]]; rewrite H; reflexivity.
Qed.


Lemma analyze_empty (now : datetime) (state : AgentState) :
  messages state = [] ->
  _analyze_request now state
  = set_context "action" (PyStr "status_check") (set_workflow_step "analyzing" state).
Proof.
  intros Hnil. unfold _analyze_request.
  change (messages (set_workflow_step "analyzing" state)) with (messages state).
  now rewrite Hnil.
Qed.

End PipelineFacts.

(** X1. After [_analyze_request], [_execute_action] finds in the tool registry
    only the actions [create_task], [generate_report] and
    [publish_to_github]. The actions [send_emails], [check_responses] and
    [board_status] (and [general_query], [status_check]) are no registry
    keys, the registry names those tools [send_update_emails],
    [check_email_responses] and [get_board_status], so for them the
    general-query handler is called: the email and board handlers are
    never reached from a message. *)
Theorem analysed_action_handler (now : datetime) (state : Agent.AgentState) :
  exists action handler,
    Agent.context (Agent._analyze_request now state) !! "action" = Some (PyStr action)
    /\ Pipeline.select_handler (PyStr action) = Ok handler
    /\ ((action = "create_task" /\ handler = Pipeline.SimpleCreateTask)
        \/ (action = "generate_report" /\ handler = Pipeline.SimpleGenerateReport)
        \/ (action = "publish_to_github" /\ handler = Pipeline.SimplePublishGithub)
        \/ (In action ["send_emails"; "check_responses"; "board_status";
                       "general_query"; "status_check"]
            /\ handler = Pipeline.HandleGeneralQuery)).
Proof.
  destruct (last (Agent.messages state)) as [msg|] eqn:Hlast.
  - exists (Agent.classify (lower (Agent.content msg))),
           (PipelineFacts.handler_of (Agent.classify (lower (Agent.content msg)))).
    split; [now apply ClassifierFacts.action_after_analysis|].
    split; [apply PipelineFacts.select_classified|].
    destruct (PipelineFacts.classify_cases (lower (Agent.content msg)))
      as [H|[H|[H|[H|[H|[H|H]]]]]]; rewrite H; cbn; tauto.
  - exists "status_check", Pipeline.HandleGeneralQuery.
    apply last_None in Hlast.
    rewrite (PipelineFacts.analyze_empty now state Hlast).
    split; [apply lookup_insert_eq|]. split; [reflexivity|].
    right. right. right. cbn. tauto.
Qed.

Module PipelineRun.


End PipelineRun.






(** ** Reloading the agent state: short histories, missing keys, odd entries *)

Module ReloadFacts.
Import Agent.

Lemma last_n_all {A} (n : nat) (l : list A) :
  (length l <= n)%nat -> last_n n l = l.
Proof.
  intros H. unfold last_n.
  replace (length l - n)%nat with 0%nat by lia. reflexivity.
Qed.

(** An entry whose type tag is neither of the two names. *)
Definition foreign_entry (entry : PyValue) : Prop :=
  exists ty, subscript entry "type" = Ok ty
             /\ eq_str ty "HumanMessage" = false /\ eq_str ty "AIMessage" = false.

Lemma reconstruct_app (before after : list PyValue) (msgs : list BaseMessage) :
  reconstruct_messages before = Ok msgs ->
  reconstruct_messages (before ++ after)
  = Exc.bind (reconstruct_messages after) (fun rest => Ok (msgs ++ rest)%list).
Proof.
  revert msgs. induction before as [|entry before IH]; intros msgs Hbefore.
  - injection Hbefore as <-. cbn [app]. destruct (reconstruct_messages after); reflexivity.
  - cbn [app reconstruct_messages] in *.
    destruct (subscript entry "type") as [ty|e]; cbn [Exc.bind] in *; [|discriminate].
    destruct (eq_str ty "HumanMessage").
    + destruct (subscript entry "content") as [c|e]; cbn [Exc.bind] in *; [|discriminate].
      destruct (as_str c) as [text|e]; cbn [Exc.bind] in *; [|discriminate].
      destruct (reconstruct_messages before) as [ms|e]; cbn [Exc.bind] in *; [|discriminate].
      injection Hbefore as <-. rewrite (IH ms eq_refl).
      destruct (reconstruct_messages after); reflexivity.
    + destruct (eq_str ty "AIMessage").
      * destruct (subscript entry "content") as [c|e]; cbn [Exc.bind] in *; [|discriminate].
        destruct (as_str c) as [text|e]; cbn [Exc.bind] in *; [|discriminate].
        destruct (reconstruct_messages before) as [ms|e]; cbn [Exc.bind] in *; [|discriminate].
        injection Hbefore as <-. rewrite (IH ms eq_refl).
        destruct (reconstruct_messages after); reflexivity.
      * now apply IH.
Qed.

End ReloadFacts.

(** X5. A state with at most ten messages, each human or AI, is reloaded
    exactly: [from_dict] of its [to_dict] is the state itself, every
    field included. *)
Theorem short_history_reloads_exactly
    (isoformat : datetime -> string) (fromisoformat : string -> option datetime)
    (now : datetime) (st : Agent.AgentState) :
  fromisoformat (isoformat (Agent.last_activity st)) = Some (Agent.last_activity st) ->
  (length (Agent.messages st) <= 10)%nat ->
  Forall Agent.is_human_or_ai (Agent.messages st) ->
  Agent.from_dict isoformat fromisoformat now (Agent.to_dict isoformat st) = Ok st.
Proof.
  intros Hiso Hlen Hmsgs.
  rewrite RoundTripFacts.from_dict_to_dict by assumption.
  unfold RoundTripFacts.reloaded. rewrite ReloadFacts.last_n_all by exact Hlen.
  destruct st; reflexivity.
Qed.

(** [short_history_reloads_exactly] at the state a fresh agent has after
    it received one message. *)
Lemma short_history_reloads_exactly_witness :
  Agent.from_dict RoundTripSample.isoformat RoundTripSample.fromisoformat 5
    (Agent.to_dict RoundTripSample.isoformat (Agent.receive "hello" (Agent.init 3)))
  = Ok (Agent.receive "hello" (Agent.init 3)).
Proof.
  apply (short_history_reloads_exactly RoundTripSample.isoformat
           RoundTripSample.fromisoformat 5 (Agent.receive "hello" (Agent.init 3))).
  - vm_compute. reflexivity.
  - simpl. lia.
  - repeat constructor.
Defined.

(** X6. From a dictionary without any key, [from_dict] builds the state of a
    fresh agent: no workflow, no tasks, no approvals, no messages, an
    empty context, zero errors, step "idle", and as last activity the
    current time (read back from its ISO text). *)
Theorem from_dict_of_empty_dictionary
    (isoformat : datetime -> string) (fromisoformat : string -> option datetime)
    (now : datetime) :
  fromisoformat (isoformat now) = Some now ->
  Agent.from_dict isoformat fromisoformat now ∅ = Ok (Agent.init now).
Proof.
  intros Hiso. unfold Agent.from_dict, Agent.dict_get.
  rewrite !lookup_empty. cbn [Exc.bind Agent.as_optional_str Agent.as_list Agent.as_str].
  rewrite Hiso. reflexivity.
Qed.

Lemma from_dict_of_empty_dictionary_witness :
  Agent.from_dict RoundTripSample.isoformat RoundTripSample.fromisoformat 1730745000000000 ∅
  = Ok (Agent.init 1730745000000000).
Proof.
  apply (from_dict_of_empty_dictionary RoundTripSample.isoformat
           RoundTripSample.fromisoformat 1730745000000000).
  vm_compute. reflexivity.
Defined.

(** X7. In the persisted message list, an entry whose type tag is neither
    "HumanMessage" nor "AIMessage" is dropped without an error, wherever
    it stands; an entry without a type tag makes the whole load fail with
    a [KeyError], whatever follows it. *)
Theorem reconstruct_messages_odd_entries
    (before after : list PyValue) (entry : PyValue) (msgs : list Agent.BaseMessage) :
  Agent.reconstruct_messages before = Ok msgs ->
  (ReloadFacts.foreign_entry entry ->
   Agent.reconstruct_messages (before ++ entry :: after)
   = Agent.reconstruct_messages (before ++ after))
  /\ (Agent.subscript entry "type" = Raise (KeyError "type") ->
      Agent.reconstruct_messages (before ++ entry :: after) = Raise (KeyError "type")).
Proof.
  intros Hbefore. split.
  - intros (ty & Hty & Hhuman & Hai).
    rewrite !(ReloadFacts.reconstruct_app before _ msgs Hbefore).
    cbn [Agent.reconstruct_messages]. rewrite Hty. cbn [Exc.bind].
    now rewrite Hhuman, Hai.
  - intros Hmissing.
    rewrite (ReloadFacts.reconstruct_app before _ msgs Hbefore).
    cbn [Agent.reconstruct_messages]. rewrite Hmissing. reflexivity.
Qed.

(** [reconstruct_messages_odd_entries] around a "SystemMessage" entry and
    around an entry that has only a content. *)
Lemma reconstruct_messages_odd_entries_witness :
  Agent.reconstruct_messages
    [ Agent.message_to_dict (Agent.HumanMessage "hi");
      PyDict (list_to_map [("type", PyStr "SystemMessage"); ("content", PyStr "be brief")]);
      Agent.message_to_dict (Agent.AIMessage "hello") ]
  = Ok [Agent.HumanMessage "hi"; Agent.AIMessage "hello"]
  /\ Agent.reconstruct_messages
       [ Agent.message_to_dict (Agent.HumanMessage "hi");
         PyDict (list_to_map [("content", PyStr "no tag")]);
         Agent.message_to_dict (Agent.AIMessage "hello") ]
     = Raise (KeyError "type").
Proof.
  destruct (reconstruct_messages_odd_entries
              [Agent.message_to_dict (Agent.HumanMessage "hi")]
              [Agent.message_to_dict (Agent.AIMessage "hello")]
              (PyDict (list_to_map [("type", PyStr "SystemMessage");
                                    ("content", PyStr "be brief")]))
              [Agent.HumanMessage "hi"] eq_refl) as [Hdrop _].
  destruct (reconstruct_messages_odd_entries
              [Agent.message_to_dict (Agent.HumanMessage "hi")]
              [Agent.message_to_dict (Agent.AIMessage "hello")]
              (PyDict (list_to_map [("content", PyStr "no tag")]))
              [Agent.HumanMessage "hi"] eq_refl) as [_ Hfail].
  split.
  - cbn [app] in Hdrop. rewrite Hdrop.
    + reflexivity.
    + exists (PyStr "SystemMessage"). repeat split.
  - cbn [app] in Hfail. apply Hfail. reflexivity.
Defined.

(** ** The language-model service: prompts, requests, titles, validation *)

Module LLMRequests.
Import LLMService.

(** [re.sub(r'\s+', ' ', text)]: every run of whitespace becomes one
    space; [in_run] tells whether the previous character was one. *)
Fixpoint collapse_spaces (in_run : bool) (s : string) : string :=
  match s with
  | EmptyString => EmptyString
  | String c s' =>
      if is_space c then
        if in_run then collapse_spaces true s'
        else String " "%char (collapse_spaces true s')
      else String c (collapse_spaces false s')
  end.

Fixpoint last_char (s : string) : option ascii :=
  match s with
  | EmptyString => None
  | String c s' =>
      match last_char s' with
      | Some d => Some d
      | None => Some c
      end
  end.

(** [s.endswith(c)] for a one-character text. *)
Definition endswith (c : ascii) (s : string) : bool :=
  match last_char s with
  | Some d => Ascii.eqb d c
  | None => false
  end.

(** [LLMService._simplify_prompt]; [max_tokens] is not used by it. *)
Definition _simplify_prompt (prompt : string) (max_tokens : Z) : string :=
  let simplified := collapse_spaces false (strip prompt) in
  let max_prompt_length := 1000 in
  let simplified :=
    if max_prompt_length <? len simplified
    then take_str 1000 simplified ++ "..."
    else simplified in
  if negb (endswith "."%char simplified) && negb (endswith "?"%char simplified)
  then simplified ++ "."
  else simplified.

(** What one [session.post] to [/api/generate] comes to: status 200 with
    the [response] field of the JSON body (empty when absent), another
    status with the body's text, or an exception with its text. *)
Inductive Reply :=
| Http200 (response : string)
| HttpStatus (error_text : string)
| PostRaised (message : string).

Section Generate.

(** The server, asked for the [attempt]-th time. *)
Variable post : nat -> string -> Z -> Reply.

Definition max_retries : nat := 3.

(** The retry loop [for attempt in range(self.max_retries)], from
    [attempt] on with [remaining] rounds left: the text returned and the
    number of requests sent. *)
Fixpoint attempts (remaining attempt : nat) (prompt : string) (max_tokens : Z)
  : string * nat :=
  match remaining with
  | O => ("Failed to generate response after multiple attempts.", O)
  | S remaining' =>
      let failed (e : string) : string * nat :=
        if Nat.eqb attempt (max_retries - 1)
        then ("Error generating response: " ++ e, 1%nat)
        else let (text, sent) := attempts remaining' (S attempt) prompt max_tokens in
             (text, S sent) in
      match post attempt prompt max_tokens with
      | Http200 response =>
          let response_text := strip response in
          if negb (String.eqb response_text "") then (response_text, 1%nat)
          else failed "Empty response from LLM"
      | HttpStatus error_text => failed ("LLM generation failed: " ++ error_text)
      | PostRaised message => failed message
      end
  end.

(** [LLMService.generate_simple_response], with the number of requests it
    sends. *)
Definition generate_simple_response (is_available : bool) (prompt : string)
    (max_tokens : Z) : string * nat :=
  if negb is_available
  then ("LLM service is not available. Please check Ollama connection.", O)
  else attempts max_retries 0 (_simplify_prompt prompt max_tokens) max_tokens.

End Generate.

End LLMRequests.

Module StringFacts.

Lemma length_app (a b : string) :
  String.length (a ++ b) = (String.length a + String.length b)%nat.
Proof.
  induction a as [|c a IH]; [reflexivity|].
  change (S (String.length (a ++ b)) = S (String.length a + String.length b)).
  now rewrite IH.
Qed.

Lemma length_take (n : nat) (s : string) : (String.length (take_str n s) <= n)%nat.
Proof.
  unfold take_str. revert s. induction n as [|n IH]; intros s.
  - destruct s; simpl; lia.
  - destruct s as [|c s]; simpl; [lia|]. specialize (IH s). lia.
Qed.

Lemma take_nonempty (n : nat) (s : string) :
  s <> EmptyString -> take_str (S n) s <> EmptyString.
Proof. destruct s as [|c s]; [congruence|]. intros _. simpl. discriminate. Qed.

Lemma last_char_app (a b : string) :
  b <> EmptyString -> LLMRequests.last_char (a ++ b) = LLMRequests.last_char b.
Proof.
  intros Hb. induction a as [|c a IH]; [reflexivity|].
  change (LLMRequests.last_char (String c (a ++ b)) = LLMRequests.last_char b).
  cbn [LLMRequests.last_char]. rewrite IH.
  destruct b as [|d b]; [congruence|].
  destruct (LLMRequests.last_char (String d b)) eqn:H; [reflexivity|].
  simpl in H. destruct (LLMRequests.last_char b); discriminate.
Qed.

End StringFacts.

(** X8. [_simplify_prompt] returns, for every prompt, a text of at most 1003
    characters (1000 and the three dots) that ends with a full stop or a
    question mark; it is never empty. *)
Theorem simplify_prompt_bounded (prompt : string) (max_tokens : Z) :
  (String.length (LLMRequests._simplify_prompt prompt max_tokens) <= 1003)%nat
  /\ (LLMRequests.endswith "."%char (LLMRequests._simplify_prompt prompt max_tokens) = true
      \/ LLMRequests.endswith "?"%char (LLMRequests._simplify_prompt prompt max_tokens) = true)
  /\ LLMRequests._simplify_prompt prompt max_tokens <> EmptyString.
Proof.
  unfold LLMRequests._simplify_prompt.
  set (collapsed := LLMRequests.collapse_spaces false (LLMService.strip prompt)).
  assert (Hend : forall s, LLMRequests.endswith "."%char (s ++ ".") = true).
  { intros s. unfold LLMRequests.endswith.
    rewrite StringFacts.last_char_app by discriminate. reflexivity. }
  assert (Hdots : forall s, LLMRequests.endswith "."%char (s ++ "...") = true).
  { intros s. unfold LLMRequests.endswith.
    rewrite StringFacts.last_char_app by discriminate. reflexivity. }
  assert (Hne : forall s, LLMRequests.endswith "."%char s = true \/
                          LLMRequests.endswith "?"%char s = true -> s <> EmptyString).
  { intros s [H|H] ->; discriminate H. }
  destruct (1000 <? LLMService.len collapsed) eqn:Hlong.
  - rewrite Hdots. cbn [negb andb].
    split; [|split; [now left | apply Hne; left; apply Hdots]].
    rewrite StringFacts.length_app.
    pose proof (StringFacts.length_take 1000 collapsed). simpl. lia.
  - apply Z.ltb_ge in Hlong. unfold LLMService.len in Hlong.
    destruct (LLMRequests.endswith "."%char collapsed) eqn:Hdot; cbn [negb andb].
    + split; [lia|]. split; [now left | apply Hne; now left].
    + destruct (LLMRequests.endswith "?"%char collapsed) eqn:Hq; cbn [negb andb].
      * split; [lia|]. split; [now right | apply Hne; now right].
      * split; [rewrite StringFacts.length_app; simpl; lia|].
        split; [left; apply Hend | apply Hne; left; apply Hend].
Qed.

Module GenerateFacts.
Import LLMRequests.

(** The loop with [remaining] rounds left before the third attempt is
    over. *)
Lemma attempts_spec (post : nat -> string -> Z -> Reply) (prompt : string) (max_tokens : Z)
    (remaining attempt : nat) :
  (attempt + remaining = 3)%nat -> (1 <= remaining)%nat ->
  (attempts post remaining attempt prompt max_tokens).1 <> EmptyString
  /\ (1 <= (attempts post remaining attempt prompt max_tokens).2 <= remaining)%nat.
Proof.
  revert attempt. induction remaining as [|remaining IH]; intros attempt Hsum Hpos; [lia|].
  cbn [attempts].
  assert (Hfailed : forall e,
    (if Nat.eqb attempt (max_retries - 1)
     then ("Error generating response: " ++ e, 1%nat)
     else let (text, sent) := attempts post remaining (S attempt) prompt max_tokens in
          (text, S sent)).1 <> EmptyString
    /\ (1 <= (if Nat.eqb attempt (max_retries - 1)
              then ("Error generating response: " ++ e, 1%nat)
              else let (text, sent) := attempts post remaining (S attempt) prompt max_tokens in
                   (text, S sent)).2 <= S remaining)%nat).
  { intros e. destruct (Nat.eqb attempt (max_retries - 1)) eqn:Hlast.
    - split; [discriminate | simpl; lia].
    - apply Nat.eqb_neq in Hlast. unfold max_retries in Hlast.
      destruct (IH (S attempt)) as [Htext Hsent]; [lia | lia |].
      destruct (attempts post remaining (S attempt) prompt max_tokens) as [text sent].
      simpl in *. split; [exact Htext | lia]. }
  destruct (post attempt prompt max_tokens) as [response|error_text|message];
    [|apply Hfailed|apply Hfailed].
  destruct (String.eqb (LLMService.strip response) "") eqn:Hblank; cbn [negb]; [apply Hfailed|].
  apply String.eqb_neq in Hblank. split; [exact Hblank | simpl; lia].
Qed.

End GenerateFacts.

(** X9. [generate_simple_response] never returns an empty text and sends at
    most three requests: none when the service is unavailable, at least
    one otherwise; a first reply with status 200 and a text that is not
    blank is returned stripped, after that one request. *)
Theorem generate_simple_response_requests
    (post : nat -> string -> Z -> LLMRequests.Reply)
    (is_available : bool) (prompt : string) (max_tokens : Z) :
  (LLMRequests.generate_simple_response post is_available prompt max_tokens).1 <> EmptyString
  /\ ((LLMRequests.generate_simple_response post is_available prompt max_tokens).2 <= 3)%nat
  /\ ((LLMRequests.generate_simple_response post is_available prompt max_tokens).2 = 0%nat
      <-> is_available = false)
  /\ (forall response,
        is_available = true ->
        post 0%nat (LLMRequests._simplify_prompt prompt max_tokens) max_tokens
        = LLMRequests.Http200 response ->
        LLMService.strip response <> EmptyString ->
        LLMRequests.generate_simple_response post is_available prompt max_tokens
        = (LLMService.strip response, 1%nat)).
Proof.
  unfold LLMRequests.generate_simple_response.
  destruct is_available; cbn [negb].
  - destruct (GenerateFacts.attempts_spec post
                (LLMRequests._simplify_prompt prompt max_tokens) max_tokens 3 0)
      as [Htext Hsent]; [reflexivity | lia |].
    unfold LLMRequests.max_retries.
    split; [exact Htext|]. split; [lia|]. split.
    + split; [lia | discriminate].
    + intros response _ Hpost Hstrip. cbn [LLMRequests.attempts]. rewrite Hpost.
      apply String.eqb_neq in Hstrip. now rewrite Hstrip.
  - split; [discriminate|]. split; [simpl; lia|]. split; [tauto | discriminate].
Qed.

Module ExtractionFacts.
Import LLMService.

Lemma first_title_bounded (lines : list string) (title : string) :
  first_title lines = Some title ->
  title <> EmptyString /\ (String.length title <= 50)%nat.
Proof.
  induction lines as [|line rest IH]; [discriminate|].
  cbn [first_title].
  destruct (negb (String.eqb (strip line) "") && (len (strip line) <? 100)
            && negb (existsb (fun greeting => String.prefix greeting (strip line))
                       ["Hi"; "Hello"; "Dear"; "Thanks"])); [|exact IH].
  destruct (String.eqb (strip (remove_subject_prefix (strip line))) "") eqn:Hempty;
    cbn [negb]; [exact IH|].
  intros [= <-]. apply String.eqb_neq in Hempty. split.
  - now apply StringFacts.take_nonempty.
  - apply StringFacts.length_take.
Qed.

(** The label [detect] returns is the default or a label of the table. *)
Lemma detect_in_table (tbl : Keywords.table) (default text : string) :
  In (Keywords.detect tbl default text) (default :: tbl.*1).
Proof.
  induction tbl as [|[label keywords] rest IH]; cbn [Keywords.detect]; [now left|].
  destruct (any_in keywords text).
  - right. now left.
  - destruct IH as [H|H]; [now left | right; now right].
Qed.

Definition valid_statuses : list string := ["todo"; "in_progress"; "review"; "done"; "blocked"].
Definition valid_priorities : list string := ["low"; "medium"; "high"; "urgent"].

Lemma not_among_false (v : PyValue) (valid_values : list string) :
  not_among v valid_values = false -> exists s, v = PyStr s /\ In s valid_values.
Proof.
  destruct v as [| | |s| |]; cbn [not_among]; try discriminate.
  intros H. apply negb_false_iff, existsb_exists in H as (x & Hin & Heq).
  exists s. split; [reflexivity|]. apply String.eqb_eq in Heq. now subst x.
Qed.

End ExtractionFacts.

(** X10. [_extract_task_title] returns, for every email body, a title that is
    not empty and has at most 50 characters. *)
Theorem extract_task_title_bounded (content : string) :
  LLMService._extract_task_title content <> EmptyString
  /\ (String.length (LLMService._extract_task_title content) <= 50)%nat.
Proof.
  unfold LLMService._extract_task_title.
  destruct (LLMService.first_title _) as [title|] eqn:Htitle.
  - now apply ExtractionFacts.first_title_bounded in Htitle.
  - split; [discriminate | simpl; lia].
Qed.

Module ValidationFacts.

Lemma validate_run (data : gmap string PyValue) :
  (LLMService._validate_parsed_email data = None <->
   exists field, In field ["task_title"; "status"; "priority"]
                 /\ (data !! field = None
                     \/ exists v, data !! field = Some v /\ truthy v = false))
  /\ (forall data',
        LLMService._validate_parsed_email data = Some data' ->
        (exists status, data' !! "status" = Some (PyStr status)
                        /\ In status ExtractionFacts.valid_statuses
                        /\ (data !! "status" = Some (PyStr status)
                            \/ status = "in_progress"))
        /\ (exists priority, data' !! "priority" = Some (PyStr priority)
                             /\ In priority ExtractionFacts.valid_priorities
                             /\ (data !! "priority" = Some (PyStr priority)
                                 \/ priority = "medium"))
        /\ (forall key, key <> "status" -> key <> "priority" -> data' !! key = data !! key)).
Proof.
  unfold LLMService._validate_parsed_email.
  set (missing := existsb _ _).
  assert (Hmissing : missing = true <->
    exists field, In field ["task_title"; "status"; "priority"]
                  /\ (data !! field = None
                      \/ exists v, data !! field = Some v /\ truthy v = false)).
  { unfold missing. rewrite existsb_exists. split.
    - intros (field & Hin & H). exists field. split; [exact Hin|].
      destruct (data !! field) as [v|]; [right | now left].
      exists v. split; [reflexivity | now apply negb_true_iff].
    - intros (field & Hin & [H | (v & H & Hv)]); exists field; split; try exact Hin;
        rewrite H; [reflexivity | now apply negb_true_iff]. }
  split.
  - destruct missing; [|split; [discriminate | intros H; apply Hmissing in H; discriminate]].
    split; [intros _; now apply Hmissing | reflexivity].
  - intros data' Hvalid.
    assert (Hm : missing = false) by (destruct missing; [discriminate Hvalid | reflexivity]).
    rewrite Hm in Hvalid.
    assert (Hpresent : forall field, In field ["task_title"; "status"; "priority"] ->
                                     exists v, data !! field = Some v).
    { intros field Hin. destruct (data !! field) as [v|] eqn:Hf; [now exists v|].
      assert (missing = true) by (apply Hmissing; exists field; auto). congruence. }
    destruct (Hpresent "status") as [vs Hvs]; [cbn; tauto|].
    destruct (Hpresent "priority") as [vp Hvp]; [cbn; tauto|].
    rewrite Hvs in Hvalid.
    set (data1 := if LLMService.not_among vs ["todo"; "in_progress"; "review"; "done"; "blocked"]
                  then <["status" := PyStr "in_progress"]> data else data) in Hvalid.
    assert (Hp1 : data1 !! "priority" = Some vp).
    { unfold data1. destruct (LLMService.not_among vs _); [|exact Hvp].
      rewrite lookup_insert_ne by discriminate. exact Hvp. }
    rewrite Hp1 in Hvalid. injection Hvalid as <-.
    assert (Hs1 : exists status, data1 !! "status" = Some (PyStr status)
                                 /\ In status ExtractionFacts.valid_statuses
                                 /\ (data !! "status" = Some (PyStr status)
                                     \/ status = "in_progress")).
    { unfold data1. destruct (LLMService.not_among vs _) eqn:Hs.
      - exists "in_progress". rewrite lookup_insert_eq. cbn. tauto.
      - apply ExtractionFacts.not_among_false in Hs as (s & -> & Hin).
        exists s. split; [exact Hvs|]. split; [exact Hin | now left]. }
    assert (Hk1 : forall key, key <> "status" -> data1 !! key = data !! key).
    { intros key Hk. unfold data1. destruct (LLMService.not_among vs _); [|reflexivity].
      now rewrite lookup_insert_ne by congruence. }
    destruct (LLMService.not_among vp ["low"; "medium"; "high"; "urgent"]) eqn:Hp.
    + split.
      { destruct Hs1 as (s & Hs & Hrest). exists s.
        rewrite lookup_insert_ne by discriminate. split; [exact Hs | exact Hrest]. }
      split.
      { exists "medium". rewrite lookup_insert_eq. cbn. tauto. }
      intros key Hks Hkp. rewrite lookup_insert_ne by congruence. now apply Hk1.
    + split; [exact Hs1|]. split.
      { apply ExtractionFacts.not_among_false in Hp as (s & -> & Hin).
        exists s. split; [exact Hp1|]. split; [exact Hin|]. left.
        rewrite <- Hk1 by discriminate. exact Hp1. }
      intros key Hks _. now apply Hk1.
Qed.

Lemma fallback_fields (email_content : string) :
  exists title status priority,
    LLMService._fallback_email_parsing email_content !! "task_title" = Some (PyStr title)
    /\ title <> EmptyString
    /\ LLMService._fallback_email_parsing email_content !! "status" = Some (PyStr status)
    /\ In status ExtractionFacts.valid_statuses
    /\ LLMService._fallback_email_parsing email_content !! "priority" = Some (PyStr priority)
    /\ In priority ExtractionFacts.valid_priorities.
Proof.
  exists (LLMService._extract_task_title email_content),
         (LLMService._detect_status (lower email_content)),
         (LLMService._detect_priority (lower email_content)).
  split; [reflexivity|]. split.
  { unfold LLMService._extract_task_title.
    destruct (LLMService.first_title _) as [title|] eqn:Htitle; [|discriminate].
    now apply ExtractionFacts.first_title_bounded in Htitle. }
  split; [reflexivity|]. split.
  - pose proof (ExtractionFacts.detect_in_table LLMService.status_keywords "in_progress"
                  (lower email_content)) as H.
    unfold LLMService._detect_status. cbn in H |- *. tauto.
  - split; [reflexivity|].
    pose proof (ExtractionFacts.detect_in_table LLMService.priority_keywords "medium"
                  (lower email_content)) as H.
    unfold LLMService._detect_priority. cbn in H |- *. tauto.
Qed.

End ValidationFacts.


(** X12. Whatever the model replies, whatever [json.loads] makes of it and
    whether or not the service is available, the dictionary
    [parse_email_content_simple] returns has a truthy [task_title], a
    [status] among todo, in_progress, review, done, blocked and a
    [priority] among low, medium, high, urgent. *)
Theorem parsed_email_always_valid
    (generate_simple_response : string -> Z -> string)
    (json_loads : string -> option PyValue)
    (is_available : bool) (email_content : string) :
  exists title status priority,
    LLMService.parse_email_content_simple generate_simple_response json_loads
      is_available email_content !! "task_title" = Some title
    /\ truthy title = true
    /\ LLMService.parse_email_content_simple generate_simple_response json_loads
         is_available email_content !! "status" = Some (PyStr status)
    /\ In status ExtractionFacts.valid_statuses
    /\ LLMService.parse_email_content_simple generate_simple_response json_loads
         is_available email_content !! "priority" = Some (PyStr priority)
    /\ In priority ExtractionFacts.valid_priorities.
Proof.
  assert (Hfallback : exists title status priority,
    LLMService._fallback_email_parsing email_content !! "task_title" = Some title
    /\ truthy title = true
    /\ LLMService._fallback_email_parsing email_content !! "status" = Some (PyStr status)
    /\ In status ExtractionFacts.valid_statuses
    /\ LLMService._fallback_email_parsing email_content !! "priority" = Some (PyStr priority)
    /\ In priority ExtractionFacts.valid_priorities).
  { destruct (ValidationFacts.fallback_fields email_content)
      as (title & status & priority & Ht & Hne & Hs & Hsv & Hp & Hpv).
    exists (PyStr title), status, priority. repeat split; try assumption.
    cbn [truthy]. apply negb_true_iff. now apply String.eqb_neq. }
  unfold LLMService.parse_email_content_simple.
  destruct is_available; cbn [negb]; [|exact Hfallback].
  destruct (LLMService.search_json_object _) as [json_str|]; [|exact Hfallback].
  destruct (json_loads json_str) as [[| | | | |parsed]|]; try exact Hfallback.
  destruct (LLMService._validate_parsed_email parsed) as [valid|] eqn:Hvalid;
    [|exact Hfallback].
  destruct (ValidationFacts.validate_run parsed) as [Hnone Hsome].
  destruct (Hsome valid Hvalid) as ((status & Hs & Hsv & _) & (priority & Hp & Hpv & _) & Hkeep).
  assert (Htitle : exists title, parsed !! "task_title" = Some title /\ truthy title = true).
  { destruct (parsed !! "task_title") as [title|] eqn:Ht.
    - exists title. split; [reflexivity|].
      destruct (truthy title) eqn:Htruthy; [reflexivity|].
      assert (LLMService._validate_parsed_email parsed = None); [|congruence].
      apply Hnone. exists "task_title". split; [now left|]. right. now exists title.
    - assert (LLMService._validate_parsed_email parsed = None); [|congruence].
      apply Hnone. exists "task_title". split; [now left | now left]. }
  destruct Htitle as (title & Ht & Htruthy).
  exists title, status, priority.
  split; [rewrite Hkeep by discriminate; exact Ht|].
  repeat split; assumption.
Qed.

(** ** More of the kanban tools ([tools/kanban_tools.py]) *)

From stdpp Require Import sorting.

Open Scope string_scope.
Open Scope Z_scope.

Module KanbanMore.
Import DB Models KanbanTools.

(** [task.save()] of a row read under key [id]. *)
Definition Task_save (id : Z) (task : Task.t) : M unit :=
  updated_at ← datetime_now;
  let row := Task.mk (Task.created_at task) updated_at (Task.title task)
               (Task.description task) (Task.status task) (Task.assignee task)
               (Task.due_date task) (Task.priority task) (Task.order task)
               (Task.tags task) in
  modify_db (fun db => set_tasks (<[id := row]> (tasks db)) db).

(** [task.status = new_status]. *)
Definition with_status (new_status : string) (task : Task.t) : Task.t :=
  Task.mk (Task.created_at task) (Task.updated_at task) (Task.title task)
    (Task.description task) new_status (Task.assignee task) (Task.due_date task)
    (Task.priority task) (Task.order task) (Task.tags task).

(** [UpdateTaskStatusTool._run]. *)
Definition UpdateTaskStatusTool_run (task_id : Z) (new_status : string) : M string :=
  try_except
    (if negb (among new_status valid_statuses) then
       mret ("Error: Invalid status '" ++ new_status
             ++ "'. Must be one of: todo, in_progress, review, done, blocked")
     else
       db ← get_db;
       match tasks db !! task_id with
       | None => mret ("Error: Task not found with ID: " ++ pretty task_id)
       | Some task =>
           let old_status := Task.status task in
           let task := with_status new_status task in
           _ ← Task_save task_id task;
           _ ← KanbanChange_create "update" task_id
                 (list_to_map [ ("field", PyStr "status"); ("old_value", PyStr old_status);
                                ("new_value", PyStr new_status);
                                ("title", PyStr (Task.title task)) ]);
           mret ("Updated task '" ++ Task.title task ++ "' status from '" ++ old_status
                 ++ "' to '" ++ new_status ++ "'")
       end)
    (fun e => mret ("Error updating task status: " ++ str_exc e)).

(** One entry of the list [get_pending_changes] returns. *)
Record PendingChange := mkPendingChange {
  id : Z;
  change_type : string;
  task_id : option Z;
  task_data : gmap string PyValue;
  created_at : datetime
}.

(** [order_by(KanbanChange.created_at.desc())]: a row stands before
    another when it is not older. *)
Definition newest_first (a b : Z * KanbanChange.t) : Prop :=
  KanbanChange.created_at b.2 <= KanbanChange.created_at a.2.

#[export] Instance newest_first_dec a b : Decision (newest_first a b).
Proof. unfold newest_first. apply _. Defined.

(** The query of [get_pending_changes] and of the pending-approvals tool:
    the rows with [approved == False], newest first. *)
Definition pending_rows (tbl : gmap Z KanbanChange.t) : list (Z * KanbanChange.t) :=
  merge_sort newest_first
    (List.filter (fun row => negb (KanbanChange.approved row.2)) (map_to_list tbl)).

(** [KanbanTools.get_pending_changes]. *)
Definition get_pending_changes (db : Database) : list PendingChange :=
  (fun row => mkPendingChange row.1 (KanbanChange.change_type row.2)
                (KanbanChange.task_id row.2) (KanbanChange.task_data row.2)
                (KanbanChange.created_at row.2))
  <$> pending_rows (kanban_changes db).

End KanbanMore.

Module KanbanMoreFacts.
Import DB Models KanbanTools KanbanMore.

(** The world after [Task_save] and the change record of a status
    update, for a task found under [task_id]. *)
Lemma update_status_run (task_id : Z) (new_status : string) (task : Task.t) (w : World) :
  among new_status valid_statuses = true ->
  tasks (db w) !! task_id = Some task ->
  UpdateTaskStatusTool_run task_id new_status w
  = (Ok ("Updated task '" ++ Task.title task ++ "' status from '" ++ Task.status task
         ++ "' to '" ++ new_status ++ "'"),
     {| db :=
          set_kanban_changes
            (<[next_id (kanban_changes (db w)) :=
                 KanbanChange.mk (time w (1 + ticks w)%nat) (time w (3 + ticks w)%nat)
                   "update" (Some task_id)
                   (list_to_map [ ("field", PyStr "status");
                                  ("old_value", PyStr (Task.status task));
                                  ("new_value", PyStr new_status);
                                  ("title", PyStr (Task.title task)) ])
                   false None None false None]>
               (kanban_changes (db w)))
            (set_tasks
               (<[task_id :=
                    Task.mk (Task.created_at task) (time w (ticks w)) (Task.title task)
                      (Task.description task) new_status (Task.assignee task)
                      (Task.due_date task) (Task.priority task) (Task.order task)
                      (Task.tags task)]> (tasks (db w)))
               (db w));
        time := time w;
        ticks := (4 + ticks w)%nat |}).
Proof.
  intros Hvalid Htask.
  unfold UpdateTaskStatusTool_run, try_except, mbind, M_bind, get_db.
  rewrite Hvalid. cbn [negb]. rewrite Htask. reflexivity.
Qed.

Lemma among_In (s : string) (l : list string) : among s l = true <-> In s l.
Proof.
  unfold among. rewrite existsb_exists. split.
  - intros (x & Hin & Heq). apply String.eqb_eq in Heq. now subst x.
  - intros Hin. exists s. split; [exact Hin | apply String.eqb_refl].
Qed.

End KanbanMoreFacts.

(** X13. [UpdateTaskStatusTool._run]: a status outside the five valid ones and
    an id that names no task are answered with an error text and nothing
    is written. Otherwise the task, and no other, takes the new status
    with all its other columns kept, and exactly one change record is
    added, under a fresh key: of type [update], unapproved, naming the
    task, the old and the new status; this also when the new status is
    the old one. *)
Theorem update_task_status_tool_spec (task_id : Z) (new_status : string) (w : DB.World) :
  (~ In new_status KanbanTools.valid_statuses ->
   KanbanMore.UpdateTaskStatusTool_run task_id new_status w
   = (Ok ("Error: Invalid status '" ++ new_status
          ++ "'. Must be one of: todo, in_progress, review, done, blocked"), w))
  /\ (In new_status KanbanTools.valid_statuses ->
      DB.tasks (DB.db w) !! task_id = None ->
      KanbanMore.UpdateTaskStatusTool_run task_id new_status w
      = (Ok ("Error: Task not found with ID: " ++ pretty task_id), w))
  /\ (forall task,
        In new_status KanbanTools.valid_statuses ->
        DB.tasks (DB.db w) !! task_id = Some task ->
        exists (w' : DB.World) (task' : Task.t) (change_id : Z) (change : KanbanChange.t),
          KanbanMore.UpdateTaskStatusTool_run task_id new_status w
          = (Ok ("Updated task '" ++ Task.title task ++ "' status from '"
                 ++ Task.status task ++ "' to '" ++ new_status ++ "'"), w')
          /\ DB.tasks (DB.db w') = <[task_id := task']> (DB.tasks (DB.db w))
          /\ Task.status task' = new_status
          /\ Task.title task' = Task.title task
          /\ Task.description task' = Task.description task
          /\ Task.assignee task' = Task.assignee task
          /\ Task.due_date task' = Task.due_date task
          /\ Task.priority task' = Task.priority task
          /\ Task.order task' = Task.order task
          /\ Task.tags task' = Task.tags task
          /\ Task.created_at task' = Task.created_at task
          /\ DB.kanban_changes (DB.db w) !! change_id = None
          /\ DB.kanban_changes (DB.db w')
             = <[change_id := change]> (DB.kanban_changes (DB.db w))
          /\ KanbanChange.change_type change = "update"
          /\ KanbanChange.approved change = false
          /\ KanbanChange.task_id change = Some task_id
          /\ KanbanChange.task_data change !! "old_value" = Some (PyStr (Task.status task))
          /\ KanbanChange.task_data change !! "new_value" = Some (PyStr new_status)
          /\ DB.team_members (DB.db w') = DB.team_members (DB.db w)).
Proof.
  split; [|split].
  - intros Hinvalid.
    assert (H : KanbanTools.among new_status KanbanTools.valid_statuses = false).
    { apply not_true_iff_false. intros H. now apply KanbanMoreFacts.among_In in H. }
    unfold KanbanMore.UpdateTaskStatusTool_run, DB.try_except. now rewrite H.
  - intros Hvalid Hnone. apply KanbanMoreFacts.among_In in Hvalid.
    unfold KanbanMore.UpdateTaskStatusTool_run, DB.try_except, mbind, DB.M_bind, DB.get_db.
    rewrite Hvalid. cbn [negb]. now rewrite Hnone.
  - intros task Hvalid Htask. apply KanbanMoreFacts.among_In in Hvalid.
    eexists _, _, (DB.next_id (DB.kanban_changes (DB.db w))), _.
    split; [apply (KanbanMoreFacts.update_status_run task_id new_status task w Hvalid Htask)|].
    cbn. repeat split. apply DB.next_id_fresh.
Qed.

Module PendingFacts.
Import DB KanbanTools KanbanMore.

#[export] Instance newest_first_total : Total newest_first.
Proof. intros a b. unfold newest_first. lia. Qed.

Lemma pending_rows_elem (tbl : gmap Z KanbanChange.t) (k : Z) (row : KanbanChange.t) :
  (k, row) ∈ pending_rows tbl <-> tbl !! k = Some row /\ KanbanChange.approved row = false.
Proof.
  unfold pending_rows. rewrite merge_sort_Permutation.
  rewrite list_elem_of_In, filter_In, <- list_elem_of_In, elem_of_map_to_list.
  simpl. now rewrite negb_true_iff.
Qed.

Lemma pending_rows_nil (tbl : gmap Z KanbanChange.t) :
  (forall k row, tbl !! k = Some row -> KanbanChange.approved row = true) ->
  pending_rows tbl = [].
Proof.
  intros Hall. destruct (pending_rows tbl) as [|[k row] rest] eqn:Hrows; [reflexivity|].
  assert (Hin : (k, row) ∈ pending_rows tbl) by (rewrite Hrows; left).
  apply pending_rows_elem in Hin as [Hk Hpending].
  rewrite (Hall k row Hk) in Hpending. discriminate.
Qed.

Lemma pending_rows_sorted (tbl : gmap Z KanbanChange.t) :
  Sorted newest_first (pending_rows tbl).
Proof. unfold pending_rows. apply Sorted_merge_sort. apply _. Qed.

End PendingFacts.

(** X14. [get_pending_changes] lists exactly the change records that exist and
    are not approved, the newest first; and once
    [approve_changes] has been called with the ids it lists, it lists
    nothing. *)
Theorem pending_changes_cleared_by_approval (w : DB.World) :
  (forall entry,
      entry ∈ KanbanMore.get_pending_changes (DB.db w) <->
      exists row,
        DB.kanban_changes (DB.db w) !! KanbanMore.id entry = Some row
        /\ KanbanChange.approved row = false
        /\ KanbanMore.change_type entry = KanbanChange.change_type row
        /\ KanbanMore.task_id entry = KanbanChange.task_id row
        /\ KanbanMore.task_data entry = KanbanChange.task_data row
        /\ KanbanMore.created_at entry = KanbanChange.created_at row)
  /\ Sorted (fun a b => KanbanMore.created_at b <= KanbanMore.created_at a)
       (KanbanMore.get_pending_changes (DB.db w))
  /\ KanbanMore.get_pending_changes
       (DB.db (KanbanTools.approve_changes
                 (KanbanMore.id <$> KanbanMore.get_pending_changes (DB.db w)) w).2)
     = [].
Proof.
  split; [|split].
  - intros entry. unfold KanbanMore.get_pending_changes. rewrite list_elem_of_fmap. split.
    + intros ([k row] & -> & Hin). apply PendingFacts.pending_rows_elem in Hin as [Hk Hp].
      exists row. cbn. repeat split; assumption.
    + intros (row & Hk & Hp & Hct & Htid & Hdata & Hcreated).
      exists (KanbanMore.id entry, row). split.
      * destruct entry. cbn in *. congruence.
      * now apply PendingFacts.pending_rows_elem.
  - unfold KanbanMore.get_pending_changes.
    pose proof (PendingFacts.pending_rows_sorted (DB.kanban_changes (DB.db w))) as Hsorted.
    induction Hsorted as [|a l Hl IH Hhd]; [constructor|].
    rewrite fmap_cons. constructor; [exact IH|].
    destruct Hhd as [|b l' Hab]; [constructor|]. rewrite fmap_cons. constructor. exact Hab.
  - destruct (ApprovalFacts.approve_changes_run
                (KanbanMore.id <$> KanbanMore.get_pending_changes (DB.db w)) w)
      as (w' & Hrun & _ & _ & Happroves).
    rewrite Hrun. cbn [snd]. unfold KanbanMore.get_pending_changes at 1.
    rewrite PendingFacts.pending_rows_nil; [reflexivity|].
    intros k row' Hrow'. specialize (Happroves k).
    destruct (DB.kanban_changes (DB.db w) !! k) as [row|] eqn:Hrow; [|congruence].
    destruct Happroves as [Hflip Hkeep].
    destruct (KanbanChange.approved row) eqn:Happroved.
    + rewrite Hkeep in Hrow' by now left. congruence.
    + destruct Hflip as (c' & Hc' & Hcopy); [reflexivity | |].
      * apply list_elem_of_fmap.
        exists (KanbanMore.mkPendingChange k (KanbanChange.change_type row)
                  (KanbanChange.task_id row) (KanbanChange.task_data row)
                  (KanbanChange.created_at row)).
        split; [reflexivity|].
        unfold KanbanMore.get_pending_changes. apply list_elem_of_fmap.
        exists (k, row). split; [reflexivity|].
        now apply PendingFacts.pending_rows_elem.
      * assert (row' = c') by congruence. subst. apply Hcopy.
Qed.

(** X15. [CreateTaskTool._run] with an email that a team member has: the
    answer is the "Created task" text; exactly one task row is added,
    under a fresh key, assigned to a member with that email, with the
    title and description given, a status among the five valid ones (the
    one given when it is valid, [todo] otherwise), a priority among the
    four valid ones (the one given, or [medium]), and as order the number
    of tasks the status column held before; and exactly one change record
    is added, of type [create], unapproved, for the new task. *)
Theorem create_task_tool_success
    (fromisoformat : string -> option datetime)
    (title assignee_email status description priority : string)
    (due_date : option string) (w : DB.World) (member_id : Z) (member : TeamMember.t) :
  DB.team_members (DB.db w) !! member_id = Some member ->
  TeamMember.email member = assignee_email ->
  exists (w' : DB.World) (assignee_id : Z) (assignee : TeamMember.t)
         (task_id : Z) (task : Task.t) (change_id : Z) (change : KanbanChange.t),
    KanbanTools.CreateTaskTool_run fromisoformat title assignee_email status description
      priority due_date w
    = (Ok ("Created task '" ++ title ++ "' assigned to " ++ TeamMember.name assignee
           ++ " (" ++ assignee_email ++ ") with status '" ++ Task.status task ++ "'"), w')
    /\ DB.team_members (DB.db w) !! assignee_id = Some assignee
    /\ TeamMember.email assignee = assignee_email
    /\ DB.tasks (DB.db w) !! task_id = None
    /\ DB.tasks (DB.db w') = <[task_id := task]> (DB.tasks (DB.db w))
    /\ Task.assignee task = assignee_id
    /\ Task.title task = title
    /\ Task.description task = description
    /\ In (Task.status task) KanbanTools.valid_statuses
    /\ (Task.status task = status \/ (~ In status KanbanTools.valid_statuses
                                      /\ Task.status task = "todo"))
    /\ In (Task.priority task) KanbanTools.valid_priorities
    /\ (Task.priority task = priority \/ (~ In priority KanbanTools.valid_priorities
                                          /\ Task.priority task = "medium"))
    /\ Task.order task
       = DB.count_where (fun t => String.eqb (Task.status t) (Task.status task))
           (DB.tasks (DB.db w))
    /\ DB.kanban_changes (DB.db w) !! change_id = None
    /\ DB.kanban_changes (DB.db w') = <[change_id := change]> (DB.kanban_changes (DB.db w))
    /\ KanbanChange.change_type change = "create"
    /\ KanbanChange.approved change = false
    /\ KanbanChange.task_id change = Some task_id
    /\ DB.team_members (DB.db w') = DB.team_members (DB.db w).
Proof.
  intros Hmember Hemail.
  destruct (DB.get_or_none (fun m => String.eqb (TeamMember.email m) assignee_email)
              (DB.team_members (DB.db w))) as [[assignee_id assignee]|] eqn:Hget.
  2:{ exfalso. pose proof (proj1 (DB.get_or_none_None _ _) Hget member_id member Hmember) as H.
      simpl in H. apply String.eqb_neq in H. contradiction. }
  apply DB.get_or_none_Some in Hget as Hfound. destruct Hfound as [Hlookup Heq].
  apply String.eqb_eq in Heq.
  set (status' := if KanbanTools.among status KanbanTools.valid_statuses
                  then status else "todo").
  set (priority' := if KanbanTools.among priority KanbanTools.valid_priorities
                    then priority else "medium").
  assert (Hstatus : In status' KanbanTools.valid_statuses
                    /\ (status' = status \/ (~ In status KanbanTools.valid_statuses
                                             /\ status' = "todo"))).
  { unfold status'. destruct (KanbanTools.among status _) eqn:H.
    - apply KanbanMoreFacts.among_In in H. auto.
    - split; [cbn; tauto|]. right. split; [|reflexivity].
      intros Hin. apply KanbanMoreFacts.among_In in Hin. congruence. }
  assert (Hpriority : In priority' KanbanTools.valid_priorities
                      /\ (priority' = priority \/ (~ In priority KanbanTools.valid_priorities
                                                   /\ priority' = "medium"))).
  { unfold priority'. destruct (KanbanTools.among priority _) eqn:H.
    - apply KanbanMoreFacts.among_In in H. auto.
    - split; [cbn; tauto|]. right. split; [|reflexivity].
      intros Hin. apply KanbanMoreFacts.among_In in Hin. congruence. }
  eexists _, assignee_id, assignee, (DB.next_id (DB.tasks (DB.db w))),
    (Task.mk (DB.time w (DB.ticks w)) (DB.time w (2 + DB.ticks w)%nat) title description
       status' assignee_id
       match due_date with
       | Some text => if String.eqb text "" then None
                      else fromisoformat (KanbanTools.replace_Z text)
       | None => None
       end
       priority'
       (DB.count_where (fun t => String.eqb (Task.status t) status') (DB.tasks (DB.db w)))
       []),
    (DB.next_id (DB.kanban_changes (DB.db w))), _.
  split.
  { unfold KanbanTools.CreateTaskTool_run, DB.try_except, mbind, DB.M_bind, DB.get_db.
    rewrite Hget. fold status' priority'. reflexivity. }
  cbn. split; [exact Hlookup|]. split; [exact Heq|].
  split; [apply DB.next_id_fresh|]. split; [reflexivity|].
  split; [reflexivity|]. split; [reflexivity|]. split; [reflexivity|].
  split; [apply Hstatus|]. split; [apply Hstatus|].
  split; [apply Hpriority|]. split; [apply Hpriority|].
  split; [reflexivity|]. split; [apply DB.next_id_fresh|].
  repeat split.
Qed.

(** [create_task_tool_success] for the deactivated member of the sample
    database and a status that is not valid. *)
Lemma create_task_tool_success_witness :
  exists (w' : DB.World) (assignee_id : Z) (assignee : TeamMember.t)
         (task_id : Z) (task : Task.t) (change_id : Z) (change : KanbanChange.t),
    KanbanTools.CreateTaskTool_run RoundTripSample.fromisoformat "Write report"
      "x@example.com" "started" "" "medium" None Samples.inactive_only
    = (Ok ("Created task '" ++ "Write report" ++ "' assigned to " ++ TeamMember.name assignee
           ++ " (" ++ "x@example.com" ++ ") with status '" ++ Task.status task ++ "'"), w')
    /\ DB.team_members (DB.db Samples.inactive_only) !! assignee_id = Some assignee
    /\ TeamMember.email assignee = "x@example.com"
    /\ DB.tasks (DB.db Samples.inactive_only) !! task_id = None
    /\ DB.tasks (DB.db w') = <[task_id := task]> (DB.tasks (DB.db Samples.inactive_only))
    /\ Task.assignee task = assignee_id
    /\ Task.title task = "Write report"
    /\ Task.description task = ""
    /\ In (Task.status task) KanbanTools.valid_statuses
    /\ (Task.status task = "started" \/ (~ In "started" KanbanTools.valid_statuses
                                         /\ Task.status task = "todo"))
    /\ In (Task.priority task) KanbanTools.valid_priorities
    /\ (Task.priority task = "medium" \/ (~ In "medium" KanbanTools.valid_priorities
                                          /\ Task.priority task = "medium"))
    /\ Task.order task
       = DB.count_where (fun t => String.eqb (Task.status t) (Task.status task))
           (DB.tasks (DB.db Samples.inactive_only))
    /\ DB.kanban_changes (DB.db Samples.inactive_only) !! change_id = None
    /\ DB.kanban_changes (DB.db w')
       = <[change_id := change]> (DB.kanban_changes (DB.db Samples.inactive_only))
    /\ KanbanChange.change_type change = "create"
    /\ KanbanChange.approved change = false
    /\ KanbanChange.task_id change = Some task_id
    /\ DB.team_members (DB.db w') = DB.team_members (DB.db Samples.inactive_only).
Proof.
  apply (create_task_tool_success RoundTripSample.fromisoformat "Write report"
           "x@example.com" "started" "" "medium" None Samples.inactive_only 1
           Samples.inactive_member); reflexivity.
Defined.

(** ** Team member routes ([api/emails.py]) *)

Module TeamRoutes.
Import DB Models.

(** [schemas.TeamMemberCreate]. *)
Record TeamMemberCreate := mkTeamMemberCreate {
  email : string;
  name : string;
  role : string;
  active : bool
}.

(** [TeamMemberModel.create(email=..., name=..., role=..., active=...)];
    the other columns take their defaults. *)
Definition TeamMember_create (email name role : string) (active : bool) : M Z :=
  created_at ← datetime_now;
  _ ← datetime_now;
  updated_at ← datetime_now;
  db ← get_db;
  let id := next_id (team_members db) in
  let row := TeamMember.mk created_at updated_at email name role active None "UTC" in
  _ ← modify_db (set_team_members (<[id := row]> (team_members db)));
  mret id.

(** [POST /api/emails/team-members]; the result is the key of the row
    from which the response body is rendered. *)
Definition add_team_member (member_data : TeamMemberCreate) : M Z :=
  try_except
    (db ← get_db;
     match get_or_none (fun m => String.eqb (TeamMember.email m) (email member_data))
             (team_members db) with
     | Some (id, existing_member) =>
         if TeamMember.active existing_member then
           raise (HTTPException 400 "Team member already exists and is active")
         else
           let existing_member :=
             TeamMember.mk (TeamMember.created_at existing_member)
               (TeamMember.updated_at existing_member) (TeamMember.email existing_member)
               (name member_data) (role member_data) true
               (TeamMember.last_response_at existing_member)
               (TeamMember.timezone existing_member) in
           _ ← TeamMember_save id existing_member;
           mret id
     | None =>
         TeamMember_create (email member_data) (name member_data) (role member_data)
           (active member_data)
     end)
    (fun e => raise (HTTPException 500 (str_exc e))).

End TeamRoutes.

Module TeamFacts.
Import DB Models TeamRoutes.

(** The [unique] constraint of the email column. *)
Definition unique_emails (tbl : gmap Z TeamMember.t) : Prop :=
  forall i j a b, tbl !! i = Some a -> tbl !! j = Some b ->
                  TeamMember.email a = TeamMember.email b -> i = j.

Lemma unique_emails_insert (tbl : gmap Z TeamMember.t) (k : Z) (row : TeamMember.t) :
  unique_emails tbl ->
  (forall j b, tbl !! j = Some b -> TeamMember.email b = TeamMember.email row -> j = k) ->
  unique_emails (<[k := row]> tbl).
Proof.
  intros Hu Hk i j a b Hi Hj Heq.
  destruct (decide (i = k)) as [->|Hik], (decide (j = k)) as [->|Hjk]; [reflexivity| | |].
  - rewrite lookup_insert_eq in Hi. rewrite lookup_insert_ne in Hj by congruence.
    injection Hi as <-. symmetry. apply (Hk j b Hj). congruence.
  - rewrite lookup_insert_eq in Hj. rewrite lookup_insert_ne in Hi by congruence.
    injection Hj as <-. apply (Hk i a Hi). congruence.
  - rewrite lookup_insert_ne in Hi, Hj by congruence. eauto.
Qed.

(** With unique emails, the query by email finds the member that has it. *)
Lemma get_by_email (tbl : gmap Z TeamMember.t) (k : Z) (row : TeamMember.t) :
  unique_emails tbl -> tbl !! k = Some row ->
  get_or_none (fun m => String.eqb (TeamMember.email m) (TeamMember.email row)) tbl
  = Some (k, row).
Proof.
  intros Hu Hk.
  destruct (get_or_none _ tbl) as [[k' row']|] eqn:Hget.
  - apply get_or_none_Some in Hget as [Hk' Heq]. apply String.eqb_eq in Heq.
    assert (k' = k) by (eapply Hu; eauto). subst. congruence.
  - pose proof (proj1 (get_or_none_None _ _) Hget k row Hk) as H. simpl in H.
    now rewrite String.eqb_refl in H.
Qed.

(** The three outcomes of [add_team_member]. *)
Lemma add_team_member_run (member_data : TeamMemberCreate) (w : World) :
  add_team_member member_data w =
  match get_or_none (fun m => String.eqb (TeamMember.email m) (email member_data))
          (team_members (db w)) with
  | Some (id, existing) =>
      if TeamMember.active existing then
        (Raise (HTTPException 500 "400: Team member already exists and is active"), w)
      else
        (Ok id,
         {| db := set_team_members
                    (<[id := TeamMember.mk (TeamMember.created_at existing)
                               (time w (ticks w)) (TeamMember.email existing)
                               (name member_data) (role member_data) true
                               (TeamMember.last_response_at existing)
                               (TeamMember.timezone existing)]> (team_members (db w)))
                    (db w);
            time := time w; ticks := S (ticks w) |})
  | None =>
      (Ok (next_id (team_members (db w))),
       {| db := set_team_members
                  (<[next_id (team_members (db w)) :=
                       TeamMember.mk (time w (ticks w)) (time w (2 + ticks w)%nat)
                         (email member_data) (name member_data) (role member_data)
                         (active member_data) None "UTC"]> (team_members (db w)))
                  (db w);
          time := time w; ticks := (3 + ticks w)%nat |})
  end.
Proof.
  unfold add_team_member, try_except, mbind, M_bind, get_db.
  destruct (get_or_none _ _) as [[id existing]|]; [|reflexivity].
  destruct (TeamMember.active existing); reflexivity.
Qed.

End TeamFacts.

(** X16. [add_team_member] on a table whose emails are pairwise distinct: they
    stay so, and no other table changes. When a member has the email of
    the request and is active, the answer is a 500 (it wraps the 400 the
    body raises) and nothing is written; when that member is inactive,
    the same row is switched to active with the name and role of the
    request, under the same key, with its email and creation time kept,
    and no row is added; when no member has the email, one row is added
    under a fresh key with the four fields of the request. *)
Theorem add_team_member_spec (member_data : TeamRoutes.TeamMemberCreate) (w : DB.World) :
  TeamFacts.unique_emails (DB.team_members (DB.db w)) ->
  let out := TeamRoutes.add_team_member member_data w in
  TeamFacts.unique_emails (DB.team_members (DB.db out.2))
  /\ DB.tasks (DB.db out.2) = DB.tasks (DB.db w)
  /\ DB.email_threads (DB.db out.2) = DB.email_threads (DB.db w)
  /\ DB.kanban_changes (DB.db out.2) = DB.kanban_changes (DB.db w)
  /\ DB.agent_activities (DB.db out.2) = DB.agent_activities (DB.db w)
  /\ (forall id member,
        DB.team_members (DB.db w) !! id = Some member ->
        TeamMember.email member = TeamRoutes.email member_data ->
        if TeamMember.active member then
          out = (Raise (HTTPException 500 "400: Team member already exists and is active"), w)
        else
          exists member',
            out.1 = Ok id
            /\ DB.team_members (DB.db out.2) = <[id := member']> (DB.team_members (DB.db w))
            /\ TeamMember.active member' = true
            /\ TeamMember.name member' = TeamRoutes.name member_data
            /\ TeamMember.role member' = TeamRoutes.role member_data
            /\ TeamMember.email member' = TeamMember.email member
            /\ TeamMember.created_at member' = TeamMember.created_at member
            /\ TeamMember.last_response_at member' = TeamMember.last_response_at member
            /\ TeamMember.timezone member' = TeamMember.timezone member)
  /\ ((forall id member, DB.team_members (DB.db w) !! id = Some member ->
                         TeamMember.email member <> TeamRoutes.email member_data) ->
      exists id member',
        out.1 = Ok id
        /\ DB.team_members (DB.db w) !! id = None
        /\ DB.team_members (DB.db out.2) = <[id := member']> (DB.team_members (DB.db w))
        /\ TeamMember.email member' = TeamRoutes.email member_data
        /\ TeamMember.name member' = TeamRoutes.name member_data
        /\ TeamMember.role member' = TeamRoutes.role member_data
        /\ TeamMember.active member' = TeamRoutes.active member_data
        /\ TeamMember.last_response_at member' = None).
Proof.
  intros Hunique out. subst out. rewrite TeamFacts.add_team_member_run.
  destruct (DB.get_or_none _ _) as [[id existing]|] eqn:Hget.
  - apply DB.get_or_none_Some in Hget as [Hid Heq]. apply String.eqb_eq in Heq.
    assert (Hsame : forall id' member, DB.team_members (DB.db w) !! id' = Some member ->
                      TeamMember.email member = TeamRoutes.email member_data ->
                      id' = id /\ member = existing).
    { intros id' member Hid' Hemail.
      assert (id' = id) by (eapply Hunique; eauto; congruence). subst. split; congruence. }
    destruct (TeamMember.active existing) eqn:Hactive.
    + cbn [snd]. repeat split; try assumption.
      * intros id' member Hid' Hemail. destruct (Hsame _ _ Hid' Hemail) as [-> ->].
        now rewrite Hactive.
      * intros Hnone. exfalso. now apply (Hnone id existing Hid).
    + cbn. repeat split.
      * apply TeamFacts.unique_emails_insert; [exact Hunique|].
        intros j b Hj Hemail. cbn in Hemail. eapply Hunique; eauto.
      * intros id' member Hid' Hemail. destruct (Hsame _ _ Hid' Hemail) as [-> ->].
        rewrite Hactive. eexists. split; [reflexivity|]. split; [reflexivity|].
        cbn. repeat split.
      * intros Hnone. exfalso. now apply (Hnone id existing Hid).
  - pose proof (proj1 (DB.get_or_none_None _ _) Hget) as Hnone. cbn. repeat split.
    + apply TeamFacts.unique_emails_insert; [exact Hunique|].
      intros j b Hj Hemail. cbn in Hemail. specialize (Hnone j b Hj). cbn in Hnone.
      apply String.eqb_neq in Hnone. contradiction.
    + intros id member Hid Hemail. specialize (Hnone id member Hid). cbn in Hnone.
      apply String.eqb_neq in Hnone. contradiction.
    + intros _. eexists _, _. split; [reflexivity|].
      split; [apply DB.next_id_fresh|]. split; [reflexivity|]. cbn. repeat split.
Qed.

(** [add_team_member_spec] at the sample table with one deactivated
    member, for a request with that member's email. *)
Lemma add_team_member_spec_witness :
  let member_data := TeamRoutes.mkTeamMemberCreate "x@example.com" "Xenia" "lead" true in
  let out := TeamRoutes.add_team_member member_data Samples.inactive_only in
  TeamFacts.unique_emails (DB.team_members (DB.db out.2))
  /\ DB.tasks (DB.db out.2) = DB.tasks (DB.db Samples.inactive_only)
  /\ DB.email_threads (DB.db out.2) = DB.email_threads (DB.db Samples.inactive_only)
  /\ DB.kanban_changes (DB.db out.2) = DB.kanban_changes (DB.db Samples.inactive_only)
  /\ DB.agent_activities (DB.db out.2) = DB.agent_activities (DB.db Samples.inactive_only)
  /\ (forall id member,
        DB.team_members (DB.db Samples.inactive_only) !! id = Some member ->
        TeamMember.email member = TeamRoutes.email member_data ->
        if TeamMember.active member then
          out = (Raise (HTTPException 500 "400: Team member already exists and is active"),
                 Samples.inactive_only)
        else
          exists member',
            out.1 = Ok id
            /\ DB.team_members (DB.db out.2)
               = <[id := member']> (DB.team_members (DB.db Samples.inactive_only))
            /\ TeamMember.active member' = true
            /\ TeamMember.name member' = TeamRoutes.name member_data
            /\ TeamMember.role member' = TeamRoutes.role member_data
            /\ TeamMember.email member' = TeamMember.email member
            /\ TeamMember.created_at member' = TeamMember.created_at member
            /\ TeamMember.last_response_at member' = TeamMember.last_response_at member
            /\ TeamMember.timezone member' = TeamMember.timezone member)
  /\ ((forall id member,
          DB.team_members (DB.db Samples.inactive_only) !! id = Some member ->
          TeamMember.email member <> TeamRoutes.email member_data) ->
      exists id member',
        out.1 = Ok id
        /\ DB.team_members (DB.db Samples.inactive_only) !! id = None
        /\ DB.team_members (DB.db out.2)
           = <[id := member']> (DB.team_members (DB.db Samples.inactive_only))
        /\ TeamMember.email member' = TeamRoutes.email member_data
        /\ TeamMember.name member' = TeamRoutes.name member_data
        /\ TeamMember.role member' = TeamRoutes.role member_data
        /\ TeamMember.active member' = TeamRoutes.active member_data
        /\ TeamMember.last_response_at member' = None).
Proof.
  apply (add_team_member_spec
           (TeamRoutes.mkTeamMemberCreate "x@example.com" "Xenia" "lead" true)
           Samples.inactive_only).
  intros i j a b Hi Hj _. simpl in Hi, Hj.
  apply lookup_singleton_Some in Hi as [<- _].
  apply lookup_singleton_Some in Hj as [<- _]. reflexivity.
Defined.

Module RemovalFacts.
Import DB Models.

(** Every task is assigned to a member that exists (the foreign key of
    [Task.assignee]). *)
Definition tasks_have_assignees (db : Database) : Prop :=
  forall k task, tasks db !! k = Some task -> is_Some (team_members db !! Task.assignee task).

(** The two outcomes of [remove_team_member] for a member that exists. *)
Lemma remove_team_member_run (member_id : Z) (permanent : bool) (member : TeamMember.t)
    (w : World) :
  team_members (db w) !! member_id = Some member ->
  Api.remove_team_member member_id permanent w =
  if permanent then
    (Ok "Team member permanently deleted",
     {| db := Api.delete_instance_recursive member_id (db w);
        time := time w; ticks := ticks w |})
  else
    (Ok "Team member deactivated",
     {| db := set_team_members
                (<[member_id := TeamMember.mk (TeamMember.created_at member)
                                  (time w (ticks w)) (TeamMember.email member)
                                  (TeamMember.name member) (TeamMember.role member) false
                                  (TeamMember.last_response_at member)
                                  (TeamMember.timezone member)]> (team_members (db w)))
                (db w);
        time := time w; ticks := S (ticks w) |}).
Proof.
  intros Hmember.
  unfold Api.remove_team_member, try_except, mbind, M_bind, get_db.
  rewrite Hmember. destruct permanent; reflexivity.
Qed.

End RemovalFacts.

(** X17. [remove_team_member]: for an id that names no member the answer is a
    500 (it wraps the 404 the body raises) and nothing is written. For a
    member that exists, without [permanent] only the member's row changes
    (it becomes inactive, its other columns but the update time kept) and
    no task, thread, change or activity row is touched; with [permanent]
    the member's row is gone, exactly the tasks assigned to the member
    are gone with it, and the change records stay. In both cases, if
    every task had an existing assignee before, every task has one
    after. *)
Theorem remove_team_member_spec (member_id : Z) (permanent : bool) (w : DB.World) :
  let out := Api.remove_team_member member_id permanent w in
  (DB.team_members (DB.db w) !! member_id = None ->
   out = (Raise (HTTPException 500 "404: Team member not found"), w))
  /\ (forall member,
        DB.team_members (DB.db w) !! member_id = Some member ->
        (permanent = false ->
         exists member',
           out.1 = Ok "Team member deactivated"
           /\ DB.team_members (DB.db out.2)
              = <[member_id := member']> (DB.team_members (DB.db w))
           /\ TeamMember.active member' = false
           /\ TeamMember.email member' = TeamMember.email member
           /\ TeamMember.name member' = TeamMember.name member
           /\ TeamMember.role member' = TeamMember.role member
           /\ TeamMember.created_at member' = TeamMember.created_at member
           /\ DB.tasks (DB.db out.2) = DB.tasks (DB.db w)
           /\ DB.email_threads (DB.db out.2) = DB.email_threads (DB.db w)
           /\ DB.kanban_changes (DB.db out.2) = DB.kanban_changes (DB.db w)
           /\ DB.agent_activities (DB.db out.2) = DB.agent_activities (DB.db w))
        /\ (permanent = true ->
            out.1 = Ok "Team member permanently deleted"
            /\ DB.team_members (DB.db out.2) = delete member_id (DB.team_members (DB.db w))
            /\ (forall k task,
                  DB.tasks (DB.db out.2) !! k = Some task <->
                  DB.tasks (DB.db w) !! k = Some task /\ Task.assignee task <> member_id)
            /\ DB.kanban_changes (DB.db out.2) = DB.kanban_changes (DB.db w))
        /\ (RemovalFacts.tasks_have_assignees (DB.db w) ->
            RemovalFacts.tasks_have_assignees (DB.db out.2))).
Proof.
  intros out. subst out. split.
  - intros Hnone.
    unfold Api.remove_team_member, DB.try_except, mbind, DB.M_bind, DB.get_db.
    now rewrite Hnone.
  - intros member Hmember.
    rewrite (RemovalFacts.remove_team_member_run member_id permanent member w Hmember).
    assert (Hcascade : forall k task,
              DB.tasks (Api.delete_instance_recursive member_id (DB.db w)) !! k = Some task <->
              DB.tasks (DB.db w) !! k = Some task /\ Task.assignee task <> member_id).
    { intros k task. cbn [Api.delete_instance_recursive DB.tasks].
      rewrite DB.delete_where_lookup.
      destruct (DB.tasks (DB.db w) !! k) as [task'|]; [|split; [discriminate | intros [? _]; discriminate]].
      destruct (bool_decide (Task.assignee task' = member_id)) eqn:Hd.
      - apply bool_decide_eq_true_1 in Hd. split; [discriminate|].
        intros [[= ->] Hne]. contradiction.
      - apply bool_decide_eq_false_1 in Hd. split.
        + intros [= ->]. auto.
        + now intros [-> _]. }
    split; [|split].
    + intros ->. eexists. split; [reflexivity|]. split; [reflexivity|]. cbn. repeat split.
    + intros ->. cbn [fst snd DB.db]. split; [reflexivity|]. split; [reflexivity|].
      split; [exact Hcascade | reflexivity].
    + intros Hinv k task. destruct permanent; cbn [snd DB.db].
      * intros Hk. apply Hcascade in Hk as [Hk Hne].
        destruct (Hinv k task Hk) as [assignee Hassignee].
        exists assignee. cbn. now rewrite lookup_delete_ne by congruence.
      * cbn. intros Hk. destruct (Hinv k task Hk) as [assignee Hassignee].
        destruct (decide (Task.assignee task = member_id)) as [->|Hne].
        -- rewrite lookup_insert_eq. eauto.
        -- rewrite lookup_insert_ne by congruence. eauto.
Qed.

(** X18. Deactivating a member and then posting the member's email to
    [add_team_member] gives the member back: the second request answers
    with the key the member had, no row is added (the table has the keys
    it had), the member is active again with the posted name and role,
    and every other member's row is as it was. *)
Theorem deactivate_then_add_reactivates (member_id : Z) (member : TeamMember.t)
    (name role : string) (active : bool) (w : DB.World) :
  TeamFacts.unique_emails (DB.team_members (DB.db w)) ->
  DB.team_members (DB.db w) !! member_id = Some member ->
  let w1 := (Api.remove_team_member member_id false w).2 in
  let out := TeamRoutes.add_team_member
               (TeamRoutes.mkTeamMemberCreate (TeamMember.email member) name role active) w1 in
  out.1 = Ok member_id
  /\ dom (DB.team_members (DB.db out.2)) = dom (DB.team_members (DB.db w))
  /\ (exists member',
        DB.team_members (DB.db out.2) !! member_id = Some member'
        /\ TeamMember.active member' = true
        /\ TeamMember.email member' = TeamMember.email member
        /\ TeamMember.name member' = name
        /\ TeamMember.role member' = role
        /\ TeamMember.created_at member' = TeamMember.created_at member)
  /\ (forall k, k <> member_id ->
        DB.team_members (DB.db out.2) !! k = DB.team_members (DB.db w) !! k)
  /\ DB.tasks (DB.db out.2) = DB.tasks (DB.db w).
Proof.
  intros Hunique Hmember w1 out. subst out w1.
  rewrite (RemovalFacts.remove_team_member_run member_id false member w Hmember).
  cbn [snd]. rewrite TeamFacts.add_team_member_run. cbn [DB.db DB.team_members DB.set_team_members TeamRoutes.email].
  set (inactive := TeamMember.mk _ _ _ _ _ false _ _).
  assert (Hu1 : TeamFacts.unique_emails (<[member_id := inactive]> (DB.team_members (DB.db w)))).
  { apply TeamFacts.unique_emails_insert; [exact Hunique|].
    intros j b Hj Hemail. cbn in Hemail. eapply Hunique; eauto. }
  pose proof (TeamFacts.get_by_email _ member_id inactive Hu1 (lookup_insert_eq _ _ _)) as Hget.
  change (TeamMember.email inactive) with (TeamMember.email member) in Hget.
  rewrite Hget. cbn.
  split; [reflexivity|]. split; [|split; [|split]].
  - rewrite !dom_insert_L. apply elem_of_dom_2 in Hmember.
    apply set_eq. intros k. rewrite !elem_of_union, elem_of_singleton.
    split; [intros [->|[->|Hk]]; assumption | now right; right].
  - eexists. split; [apply lookup_insert_eq|]. cbn. repeat split.
  - intros k Hk. now rewrite !lookup_insert_ne by congruence.
  - reflexivity.
Qed.

(** [deactivate_then_add_reactivates] for the member of the sample
    board. *)
Lemma deactivate_then_add_reactivates_witness :
  let w1 := (Api.remove_team_member 1 false RouteFacts.board).2 in
  let out := TeamRoutes.add_team_member
               (TeamRoutes.mkTeamMemberCreate (TeamMember.email RouteFacts.member)
                  "Ana Maria" "lead" true) w1 in
  out.1 = Ok 1
  /\ dom (DB.team_members (DB.db out.2)) = dom (DB.team_members (DB.db RouteFacts.board))
  /\ (exists member',
        DB.team_members (DB.db out.2) !! 1 = Some member'
        /\ TeamMember.active member' = true
        /\ TeamMember.email member' = TeamMember.email RouteFacts.member
        /\ TeamMember.name member' = "Ana Maria"
        /\ TeamMember.role member' = "lead"
        /\ TeamMember.created_at member' = TeamMember.created_at RouteFacts.member)
  /\ (forall k, k <> 1 ->
        DB.team_members (DB.db out.2) !! k = DB.team_members (DB.db RouteFacts.board) !! k)
  /\ DB.tasks (DB.db out.2) = DB.tasks (DB.db RouteFacts.board).
Proof.
  apply (deactivate_then_add_reactivates 1 RouteFacts.member "Ana Maria" "lead" true
           RouteFacts.board).
  - intros i j a b Hi Hj _. simpl in Hi, Hj.
    apply lookup_singleton_Some in Hi as [<- _].
    apply lookup_singleton_Some in Hj as [<- _]. reflexivity.
  - reflexivity.
Defined.


(** ** More on publishing ([tools/git_tools.py]) *)

Module SlashFacts.
Import Str GitTools.

Lemma contains_slash_cons (c : ascii) (s : string) :
  contains "/" (String c s) = Ascii.eqb c "/" || contains "/" s.
Proof.
  cbn [contains String.prefix].
  destruct (Ascii.ascii_dec "/" c) as [<-|Hne].
  - now destruct s.
  - assert (H : Ascii.eqb c "/" = false) by (apply Ascii.eqb_neq; congruence).
    now rewrite H.
Qed.

Lemma split_slash_no_slash (s : string) :
  contains "/" s = false -> split_slash s = [s].
Proof.
  induction s as [|c s IH]; [reflexivity|].
  rewrite contains_slash_cons. intros H. apply orb_false_iff in H as [Hc Hs].
  cbn [split_slash]. rewrite Hc, (IH Hs). reflexivity.
Qed.

Lemma split_slash_app (owner rest : string) :
  contains "/" owner = false ->
  split_slash (owner ++ "/" ++ rest) = owner :: split_slash rest.
Proof.
  induction owner as [|c owner IH]; [reflexivity|].
  rewrite contains_slash_cons. intros H. apply orb_false_iff in H as [Hc Hs].
  change (String c owner ++ "/" ++ rest) with (String c (owner ++ "/" ++ rest)).
  cbn [split_slash]. rewrite Hc, (IH Hs). reflexivity.
Qed.

Lemma append_nil_r (s : string) : s ++ "" = s.
Proof.
  induction s as [|c s IH]; [reflexivity|].
  change (String c s ++ "") with (String c (s ++ "")). now rewrite IH.
Qed.

End SlashFacts.

(** X20. The address of the published board, as the README and the success
    message compute it from [settings.github_repo]: with no repository
    set it raises [AttributeError]; with a repository name that has no
    slash it raises [IndexError]; with [owner/name], and also with
    [owner/name/more], it is [https://owner.github.io/name/]. *)
Theorem pages_url_spec (settings : GitTools.Settings) :
  (GitTools.github_repo settings = None ->
   GitTools.pages_url settings = Raise (AttributeError "NoneType" "split"))
  /\ (forall repo,
        GitTools.github_repo settings = Some repo ->
        Str.contains "/" repo = false ->
        GitTools.pages_url settings = Raise (IndexError "list index out of range"))
  /\ (forall owner name rest,
        GitTools.github_repo settings = Some (owner ++ "/" ++ name ++ rest) ->
        Str.contains "/" owner = false ->
        Str.contains "/" name = false ->
        rest = "" \/ (exists more, rest = "/" ++ more) ->
        GitTools.pages_url settings
        = Ok ("https://" ++ owner ++ ".github.io/" ++ name ++ "/")).
Proof.
  unfold GitTools.pages_url, GitTools.repo_part. split; [|split].
  - now intros ->.
  - intros repo -> Hno. rewrite (SlashFacts.split_slash_no_slash repo Hno). reflexivity.
  - intros owner name rest -> Howner Hname Hrest.
    rewrite (SlashFacts.split_slash_app owner (name ++ rest) Howner).
    destruct Hrest as [->|[more ->]].
    + rewrite SlashFacts.append_nil_r, (SlashFacts.split_slash_no_slash name Hname).
      reflexivity.
    + rewrite (SlashFacts.split_slash_app name more Hname). reflexivity.
Qed.

Module RunFacts.
Import GitTools.

Definition is_push (a : Action) : bool :=
  match a with GitPush _ => true | _ => false end.

Definition is_clone (a : Action) : bool :=
  match a with GitClone _ => true | _ => false end.

Definition is_make (a : Action) : bool :=
  match a with MakeTempDir => true | _ => false end.

Definition is_remove (a : Action) : bool :=
  match a with RemoveTempDir => true | _ => false end.

Definition count (p : Action -> bool) (log : list Action) : nat :=
  length (List.filter p log).

Lemma count_app (p : Action -> bool) (l1 l2 : list Action) :
  count p (l1 ++ l2) = (count p l1 + count p l2)%nat.
Proof. unfold count. now rewrite List.filter_app, length_app. Qed.

Lemma count_none (p : Action -> bool) (l : list Action) :
  Forall (fun a => p a = false) l -> count p l = 0%nat.
Proof.
  unfold count. induction 1 as [|a l Ha _ IH]; [reflexivity|].
  cbn [List.filter]. now rewrite Ha.
Qed.

Lemma count_some (p : Action -> bool) (l : list Action) :
  count p l <> 0%nat -> exists a, In a l /\ p a = true.
Proof.
  unfold count. induction l as [|a l IH]; [intros H; now elim H|].
  cbn [List.filter]. destruct (p a) eqn:Ha.
  - intros _. exists a. split; [now left | exact Ha].
  - intros H. destruct (IH H) as (b & Hb & Hpb). exists b. split; [now right | exact Hpb].
Qed.

Section Run.

Variable settings : Settings.
Variable host : Host.

(** What a run may do between making the directory and removing it. *)
Definition inner (a : Action) : Prop :=
  is_make a = false
  /\ is_remove a = false
  /\ (is_push a = true ->
      is_set (github_repo settings) = true /\ is_set (github_token settings) = true
      /\ staged_changes host = true)
  /\ (is_clone a = true -> is_set (github_repo settings) = true).

(** A computation that only adds [inner] actions to the log. *)
Definition emits {A} (m : G A) : Prop :=
  forall log, exists extra, (m log).2 = (log ++ extra)%list /\ Forall inner extra.

(** A computation that adds [inner] actions and, when it returns, has
    removed the directory as its last action. *)
Definition closes {A} (m : G A) : Prop :=
  forall log, In MakeTempDir log ->
    exists extra,
      Forall inner extra
      /\ (m log).2 = match (m log).1 with
                     | Ok _ => (log ++ extra ++ [RemoveTempDir])%list
                     | Raise _ => (log ++ extra)%list
                     end.

Lemma emits_ret {A} (a : A) : emits (mret a).
Proof. intros log. exists []. split; [symmetry; apply app_nil_r | constructor]. Qed.

Lemma emits_fail {A} (e : PyExc) : emits (@fail A e).
Proof. intros log. exists []. split; [symmetry; apply app_nil_r | constructor]. Qed.

Lemma emits_lift {A} (r : Result A) : emits (lift r).
Proof. intros log. exists []. split; [symmetry; apply app_nil_r | constructor]. Qed.

Lemma emits_act (a : Action) : inner a -> emits (act a).
Proof. intros Ha log. exists [a]. split; [reflexivity | now constructor]. Qed.

Lemma emits_bind {A B} (m : G A) (k : A -> G B) :
  emits m -> (forall a, emits (k a)) -> emits (m ≫= k).
Proof.
  intros Hm Hk log. destruct (Hm log) as (extra1 & Hlog1 & Hinner1).
  unfold mbind, G_bind. destruct (m log) as [[a|e] log1]; cbn [snd] in *; subst log1.
  - destruct (Hk a (log ++ extra1)%list) as (extra2 & Hlog2 & Hinner2).
    exists (extra1 ++ extra2)%list. split.
    + rewrite Hlog2. symmetry. apply app_assoc.
    + now apply Forall_app.
  - now exists extra1.
Qed.

Lemma emits_checked (ok : bool) (a : Action) (e : PyExc) :
  inner a -> emits (checked ok a e).
Proof.
  intros Ha. unfold checked. apply emits_bind; [now apply emits_act|].
  intros _. destruct ok; [apply emits_ret | apply emits_fail].
Qed.

Lemma closes_bind {A B} (m : G A) (k : A -> G B) :
  emits m -> (forall a, closes (k a)) -> closes (m ≫= k).
Proof.
  intros Hm Hk log Hmade. destruct (Hm log) as (extra1 & Hlog1 & Hinner1).
  unfold mbind, G_bind. destruct (m log) as [[a|e] log1]; cbn [snd] in *; subst log1.
  - destruct (Hk a (log ++ extra1)%list) as (extra2 & Hinner2 & Hlog2).
    { apply in_or_app. now left. }
    exists (extra1 ++ extra2)%list. split; [now apply Forall_app|].
    rewrite Hlog2. destruct (k a (log ++ extra1)%list).1; now rewrite <- !app_assoc.
  - now exists extra1.
Qed.

Lemma closes_cleanup {A} (result : A) :
  closes (_cleanup_temp_repo ≫= fun _ => mret result).
Proof.
  intros log Hmade. exists []. split; [constructor|].
  unfold mbind, G_bind, _cleanup_temp_repo.
  assert (H : existsb (fun a => match a with MakeTempDir => true | _ => false end) log = true).
  { apply existsb_exists. now exists MakeTempDir. }
  rewrite H. reflexivity.
Qed.

End Run.

End RunFacts.

Module RunShape.
Import GitTools RunFacts.

Ltac inner_action :=
  unfold inner; cbn [is_make is_remove is_push is_clone];
  repeat split; first [reflexivity | assumption | congruence].

Ltac emits_steps :=
  repeat first
    [ apply emits_ret | apply emits_fail | apply emits_lift
    | apply emits_checked; inner_action
    | apply emits_act; inner_action
    | apply emits_bind; [|intros ?]
    | match goal with
      | |- emits _ _ (if ?b then _ else _) =>
          destruct b eqn:?;
          try match goal with H : _ && _ = true |- _ => apply andb_prop in H as [? ?] end
      end ].

(** The log of a run: the directory is made, [inner] actions follow, the
    directory is removed. *)
Lemma run_log (settings : Settings) (host : Host)
    (_generate_kanban_html : list Column -> string) (last_updated : string)
    (db : DB.Database) :
  mkdtemp_ok host = true ->
  exists extra,
    Forall (inner settings host) extra
    /\ (_run settings host _generate_kanban_html last_updated db).2
       = (MakeTempDir :: extra ++ [RemoveTempDir])%list.
Proof.
  intros Hmk.
  pose (rest :=
    (_ ← (_ ← (if is_set (github_repo settings) then
                 let clone_url := "https://" ++ fmt (github_token settings) ++ "@github.com/"
                                  ++ fmt (github_repo settings) ++ ".git" in
                 _ ← act (GitClone clone_url);
                 if clone_ok host then mret tt
                 else checked (init_ok host) GitInit (CalledProcessError "git init")
               else checked (init_ok host) GitInit (CalledProcessError "git init"));
          checked (config_ok host) GitConfigUser (CalledProcessError "git config"));
     let board_data := _get_board_data db in
     let html_content := _generate_kanban_html board_data in
     _ ← checked (write_ok host) (WriteFile "index.html" html_content) (OSError "index.html");
     readme ← lift (readme_content settings last_updated board_data);
     _ ← checked (write_ok host) (WriteFile "README.md" readme) (OSError "README.md");
     _ ← checked (add_ok host) GitAddAll (CalledProcessError "git add");
     result_message ←
       (if staged_changes host then
          _ ← checked (commit_ok host) GitCommit (CalledProcessError "git commit");
          if is_set (github_repo settings) && is_set (github_token settings)
          then push_to_github settings host
          else mret not_configured_message
        else mret up_to_date_message);
     _ ← _cleanup_temp_repo;
     mret result_message) : G string).
  assert (Hbody : publish_body settings host _generate_kanban_html last_updated db []
                  = rest [MakeTempDir]).
  { unfold publish_body, _setup_temp_repo, rest, checked, mbind, G_bind, act.
    rewrite Hmk. reflexivity. }
  assert (Hrest : closes settings host rest).
  { unfold rest. apply closes_bind.
    - emits_steps.
    - intros _. cbv zeta.
      repeat first
        [ apply closes_cleanup
        | apply closes_bind; [unfold push_to_github; emits_steps | intros ?] ]. }
  destruct (Hrest [MakeTempDir]) as (extra & Hinner & Hlog); [now left|].
  exists extra. split; [exact Hinner|].
  unfold _run. rewrite Hbody.
  destruct (rest [MakeTempDir]) as [[message|e] log]; cbn [fst snd] in *; subst log.
  - reflexivity.
  - unfold _cleanup_temp_repo. cbn [existsb app orb]. reflexivity.
Qed.

End RunShape.

(** X21. A run of [PublishKanbanTool._run] on a machine where the temporary
    directory can be made, whatever else succeeds or fails and whatever
    the settings: the directory is made first and once, removed last and
    once; nothing is pushed unless a repository and a token are both set
    and the index holds changes; and nothing is cloned unless a
    repository is set. *)
Theorem publish_run_cleans_up (settings : GitTools.Settings) (host : GitTools.Host)
    (_generate_kanban_html : list GitTools.Column -> string) (last_updated : string)
    (db : DB.Database) :
  GitTools.mkdtemp_ok host = true ->
  let log := (GitTools._run settings host _generate_kanban_html last_updated db).2 in
  head log = Some GitTools.MakeTempDir
  /\ last log = Some GitTools.RemoveTempDir
  /\ RunFacts.count RunFacts.is_make log = 1%nat
  /\ RunFacts.count RunFacts.is_remove log = 1%nat
  /\ (RunFacts.count RunFacts.is_push log <> 0%nat ->
      GitTools.is_set (GitTools.github_repo settings) = true
      /\ GitTools.is_set (GitTools.github_token settings) = true
      /\ GitTools.staged_changes host = true)
  /\ (RunFacts.count RunFacts.is_clone log <> 0%nat ->
      GitTools.is_set (GitTools.github_repo settings) = true).
Proof.
  intros Hmk log. subst log.
  destruct (RunShape.run_log settings host _generate_kanban_html last_updated db Hmk)
    as (extra & Hinner & ->).
  assert (Hmake : RunFacts.count RunFacts.is_make extra = 0%nat).
  { apply RunFacts.count_none. eapply Forall_impl; [exact Hinner|]. now intros a (H & _). }
  assert (Hremove : RunFacts.count RunFacts.is_remove extra = 0%nat).
  { apply RunFacts.count_none. eapply Forall_impl; [exact Hinner|]. now intros a (_ & H & _). }
  assert (Hin : forall p, RunFacts.count p (GitTools.MakeTempDir :: extra ++ [GitTools.RemoveTempDir]) <> 0%nat ->
                p GitTools.MakeTempDir = false -> p GitTools.RemoveTempDir = false ->
                exists a, RunFacts.inner settings host a /\ p a = true).
  { intros p Hcount Hp1 Hp2. apply RunFacts.count_some in Hcount as (a & Ha & Hpa).
    destruct Ha as [<-|Ha]; [congruence|].
    apply in_app_or in Ha as [Ha|[<-|[]]]; [|congruence].
    exists a. split; [|exact Hpa]. rewrite Forall_forall in Hinner. apply Hinner.
    now apply list_elem_of_In. }
  change (GitTools.MakeTempDir :: extra ++ [GitTools.RemoveTempDir])%list
    with ([GitTools.MakeTempDir] ++ extra ++ [GitTools.RemoveTempDir])%list.
  split; [reflexivity|]. split; [now rewrite app_assoc, last_snoc|].
  rewrite !RunFacts.count_app, Hmake, Hremove.
  split; [reflexivity|]. split; [reflexivity|]. split.
  - intros Hcount. rewrite <- !RunFacts.count_app in Hcount.
    destruct (Hin RunFacts.is_push Hcount eq_refl eq_refl) as (a & (_ & _ & Hpush & _) & Ha).
    now apply Hpush.
  - intros Hcount. rewrite <- !RunFacts.count_app in Hcount.
    destruct (Hin RunFacts.is_clone Hcount eq_refl eq_refl) as (a & (_ & _ & _ & Hclone) & Ha).
    now apply Hclone.
Qed.

(** [publish_run_cleans_up] on the machine where every command
    succeeds, with a repository and no token. *)
Lemma publish_run_cleans_up_witness :
  let log := (GitTools._run PublishFacts.repository_only PublishFacts.willing_host
                PublishFacts.page "November 04, 2026 at 09:00 AM"
                (DB.db Samples.empty_world)).2 in
  head log = Some GitTools.MakeTempDir
  /\ last log = Some GitTools.RemoveTempDir
  /\ RunFacts.count RunFacts.is_make log = 1%nat
  /\ RunFacts.count RunFacts.is_remove log = 1%nat
  /\ (RunFacts.count RunFacts.is_push log <> 0%nat ->
      GitTools.is_set (GitTools.github_repo PublishFacts.repository_only) = true
      /\ GitTools.is_set (GitTools.github_token PublishFacts.repository_only) = true
      /\ GitTools.staged_changes PublishFacts.willing_host = true)
  /\ (RunFacts.count RunFacts.is_clone log <> 0%nat ->
      GitTools.is_set (GitTools.github_repo PublishFacts.repository_only) = true).
Proof.
  apply (publish_run_cleans_up PublishFacts.repository_only PublishFacts.willing_host
           PublishFacts.page "November 04, 2026 at 09:00 AM" (DB.db Samples.empty_world)).
  reflexivity.
Defined.

Module BoardFacts.
Import DB GitTools.

(** The rows [Task.select().join(TeamMember)] yields. *)
Definition joined (db : Database) : list (Z * Task.t) :=
  List.filter (fun row => bool_decide (is_Some (team_members db !! Task.assignee row.2)))
    (map_to_list (tasks db)).







End BoardFacts.

